(** * ResumeForge: the CV document composers of [server/]

    A shallow embedding of the Python sources
      - [server/weasy_pdf.py]         ([format_date], [generate_pdf]),
      - [server/pdf-generator.py]     (three string-built templates, dispatch),
      - [server/new-pdf-generator.py] (one string-built template, two aliases),
    and the properties of the design specification checked against them.

    Modelling conventions.
    - A CV record is what [json.load] hands to the code: a Python value built
      from [None], booleans, numbers, strings, lists and dicts ([pyval]).  An
      integer is a [Z]; a float carries the text [str()] gives it and whether
      it is nonzero, which is all the sources ask of it.  A dict is the list
      of its entries in order, read from the front; its keys are distinct.
    - A Python [str] is a Rocq [string], the UTF-8 bytes of the text.
      Whitespace, digits and letter case are the ASCII ones; bytes above 127
      are kept as they are by [strip], [capitalize] and [repr].  Python's
      own functions follow the Unicode tables there, so a property that
      depends on one of them is stated for ASCII texts ([is_ascii]).
    - [str()] of a value is [py_str]: of an integer its decimal digits, of a
      list or dict its [repr].  CPython refuses an integer of more than 4300
      digits and a value nested deeper than its stack; a property that
      depends on the text of a value is stated for the values on which
      [str()] is that text ([formattable]), one that depends on the
      conversion returning at all for records of bounded size ([bounded]).
    - An exception is a value: code that can raise returns [result A].
    - What a function reads from outside (clock, files, template engine,
      renderer) is an argument of its model.
    - The text of every template literal is the text of the source, with the
      double quote written as a back quote and restored by [py]. *)

From Stdlib Require Import String Ascii List ZArith Bool Lia DecimalString.
Import ListNotations.
Local Open Scope string_scope.
Local Open Scope Z_scope.

(** ** Python values *)

#[warnings="-register-all"]
Inductive pyval : Type :=
| PNone
| PBool (b : bool)
| PInt (n : Z)
| PFloat (repr : string) (nonzero : bool)
| PStr (s : string)
| PList (items : list pyval)
| PDict (entries : list (string * pyval)).

(** ** Exceptions *)

Inductive exn : Type :=
| AttributeError | TypeError | ValueError | KeyError | TemplateNotFound | RecursionError.

Inductive result (A : Type) : Type :=
| Ok (a : A)
| Raise (e : exn).
Arguments Ok {A} a.
Arguments Raise {A} e.

Definition bind {A B : Type} (m : result A) (k : A -> result B) : result B :=
  match m with
  | Ok a => k a
  | Raise e => Raise e
  end.

Notation "x <- m ;; k" := (bind m (fun x => k))
  (at level 61, m at next level, right associativity).

Definition succeeds {A : Type} (m : result A) : bool :=
  match m with Ok _ => true | Raise _ => false end.

(** ** Strings *)

Definition dq : string := String (ascii_of_nat 34) EmptyString.

(** [py s] is [s] with every back quote replaced by a double quote. *)
Fixpoint py (s : string) : string :=
  match s with
  | EmptyString => EmptyString
  | String c r => String (if Ascii.eqb c "`"%char then ascii_of_nat 34 else c) (py r)
  end.

Definition code (c : ascii) : Z := Z.of_nat (nat_of_ascii c).

(** [needle in s], as Python's [in] on strings. *)
Fixpoint contains (needle s : string) : bool :=
  if String.prefix needle s then true
  else match s with
       | EmptyString => false
       | String _ r => contains needle r
       end.

(** Number of places of [s] where [needle] starts. *)
Fixpoint occurrences (needle s : string) : nat :=
  match s with
  | EmptyString => O
  | String _ r => ((if String.prefix needle s then 1 else 0) + occurrences needle r)%nat
  end.

Fixpoint ends_with (suffix s : string) : bool :=
  if String.eqb suffix s then true
  else match s with
       | EmptyString => false
       | String _ r => ends_with suffix r
       end.

Fixpoint join (sep : string) (l : list string) : string :=
  match l with
  | [] => ""
  | [x] => x
  | x :: r => x ++ sep ++ join sep r
  end.

(** *** [str.strip()] *)

Definition is_space (c : ascii) : bool :=
  let n := code c in
  ((9 <=? n) && (n <=? 13)) || ((28 <=? n) && (n <=? 32)).

Fixpoint lstrip (s : string) : string :=
  match s with
  | EmptyString => EmptyString
  | String c r => if is_space c then lstrip r else s
  end.

Fixpoint rstrip (s : string) : string :=
  match s with
  | EmptyString => EmptyString
  | String c r =>
      match rstrip r with
      | EmptyString => if is_space c then EmptyString else String c EmptyString
      | r' => String c r'
      end
  end.

Definition strip (s : string) : string := rstrip (lstrip s).

(** *** [str.capitalize()] *)

Definition upper (c : ascii) : ascii :=
  let n := code c in
  if (97 <=? n) && (n <=? 122) then ascii_of_nat (nat_of_ascii c - 32) else c.

Definition lower (c : ascii) : ascii :=
  let n := code c in
  if (65 <=? n) && (n <=? 90) then ascii_of_nat (nat_of_ascii c + 32) else c.

Fixpoint lower_all (s : string) : string :=
  match s with
  | EmptyString => EmptyString
  | String c r => String (lower c) (lower_all r)
  end.

Definition capitalize (s : string) : string :=
  match s with
  | EmptyString => EmptyString
  | String c r => String (upper c) (lower_all r)
  end.

(** *** Iterating over a [str]: one item per UTF-8 encoded character *)

Definition is_continuation (c : ascii) : bool :=
  let n := code c in (128 <=? n) && (n <=? 191).

Fixpoint utf8_chars_aux (cur : string) (s : string) : list string :=
  match s with
  | EmptyString => [cur]
  | String c r =>
      if is_continuation c then utf8_chars_aux (cur ++ String c EmptyString) r
      else cur :: utf8_chars_aux (String c EmptyString) r
  end.

Definition utf8_chars (s : string) : list string :=
  match s with
  | EmptyString => []
  | String c r => utf8_chars_aux (String c EmptyString) r
  end.

(** *** [repr] of a [str] *)

Definition hex_digit (n : Z) : ascii :=
  if n <? 10 then ascii_of_nat (Z.to_nat (48 + n)) else ascii_of_nat (Z.to_nat (87 + n)).

Definition repr_char (quote : ascii) (c : ascii) : string :=
  let n := code c in
  if Ascii.eqb c quote then String "\"%char (String c EmptyString)
  else if n =? 92 then "\\"
  else if n =? 9 then "\t"
  else if n =? 10 then "\n"
  else if n =? 13 then "\r"
  else if (n <? 32) || (n =? 127)
       then "\x" ++ String (hex_digit (n / 16)) (String (hex_digit (n mod 16)) EmptyString)
  else String c EmptyString.

Fixpoint repr_chars (quote : ascii) (s : string) : string :=
  match s with
  | EmptyString => EmptyString
  | String c r => repr_char quote c ++ repr_chars quote r
  end.

Definition repr_str (s : string) : string :=
  let quote := if contains "'" s && negb (contains dq s)
               then ascii_of_nat 34 else "'"%char in
  String quote (repr_chars quote s ++ String quote EmptyString).

(** ** The Python operations the sources use *)

Definition str_of_Z (n : Z) : string := NilZero.string_of_int (Z.to_int n).

Fixpoint py_repr (v : pyval) : string :=
  match v with
  | PNone => "None"
  | PBool true => "True"
  | PBool false => "False"
  | PInt n => str_of_Z n
  | PFloat r _ => r
  | PStr s => repr_str s
  | PList items => "[" ++ join ", " (map py_repr items) ++ "]"
  | PDict entries =>
      "{" ++ join ", " (map (fun kv => repr_str (fst kv) ++ ": " ++ py_repr (snd kv)) entries) ++ "}"
  end.

(** [str(v)], which is also how an f-string formats [{v}]. *)
Definition py_str (v : pyval) : string :=
  match v with
  | PStr s => s
  | _ => py_repr v
  end.

(** *** Where [str()] is the text above *)

(** An integer that [str()] converts: at most 4300 digits. *)
Definition small (n : Z) : bool := Z.abs n <? 10 ^ 4300.

Fixpoint is_ascii (s : string) : bool :=
  match s with
  | EmptyString => true
  | String c r => (code c <? 128) && is_ascii r
  end.

(** [repr(v)] is [py_repr v]: the integers are small, the texts quoted in
    it are ASCII, and nothing is nested deeper than [depth]. *)
Fixpoint quotable (depth : nat) (v : pyval) : bool :=
  match v with
  | PNone | PBool _ | PFloat _ _ => true
  | PInt n => small n
  | PStr s => is_ascii s
  | PList items =>
      match depth with
      | O => false
      | S d => forallb (quotable d) items
      end
  | PDict entries =>
      match depth with
      | O => false
      | S d => forallb (fun kv => is_ascii (fst kv) && quotable d (snd kv)) entries
      end
  end.

(** [str(v)] is [py_str v]: any text, and what [repr] is right on. *)
Definition formattable (v : pyval) : bool :=
  match v with
  | PStr _ => true
  | _ => quotable 100 v
  end.

(** No integer of more than 4300 digits and nothing nested deeper than
    [depth]: [str()] of every part of [v] returns. *)
Fixpoint sized (depth : nat) (v : pyval) : bool :=
  match v with
  | PNone | PBool _ | PFloat _ _ | PStr _ => true
  | PInt n => small n
  | PList items =>
      match depth with
      | O => false
      | S d => forallb (sized d) items
      end
  | PDict entries =>
      match depth with
      | O => false
      | S d => forallb (fun kv => sized d (snd kv)) entries
      end
  end.

Definition bounded (v : pyval) : bool := sized 100 v.

(** Truth value of [v] in [if v:]. *)
Definition truthy (v : pyval) : bool :=
  match v with
  | PNone => false
  | PBool b => b
  | PInt n => negb (n =? 0)
  | PFloat _ nz => nz
  | PStr s => negb (String.eqb s "")
  | PList items => match items with [] => false | _ => true end
  | PDict entries => match entries with [] => false | _ => true end
  end.

Fixpoint lookup (k : string) (entries : list (string * pyval)) : option pyval :=
  match entries with
  | [] => None
  | (k', v) :: r => if String.eqb k k' then Some v else lookup k r
  end.

(** [d.get(k, default)]: only a dict has the method. *)
Definition get (d : pyval) (k : string) (default : pyval) : result pyval :=
  match d with
  | PDict entries =>
      match lookup k entries with
      | Some v => Ok v
      | None => Ok default
      end
  | _ => Raise AttributeError
  end.

(** [d.get(k)]. *)
Definition get1 (d : pyval) (k : string) : result pyval := get d k PNone.

(** [v.capitalize()]: only a [str] has the method. *)
Definition py_capitalize (v : pyval) : result string :=
  match v with
  | PStr s => Ok (capitalize s)
  | _ => Raise AttributeError
  end.

(** [s + v] for a [str] [s]. *)
Definition str_add (s : string) (v : pyval) : result string :=
  match v with
  | PStr t => Ok (s ++ t)
  | _ => Raise TypeError
  end.

(** The items of [for x in v]. *)
Definition iter (v : pyval) : result (list pyval) :=
  match v with
  | PList items => Ok items
  | PStr s => Ok (map PStr (utf8_chars s))
  | PDict entries => Ok (map (fun kv => PStr (fst kv)) entries)
  | _ => Raise TypeError
  end.

(** [d[k]]. *)
Definition getitem (d : pyval) (k : string) : result pyval :=
  match d with
  | PDict entries =>
      match lookup k entries with
      | Some v => Ok v
      | None => Raise KeyError
      end
  | _ => Raise TypeError
  end.

(** [v == s] for a string literal [s]. *)
Definition eq_str (v : pyval) (s : string) : bool :=
  match v with
  | PStr t => String.eqb t s
  | _ => false
  end.

(** [a or b]: [b] is evaluated only when [a] is falsy. *)
Definition py_or (a b : result pyval) : result pyval :=
  x <- a ;;
  if truthy x then Ok x else b.

(** [for x in xs: html += body(x)], as the text appended to [html]. *)
Fixpoint for_each (xs : list pyval) (body : pyval -> result string) : result string :=
  match xs with
  | [] => Ok ""
  | x :: r =>
      s <- body x ;;
      t <- for_each r body ;;
      Ok (s ++ t)
  end.

(** ** [datetime.strptime(s, '%Y-%m-%d')] and [strftime]

    [strptime] compiles the format to the regular expression
    [(\d\d\d\d)-(1[0-2]|0[1-9]|[1-9])-(3[0-1]|[1-2]\d|0[1-9]|[1-9]| [1-9])],
    matches it at the start of the text, raises [ValueError] when it does not
    match or when text remains after the match, and raises [ValueError] again
    when the three numbers are not a calendar date of the years 1 to 9999. *)

Module Datetime.

Record date : Type := mkdate { year : Z; month : Z; day : Z }.

Definition is_digit (c : ascii) : bool := (48 <=? code c) && (code c <=? 57).
Definition in_range (lo hi : Z) (c : ascii) : bool :=
  (48 + lo <=? code c) && (code c <=? 48 + hi).
Definition digit (c : ascii) : Z := code c - 48.

(** [(\d\d\d\d)-] *)
Definition match_year (s : string) : option (Z * string) :=
  match s with
  | String a (String b (String c (String d (String sep r)))) =>
      if is_digit a && is_digit b && is_digit c && is_digit d && Ascii.eqb sep "-"%char
      then Some (1000 * digit a + 100 * digit b + 10 * digit c + digit d, r)
      else None
  | _ => None
  end.

(** [(1[0-2]|0[1-9]|[1-9])-]: the alternatives in order, the next one tried
    when the hyphen does not follow. *)
Definition match_month (s : string) : option (Z * string) :=
  let two :=
    match s with
    | String a (String b (String sep r)) =>
        if ((Ascii.eqb a "1"%char && in_range 0 2 b) || (Ascii.eqb a "0"%char && in_range 1 9 b))
           && Ascii.eqb sep "-"%char
        then Some (10 * digit a + digit b, r) else None
    | _ => None
    end in
  match two with
  | Some m => Some m
  | None =>
      match s with
      | String a (String sep r) =>
          if in_range 1 9 a && Ascii.eqb sep "-"%char then Some (digit a, r) else None
      | _ => None
      end
  end.

(** [(3[0-1]|[1-2]\d|0[1-9]|[1-9]| [1-9])]: the first alternative that
    matches ends the match. *)
Definition match_day (s : string) : option (Z * string) :=
  let two :=
    match s with
    | String a (String b r) =>
        if (Ascii.eqb a "3"%char && in_range 0 1 b) || (in_range 1 2 a && is_digit b)
           || (Ascii.eqb a "0"%char && in_range 1 9 b)
        then Some (10 * digit a + digit b, r) else None
    | _ => None
    end in
  match two with
  | Some d => Some d
  | None =>
      match s with
      | String a r =>
          if in_range 1 9 a then Some (digit a, r)
          else match r with
               | String b r' =>
                   if Ascii.eqb a " "%char && in_range 1 9 b then Some (digit b, r') else None
               | EmptyString => None
               end
      | EmptyString => None
      end
  end.

Definition is_leap (y : Z) : bool :=
  ((y mod 4 =? 0) && negb (y mod 100 =? 0)) || (y mod 400 =? 0).

Definition days_in_month (y m : Z) : Z :=
  if m =? 2 then (if is_leap y then 29 else 28)
  else if (m =? 4) || (m =? 6) || (m =? 9) || (m =? 11) then 30
  else 31.

(** [datetime.strptime(s, '%Y-%m-%d')]. *)
Definition strptime (s : string) : result date :=
  match match_year s with
  | None => Raise ValueError
  | Some (y, r1) =>
      match match_month r1 with
      | None => Raise ValueError
      | Some (m, r2) =>
          match match_day r2 with
          | None => Raise ValueError
          | Some (d, r3) =>
              if negb (String.eqb r3 "") then Raise ValueError
              else if (1 <=? y) && (d <=? days_in_month y m) then Ok (mkdate y m d)
              else Raise ValueError
          end
      end
  end.

(** [%b] and [%B] in the C locale, which Python runs [strftime] in unless the
    program calls [setlocale]. *)
Definition month_name (m : Z) : string :=
  match m with
  | 1 => "January" | 2 => "February" | 3 => "March" | 4 => "April"
  | 5 => "May" | 6 => "June" | 7 => "July" | 8 => "August"
  | 9 => "September" | 10 => "October" | 11 => "November" | _ => "December"
  end.

Definition month_abbr (m : Z) : string := String.substring 0 3 (month_name m).

(** [s] with zeros before it, up to [width] characters. *)
Definition zero_pad (width : nat) (s : string) : string :=
  String.concat "" (repeat "0" (width - String.length s)%nat) ++ s.

(** [%Y] as the C library of the platform writes it; on Linux, the digits
    of the year without leading zeros: [999] for the year 999. *)
Definition fmt_Y (d : date) : string := str_of_Z (year d).

(** [d.strftime('%b %Y')]. *)
Definition strftime_b_Y (d : date) : string := month_abbr (month d) ++ " " ++ fmt_Y d.

(** [d.strftime('%B %d, %Y')]. *)
Definition strftime_B_d_Y (d : date) : string :=
  month_name (month d) ++ " " ++ zero_pad 2 (str_of_Z (day d)) ++ ", " ++ fmt_Y d.

End Datetime.

(** ** [server/weasy_pdf.py] *)

Module WeasyPdf.

(** [format_date(date_str, is_current=False)].  The first [try] converts and
    strips [date_str] (rebinding it) and parses it; [ValueError] from the
    parser is handled by returning the text [date_str] is bound to by then.
    [str()] and [strip()] cannot raise on the values of [pyval], so the inner
    handlers have nothing to catch. *)
Definition format_date (date_str is_current : pyval) : result string :=
  if truthy is_current then Ok "Present"
  else if negb (truthy date_str) then Ok ""
  else
    let stripped :=
      match date_str with
      | PStr s => strip s
      | v => strip (py_str v)
      end in
    if String.eqb stripped "" then Ok ""
    else
      match Datetime.strptime stripped with
      | Ok date_obj => Ok (Datetime.strftime_b_Y date_obj)
      | Raise ValueError | Raise TypeError | Raise AttributeError =>
          Ok (if truthy (PStr stripped) then strip (py_str (PStr stripped)) else "")
      | Raise e => Raise e
      end.

(** *** [prepare_image_for_template] and [generate_pdf]

    What the function reads from its surroundings is made explicit: the
    template files of [templates/] and the Jinja engine ([get_template]: a
    template is what it renders a context to), the files on disk
    ([read_base64], [path_exists]), the WeasyPrint renderer ([write_pdf]) and,
    as an argument of [generate_pdf], the clock reading of [datetime.now()]. *)

(** The context handed to [template.render]; the entry [format_date] is the
    function above, the same in every context. *)
Record context : Type := mkcontext {
  cv : pyval;
  now : string;
  photo_url : option pyval
}.

Definition template : Type := context -> result string.

(** [photo_url.split('.')[-1]] *)
Fixpoint last_segment (s : string) : string :=
  match s with
  | EmptyString => EmptyString
  | String c r =>
      if contains "." r then last_segment r
      else if Ascii.eqb c "."%char then r else s
  end.

(** [os.path.join(a, b)] on POSIX. *)
Definition path_join (a b : string) : string :=
  if String.prefix "/" b then b
  else if String.eqb a "" || ends_with "/" a then a ++ b
  else a ++ "/" ++ b.

Section GeneratePdf.

Variable TEMPLATES_DIR : string.
Variable get_template : string -> result template.
(** The base64 text of a file's bytes, when the path exists and can be read. *)
Variable read_base64 : string -> option string.
Variable path_exists : string -> bool.
(** [HTML(string=html).write_pdf(...)], with the style sheet file if any. *)
Variable write_pdf : string -> option string -> result string.

Definition prepare_image_for_template (photo_url : pyval) : result pyval :=
  if negb (truthy photo_url) then Ok PNone
  else
    match photo_url with
    | PStr url =>
        if String.prefix "data:image" url then Ok photo_url
        else
          match read_base64 url with
          | Some encoded_img =>
              let img_type := lower_all (last_segment url) in
              let img_type := if String.eqb img_type "jpg" then "jpeg" else img_type in
              Ok (PStr ("data:image/" ++ img_type ++ ";base64," ++ encoded_img))
          | None => Ok photo_url
          end
    | _ => Raise AttributeError
    end.

(** The context of one run started at clock reading [clock]. *)
Definition build_context (clock : Datetime.date) (data : pyval) : result context :=
  personal <- get data "personal" (PDict []) ;;
  photo <- get1 personal "photoUrl" ;;
  if truthy photo then
    personal <- getitem data "personal" ;;
    photoUrl <- getitem personal "photoUrl" ;;
    prepared <- prepare_image_for_template photoUrl ;;
    Ok (mkcontext data (Datetime.strftime_B_d_Y clock) (Some prepared))
  else Ok (mkcontext data (Datetime.strftime_B_d_Y clock) None).

(** [html_content]: the template rendered on the context. *)
Definition html_content (clock : Datetime.date) (data template_name : pyval) : result string :=
  ctx <- build_context clock data ;;
  tpl <- get_template (py_str template_name ++ ".html") ;;
  tpl ctx.

Definition generate_pdf (clock : Datetime.date) (data template_name : pyval) : result string :=
  html <- html_content clock data template_name ;;
  let css_path := path_join TEMPLATES_DIR (py_str template_name ++ ".css") in
  write_pdf html (if path_exists css_path then Some css_path else None).

End GeneratePdf.

End WeasyPdf.


(** ** [server/pdf-generator.py] *)

Module PdfGenerator.

(** [' | LinkedIn: ' + personal.get('linkedin', '') if personal.get('linkedin') else ''],
    the same expression in the three templates. *)
Definition linkedin_fragment (personal : pyval) : result string :=
  present <- get1 personal "linkedin" ;;
  if truthy present then
    linkedin <- get personal "linkedin" (PStr "") ;;
    str_add " | LinkedIn: " linkedin
  else Ok "".

(** [f'<p>{x.get("achievements", "")}</p>' if x.get('achievements') else ''] *)
Definition achievements_fragment (entry : pyval) : result string :=
  present <- get1 entry "achievements" ;;
  if truthy present then
    achievements <- get entry "achievements" (PStr "") ;;
    Ok ("<p>" ++ py_str achievements ++ "</p>")
  else Ok "".

(** [f" (Expires: {cert.get('expirationDate')})" if cert.get('expirationDate') else ""] *)
Definition expiration_fragment (cert : pyval) : result string :=
  present <- get1 cert "expirationDate" ;;
  if truthy present then
    expirationDate <- get1 cert "expirationDate" ;;
    Ok (" (Expires: " ++ py_str expirationDate ++ ")")
  else Ok "".

(** [current = x.get('isCurrent', False)] and
    [end_date = "Present" if current else x.get('endDate', '')] *)
Definition end_date_of (entry : pyval) : result pyval :=
  current <- get entry "isCurrent" (PBool false) ;;
  if truthy current then Ok (PStr "Present") else get entry "endDate" (PStr "").

(** *** [generate_professional_template] *)

Module Professional.

(** The style sheet and the opening of the header, up to the name. *)
Definition head : string := py "
    <html>
    <head>
        <meta charset=`UTF-8`>
        <style>
            @page {
                size: A4;
                margin: 1cm;
            }
            body {
                font-family: Arial, sans-serif;
                font-size: 11pt;
                color: #333;
                line-height: 1.4;
            }
            .header {
                margin-bottom: 20px;
            }
            .name {
                font-size: 24pt;
                font-weight: bold;
                color: #043e44;
                margin: 0;
            }
            .title {
                font-size: 14pt;
                color: #03d27c;
                margin: 5px 0 10px 0;
            }
            .contact-info {
                margin-bottom: 15px;
                font-size: 10pt;
            }
            .section {
                margin-bottom: 20px;
            }
            .section-title {
                font-size: 14pt;
                font-weight: bold;
                color: #043e44;
                border-bottom: 2px solid #03d27c;
                padding-bottom: 5px;
                margin-bottom: 10px;
            }
            .company-title {
                font-weight: bold;
                margin-bottom: 0;
            }
            .job-title {
                font-style: italic;
                color: #03d27c;
            }
            .date-range {
                font-size: 10pt;
                color: #666;
            }
            .responsibilities {
                margin-top: 5px;
            }
            .school-name {
                font-weight: bold;
            }
            .degree {
                font-style: italic;
            }
            .skills-list {
                column-count: 2;
                column-gap: 20px;
            }
            .skills-item {
                margin-bottom: 5px;
                break-inside: avoid;
            }
            .language {
                margin-bottom: 5px;
            }
            .language-name {
                font-weight: bold;
            }
            .language-level {
                font-style: italic;
                color: #666;
            }
        </style>
    </head>
    <body>
        <div class=`header`>
            <h1 class=`name`>".

Definition header (personal : pyval) : result string :=
  firstName <- get personal "firstName" (PStr "") ;;
  lastName <- get personal "lastName" (PStr "") ;;
  professionalTitle <- get personal "professionalTitle" (PStr "") ;;
  email <- get personal "email" (PStr "") ;;
  phone <- get personal "phone" (PStr "") ;;
  linkedin <- linkedin_fragment personal ;;
  Ok (head ++ py_str firstName ++ " " ++ py_str lastName ++ py "</h1>
            <div class=`title`>"
      ++ py_str professionalTitle ++ py "</div>
            <div class=`contact-info`>
                "
      ++ py_str email ++ " | " ++ py_str phone ++ "
                "
      ++ linkedin ++ "
            </div>
        </div>
    ").

Definition summary_section (summary : pyval) : result string :=
  present <- get1 summary "summary" ;;
  if truthy present then
    text <- get summary "summary" (PStr "") ;;
    Ok (py "
        <div class=`section`>
            <div class=`section-title`>Professional Summary</div>
            <p>" ++ py_str text ++ "</p>
        </div>
        ")
  else Ok "".

Definition skills_item (skill : pyval) : result string :=
  Ok (py "<div class=`skills-item`>• " ++ py_str skill ++ "</div>").

Definition technical_skills (keyCompetencies : pyval) : result string :=
  present <- get1 keyCompetencies "technicalSkills" ;;
  if truthy present then
    skills <- get keyCompetencies "technicalSkills" (PList []) ;;
    xs <- iter skills ;;
    items <- for_each xs skills_item ;;
    Ok ("<strong>Technical Skills:</strong><br/>" ++ items)
  else Ok "".

Definition soft_skills (keyCompetencies : pyval) : result string :=
  present <- get1 keyCompetencies "softSkills" ;;
  if truthy present then
    skills <- get keyCompetencies "softSkills" (PList []) ;;
    xs <- iter skills ;;
    items <- for_each xs skills_item ;;
    Ok ("<br/><strong>Soft Skills:</strong><br/>" ++ items)
  else Ok "".

Definition competencies_section (keyCompetencies : pyval) : result string :=
  present <- py_or (get1 keyCompetencies "technicalSkills") (get1 keyCompetencies "softSkills") ;;
  if truthy present then
    technical <- technical_skills keyCompetencies ;;
    soft <- soft_skills keyCompetencies ;;
    Ok (py "
        <div class=`section`>
            <div class=`section-title`>Key Competencies</div>
            <div class=`skills-list`>
        " ++ technical ++ soft ++ "</div></div>")
  else Ok "".

Definition experience_entry (exp : pyval) : result string :=
  end_date <- end_date_of exp ;;
  companyName <- get exp "companyName" (PStr "") ;;
  jobTitle <- get exp "jobTitle" (PStr "") ;;
  startDate <- get exp "startDate" (PStr "") ;;
  responsibilities <- get exp "responsibilities" (PStr "") ;;
  Ok (py "
            <div style=`margin-bottom: 15px;`>
                <p class=`company-title`>" ++ py_str companyName ++ py "</p>
                <p class=`job-title`>" ++ py_str jobTitle ++ py "</p>
                <p class=`date-range`>"
      ++ py_str startDate ++ " - " ++ py_str end_date ++ py "</p>
                <div class=`responsibilities`>
                    "
      ++ py_str responsibilities ++ "
                </div>
            </div>
            ").

Definition experience_section (experiences : pyval) : result string :=
  if truthy experiences then
    xs <- iter experiences ;;
    entries <- for_each xs experience_entry ;;
    Ok (py "
        <div class=`section`>
            <div class=`section-title`>Professional Experience</div>
        " ++ entries ++ "</div>")
  else Ok "".

Definition education_entry (edu : pyval) : result string :=
  schoolName <- get edu "schoolName" (PStr "") ;;
  major <- get edu "major" (PStr "") ;;
  startDate <- get edu "startDate" (PStr "") ;;
  endDate <- get edu "endDate" (PStr "") ;;
  achievements <- achievements_fragment edu ;;
  Ok (py "
            <div style=`margin-bottom: 15px;`>
                <p class=`school-name`>" ++ py_str schoolName ++ py "</p>
                <p class=`degree`>" ++ py_str major ++ py "</p>
                <p class=`date-range`>"
      ++ py_str startDate ++ " - " ++ py_str endDate ++ "</p>
                "
      ++ achievements ++ "
            </div>
            ").

Definition education_section (educations : pyval) : result string :=
  if truthy educations then
    xs <- iter educations ;;
    entries <- for_each xs education_entry ;;
    Ok (py "
        <div class=`section`>
            <div class=`section-title`>Education</div>
        " ++ entries ++ "</div>")
  else Ok "".

Definition certificate_entry (cert : pyval) : result string :=
  expiration <- expiration_fragment cert ;;
  name <- get cert "name" (PStr "") ;;
  institution <- get cert "institution" (PStr "") ;;
  dateAcquired <- get cert "dateAcquired" (PStr "") ;;
  achievements <- achievements_fragment cert ;;
  Ok (py "
            <div style=`margin-bottom: 10px;`>
                <p><strong>" ++ py_str name ++ "</strong> - " ++ py_str institution ++ py "</p>
                <p class=`date-range`>Acquired: "
      ++ py_str dateAcquired ++ expiration ++ "</p>
                "
      ++ achievements ++ "
            </div>
            ").

Definition certificates_section (certificates : pyval) : result string :=
  if truthy certificates then
    xs <- iter certificates ;;
    entries <- for_each xs certificate_entry ;;
    Ok (py "
        <div class=`section`>
            <div class=`section-title`>Certifications</div>
        " ++ entries ++ "</div>")
  else Ok "".

Definition language_entry (lang : pyval) : result string :=
  name <- get lang "name" (PStr "") ;;
  proficiency <- get lang "proficiency" (PStr "") ;;
  level <- py_capitalize proficiency ;;
  Ok (py "
            <div class=`language`>
                <span class=`language-name`>" ++ py_str name ++ py "</span> - 
                <span class=`language-level`>" ++ level ++ "</span>
            </div>
            ").

Definition languages_section (languages : pyval) : result string :=
  if truthy languages then
    xs <- iter languages ;;
    entries <- for_each xs language_entry ;;
    Ok (py "
        <div class=`section`>
            <div class=`section-title`>Languages</div>
        " ++ entries ++ "</div>")
  else Ok "".

Definition additional_section (additional : pyval) : result string :=
  present <- get1 additional "skills" ;;
  if truthy present then
    skills <- get additional "skills" (PList []) ;;
    xs <- iter skills ;;
    items <- for_each xs skills_item ;;
    Ok (py "
        <div class=`section`>
            <div class=`section-title`>Additional Skills</div>
            <div class=`skills-list`>
        " ++ items ++ "</div></div>")
  else Ok "".

Definition footer : string := "
    </body>
    </html>
    ".

End Professional.

Definition generate_professional_template (cv_data : pyval) : result string :=
  personal <- get cv_data "personal" (PDict []) ;;
  summary <- get cv_data "summary" (PDict []) ;;
  keyCompetencies <- get cv_data "keyCompetencies" (PDict []) ;;
  experiences <- get cv_data "experiences" (PList []) ;;
  educations <- get cv_data "educations" (PList []) ;;
  certificates <- get cv_data "certificates" (PList []) ;;
  languages <- get cv_data "languages" (PList []) ;;
  additional <- get cv_data "additional" (PDict []) ;;
  header <- Professional.header personal ;;
  s_summary <- Professional.summary_section summary ;;
  s_competencies <- Professional.competencies_section keyCompetencies ;;
  s_experience <- Professional.experience_section experiences ;;
  s_education <- Professional.education_section educations ;;
  s_certificates <- Professional.certificates_section certificates ;;
  s_languages <- Professional.languages_section languages ;;
  s_additional <- Professional.additional_section additional ;;
  Ok (header ++ s_summary ++ s_competencies ++ s_experience ++ s_education
      ++ s_certificates ++ s_languages ++ s_additional ++ Professional.footer).

(** *** [generate_modern_template] *)

Module Modern.

Definition head : string := py "
    <html>
    <head>
        <meta charset=`UTF-8`>
        <style>
            @page {
                size: A4;
                margin: 1cm;
            }
            body {
                font-family: Arial, sans-serif;
                font-size: 11pt;
                color: #333;
                line-height: 1.4;
                margin: 0;
                padding: 0;
            }
            .header {
                background-color: #03d27c;
                color: white;
                padding: 25px;
                margin-bottom: 20px;
            }
            .name {
                font-size: 24pt;
                font-weight: bold;
                margin: 0;
            }
            .title {
                font-size: 14pt;
                margin: 5px 0 10px 0;
                opacity: 0.9;
            }
            .contact-info {
                font-size: 10pt;
                opacity: 0.9;
            }
            .main-content {
                padding: 0 20px;
            }
            .section {
                margin-bottom: 20px;
            }
            .section-title {
                font-size: 14pt;
                font-weight: bold;
                color: #03d27c;
                margin-bottom: 10px;
                display: flex;
                align-items: center;
            }
            .section-title:before {
                content: ``;
                display: inline-block;
                width: 10px;
                height: 10px;
                background-color: #03d27c;
                margin-right: 10px;
            }
            .company-title {
                font-weight: bold;
                margin-bottom: 0;
                color: #043e44;
            }
            .job-title {
                font-weight: bold;
                color: #03d27c;
            }
            .date-range {
                font-size: 10pt;
                color: #666;
                margin-bottom: 5px;
            }
            .responsibilities {
                margin-top: 5px;
            }
            .school-name {
                font-weight: bold;
                color: #043e44;
            }
            .degree {
                font-weight: bold;
            }
            .skills-list {
                display: flex;
                flex-wrap: wrap;
                gap: 10px;
            }
            .skill-pill {
                background-color: #eee;
                padding: 5px 10px;
                border-radius: 15px;
                font-size: 10pt;
            }
            .language {
                margin-bottom: 5px;
            }
            .language-name {
                font-weight: bold;
                color: #043e44;
            }
            .language-level {
                font-size: 10pt;
                color: #03d27c;
            }
            .timeline-entry {
                position: relative;
                padding-left: 20px;
                margin-bottom: 15px;
            }
            .timeline-entry:before {
                content: ``;
                position: absolute;
                left: 0;
                top: 0;
                bottom: 0;
                width: 2px;
                background-color: #eee;
            }
            .timeline-entry:after {
                content: ``;
                position: absolute;
                left: -4px;
                top: 0;
                width: 10px;
                height: 10px;
                border-radius: 50%;
                background-color: #03d27c;
            }
        </style>
    </head>
    <body>
        <div class=`header`>
            <h1 class=`name`>".

Definition header (personal : pyval) : result string :=
  firstName <- get personal "firstName" (PStr "") ;;
  lastName <- get personal "lastName" (PStr "") ;;
  professionalTitle <- get personal "professionalTitle" (PStr "") ;;
  email <- get personal "email" (PStr "") ;;
  phone <- get personal "phone" (PStr "") ;;
  linkedin <- linkedin_fragment personal ;;
  Ok (head ++ py_str firstName ++ " " ++ py_str lastName ++ py "</h1>
            <div class=`title`>"
      ++ py_str professionalTitle ++ py "</div>
            <div class=`contact-info`>
                "
      ++ py_str email ++ " | " ++ py_str phone ++ "
                "
      ++ linkedin ++ py "
            </div>
        </div>
        
        <div class=`main-content`>
    ").

Definition summary_section (summary : pyval) : result string :=
  present <- get1 summary "summary" ;;
  if truthy present then
    text <- get summary "summary" (PStr "") ;;
    Ok (py "
        <div class=`section`>
            <div class=`section-title`>Professional Summary</div>
            <p>" ++ py_str text ++ "</p>
        </div>
        ")
  else Ok "".

Definition experience_entry (exp : pyval) : result string :=
  end_date <- end_date_of exp ;;
  companyName <- get exp "companyName" (PStr "") ;;
  jobTitle <- get exp "jobTitle" (PStr "") ;;
  startDate <- get exp "startDate" (PStr "") ;;
  responsibilities <- get exp "responsibilities" (PStr "") ;;
  Ok (py "
            <div class=`timeline-entry`>
                <p class=`company-title`>" ++ py_str companyName ++ py "</p>
                <p class=`job-title`>" ++ py_str jobTitle ++ py "</p>
                <p class=`date-range`>"
      ++ py_str startDate ++ " - " ++ py_str end_date ++ py "</p>
                <div class=`responsibilities`>
                    "
      ++ py_str responsibilities ++ "
                </div>
            </div>
            ").

Definition experience_section (experiences : pyval) : result string :=
  if truthy experiences then
    xs <- iter experiences ;;
    entries <- for_each xs experience_entry ;;
    Ok (py "
        <div class=`section`>
            <div class=`section-title`>Experience</div>
        " ++ entries ++ "</div>")
  else Ok "".

Definition education_entry (edu : pyval) : result string :=
  schoolName <- get edu "schoolName" (PStr "") ;;
  major <- get edu "major" (PStr "") ;;
  startDate <- get edu "startDate" (PStr "") ;;
  endDate <- get edu "endDate" (PStr "") ;;
  achievements <- achievements_fragment edu ;;
  Ok (py "
            <div class=`timeline-entry`>
                <p class=`school-name`>" ++ py_str schoolName ++ py "</p>
                <p class=`degree`>" ++ py_str major ++ py "</p>
                <p class=`date-range`>"
      ++ py_str startDate ++ " - " ++ py_str endDate ++ "</p>
                "
      ++ achievements ++ "
            </div>
            ").

Definition education_section (educations : pyval) : result string :=
  if truthy educations then
    xs <- iter educations ;;
    entries <- for_each xs education_entry ;;
    Ok (py "
        <div class=`section`>
            <div class=`section-title`>Education</div>
        " ++ entries ++ "</div>")
  else Ok "".

Definition skill_pill (skill : pyval) : result string :=
  Ok (py "<div class=`skill-pill`>" ++ py_str skill ++ "</div>").

Definition technical_skills (keyCompetencies : pyval) : result string :=
  present <- get1 keyCompetencies "technicalSkills" ;;
  if truthy present then
    skills <- get keyCompetencies "technicalSkills" (PList []) ;;
    xs <- iter skills ;;
    items <- for_each xs skill_pill ;;
    Ok (py "
            <div style=`margin-bottom: 10px;`>
                <p style=`color: #043e44; font-weight: bold;`>Technical Skills</p>
                <div class=`skills-list`>
            " ++ items ++ "</div></div>")
  else Ok "".

Definition soft_skills (keyCompetencies : pyval) : result string :=
  present <- get1 keyCompetencies "softSkills" ;;
  if truthy present then
    skills <- get keyCompetencies "softSkills" (PList []) ;;
    xs <- iter skills ;;
    items <- for_each xs skill_pill ;;
    Ok (py "
            <div>
                <p style=`color: #043e44; font-weight: bold;`>Soft Skills</p>
                <div class=`skills-list`>
            " ++ items ++ "</div></div>")
  else Ok "".

Definition competencies_section (keyCompetencies : pyval) : result string :=
  present <- py_or (get1 keyCompetencies "technicalSkills") (get1 keyCompetencies "softSkills") ;;
  if truthy present then
    technical <- technical_skills keyCompetencies ;;
    soft <- soft_skills keyCompetencies ;;
    Ok (py "
        <div class=`section`>
            <div class=`section-title`>Key Competencies</div>
        " ++ technical ++ soft ++ "</div>")
  else Ok "".

Definition certificate_entry (cert : pyval) : result string :=
  expiration <- expiration_fragment cert ;;
  name <- get cert "name" (PStr "") ;;
  institution <- get cert "institution" (PStr "") ;;
  dateAcquired <- get cert "dateAcquired" (PStr "") ;;
  Ok (py "
                <div style=`margin-bottom: 10px;`>
                    <p><strong>" ++ py_str name ++ py "</strong></p>
                    <p style=`margin: 0;`>" ++ py_str institution ++ py "</p>
                    <p class=`date-range` style=`margin-top: 2px;`>Acquired: "
      ++ py_str dateAcquired ++ expiration ++ "</p>
                </div>
                ").

Definition certificates_column (certificates : pyval) : result string :=
  if truthy certificates then
    xs <- iter certificates ;;
    entries <- for_each xs certificate_entry ;;
    Ok (py "
            <div style=`flex: 1;`>
                <div class=`section-title`>Certifications</div>
            " ++ entries ++ "</div>")
  else Ok "".

Definition language_entry (lang : pyval) : result string :=
  name <- get lang "name" (PStr "") ;;
  proficiency <- get lang "proficiency" (PStr "") ;;
  level <- py_capitalize proficiency ;;
  Ok (py "
                <div class=`language`>
                    <span class=`language-name`>" ++ py_str name ++ py "</span> - 
                    <span class=`language-level`>" ++ level ++ "</span>
                </div>
                ").

Definition languages_column (languages : pyval) : result string :=
  if truthy languages then
    xs <- iter languages ;;
    entries <- for_each xs language_entry ;;
    Ok (py "
            <div style=`flex: 1;`>
                <div class=`section-title`>Languages</div>
            " ++ entries ++ "</div>")
  else Ok "".

(** The two-column section for certificates and languages. *)
Definition certificates_languages_section (certificates languages : pyval) : result string :=
  if truthy certificates || truthy languages then
    left <- certificates_column certificates ;;
    right <- languages_column languages ;;
    Ok (py "
        <div class=`section` style=`display: flex; gap: 20px;`>
        " ++ left ++ right ++ "</div>")
  else Ok "".

Definition additional_section (additional : pyval) : result string :=
  present <- get1 additional "skills" ;;
  if truthy present then
    skills <- get additional "skills" (PList []) ;;
    xs <- iter skills ;;
    items <- for_each xs skill_pill ;;
    Ok (py "
        <div class=`section`>
            <div class=`section-title`>Additional Skills</div>
            <div class=`skills-list`>
        " ++ items ++ "</div></div>")
  else Ok "".

Definition footer : string := "
        </div>
    </body>
    </html>
    ".

End Modern.

Definition generate_modern_template (cv_data : pyval) : result string :=
  personal <- get cv_data "personal" (PDict []) ;;
  summary <- get cv_data "summary" (PDict []) ;;
  keyCompetencies <- get cv_data "keyCompetencies" (PDict []) ;;
  experiences <- get cv_data "experiences" (PList []) ;;
  educations <- get cv_data "educations" (PList []) ;;
  certificates <- get cv_data "certificates" (PList []) ;;
  languages <- get cv_data "languages" (PList []) ;;
  additional <- get cv_data "additional" (PDict []) ;;
  header <- Modern.header personal ;;
  s_summary <- Modern.summary_section summary ;;
  s_experience <- Modern.experience_section experiences ;;
  s_education <- Modern.education_section educations ;;
  s_competencies <- Modern.competencies_section keyCompetencies ;;
  s_columns <- Modern.certificates_languages_section certificates languages ;;
  s_additional <- Modern.additional_section additional ;;
  Ok (header ++ s_summary ++ s_experience ++ s_education ++ s_competencies
      ++ s_columns ++ s_additional ++ Modern.footer).

(** *** [generate_minimal_template] *)

Module Minimal.

Definition head : string := py "
    <html>
    <head>
        <meta charset=`UTF-8`>
        <style>
            @page {
                size: A4;
                margin: 1.5cm;
            }
            body {
                font-family: Arial, sans-serif;
                font-size: 11pt;
                color: #333;
                line-height: 1.4;
                text-align: center;
            }
            .header {
                margin-bottom: 30px;
            }
            .name {
                font-size: 24pt;
                font-weight: bold;
                color: #043e44;
                margin: 0;
                letter-spacing: 2px;
            }
            .title {
                font-size: 14pt;
                color: #03d27c;
                margin: 5px 0 20px 0;
                font-weight: 300;
            }
            .contact-info {
                margin-bottom: 20px;
                font-size: 10pt;
            }
            .section {
                margin-bottom: 30px;
                text-align: left;
            }
            .section-title {
                font-size: 12pt;
                font-weight: bold;
                color: #043e44;
                text-align: center;
                margin-bottom: 15px;
                text-transform: uppercase;
                letter-spacing: 1px;
            }
            .section-title:after {
                content: ``;
                display: block;
                width: 50px;
                height: 1px;
                background-color: #03d27c;
                margin: 5px auto 15px;
            }
            .entry {
                margin-bottom: 20px;
            }
            .entry-header {
                display: flex;
                justify-content: space-between;
                align-items: flex-start;
                margin-bottom: 5px;
            }
            .entry-title {
                font-weight: bold;
                margin: 0;
            }
            .entry-subtitle {
                font-style: italic;
                margin: 0;
            }
            .date-range {
                font-size: 10pt;
                color: #666;
                text-align: right;
            }
            .skills-grid {
                display: flex;
                flex-wrap: wrap;
                justify-content: center;
                gap: 10px;
            }
            .skill-pill {
                background-color: #f5f5f5;
                padding: 5px 12px;
                border-radius: 20px;
                font-size: 10pt;
                border: 1px solid #eee;
            }
            .divider {
                height: 1px;
                background-color: #eee;
                margin: 30px 0;
            }
        </style>
    </head>
    <body>
        <div class=`header`>
            <h1 class=`name`>".

Definition header (personal : pyval) : result string :=
  firstName <- get personal "firstName" (PStr "") ;;
  lastName <- get personal "lastName" (PStr "") ;;
  professionalTitle <- get personal "professionalTitle" (PStr "") ;;
  email <- get personal "email" (PStr "") ;;
  phone <- get personal "phone" (PStr "") ;;
  linkedin <- linkedin_fragment personal ;;
  Ok (head ++ py_str firstName ++ " " ++ py_str lastName ++ py "</h1>
            <div class=`title`>"
      ++ py_str professionalTitle ++ py "</div>
            <div class=`contact-info`>
                "
      ++ py_str email ++ " | " ++ py_str phone ++ "
                "
      ++ linkedin ++ "
            </div>
        </div>
    ").

Definition summary_section (summary : pyval) : result string :=
  present <- get1 summary "summary" ;;
  if truthy present then
    text <- get summary "summary" (PStr "") ;;
    Ok (py "
        <div class=`section`>
            <div class=`section-title`>Profile</div>
            <p style=`text-align: center; max-width: 600px; margin: 0 auto;`>
                " ++ py_str text ++ py "
            </p>
        </div>
        <div class=`divider`></div>
        ")
  else Ok "".

Definition experience_entry (exp : pyval) : result string :=
  end_date <- end_date_of exp ;;
  companyName <- get exp "companyName" (PStr "") ;;
  jobTitle <- get exp "jobTitle" (PStr "") ;;
  startDate <- get exp "startDate" (PStr "") ;;
  responsibilities <- get exp "responsibilities" (PStr "") ;;
  Ok (py "
            <div class=`entry`>
                <div class=`entry-header`>
                    <div>
                        <p class=`entry-title`>" ++ py_str companyName ++ py "</p>
                        <p class=`entry-subtitle`>" ++ py_str jobTitle ++ py "</p>
                    </div>
                    <p class=`date-range`>"
      ++ py_str startDate ++ " - " ++ py_str end_date ++ "</p>
                </div>
                <div>
                    "
      ++ py_str responsibilities ++ "
                </div>
            </div>
            ").

Definition experience_section (experiences : pyval) : result string :=
  if truthy experiences then
    xs <- iter experiences ;;
    entries <- for_each xs experience_entry ;;
    Ok (py "
        <div class=`section`>
            <div class=`section-title`>Experience</div>
        " ++ entries ++ "</div>")
  else Ok "".

Definition education_entry (edu : pyval) : result string :=
  schoolName <- get edu "schoolName" (PStr "") ;;
  major <- get edu "major" (PStr "") ;;
  startDate <- get edu "startDate" (PStr "") ;;
  endDate <- get edu "endDate" (PStr "") ;;
  achievements <- achievements_fragment edu ;;
  Ok (py "
            <div class=`entry`>
                <div class=`entry-header`>
                    <div>
                        <p class=`entry-title`>" ++ py_str schoolName ++ py "</p>
                        <p class=`entry-subtitle`>" ++ py_str major ++ py "</p>
                    </div>
                    <p class=`date-range`>"
      ++ py_str startDate ++ " - " ++ py_str endDate ++ "</p>
                </div>
                "
      ++ achievements ++ "
            </div>
            ").

Definition education_section (educations : pyval) : result string :=
  if truthy educations then
    xs <- iter educations ;;
    entries <- for_each xs education_entry ;;
    Ok (py "
        <div class=`divider`></div>
        <div class=`section`>
            <div class=`section-title`>Education</div>
        " ++ entries ++ "</div>")
  else Ok "".

(** [all_skills.extend(d.get(k, []))] when [d.get(k)] is truthy. *)
Definition extend_with (all_skills : list pyval) (d : pyval) (k : string) : result (list pyval) :=
  present <- get1 d k ;;
  if truthy present then
    more <- get d k (PList []) ;;
    xs <- iter more ;;
    Ok (all_skills ++ xs)%list
  else Ok all_skills.

Definition skill_pill (skill : pyval) : result string :=
  Ok (py "<div class=`skill-pill`>" ++ py_str skill ++ "</div>").

(** Technical, soft and additional skills in one section. *)
Definition skills_section (keyCompetencies additional : pyval) : result string :=
  all_skills <- extend_with [] keyCompetencies "technicalSkills" ;;
  all_skills <- extend_with all_skills keyCompetencies "softSkills" ;;
  all_skills <- extend_with all_skills additional "skills" ;;
  if truthy (PList all_skills) then
    items <- for_each all_skills skill_pill ;;
    Ok (py "
        <div class=`divider`></div>
        <div class=`section`>
            <div class=`section-title`>Skills</div>
            <div class=`skills-grid`>
        " ++ items ++ "</div></div>")
  else Ok "".

Definition language_entry (lang : pyval) : result string :=
  name <- get lang "name" (PStr "") ;;
  proficiency <- get lang "proficiency" (PStr "") ;;
  level <- py_capitalize proficiency ;;
  Ok (py "
            <div style=`margin-bottom: 5px; text-align: center;`>
                <p style=`margin: 0;`><strong>" ++ py_str name ++ py "</strong></p>
                <p style=`margin: 0; font-size: 10pt; color: #666;`>" ++ level ++ "</p>
            </div>
            ").

Definition languages_section (languages : pyval) : result string :=
  if truthy languages then
    xs <- iter languages ;;
    entries <- for_each xs language_entry ;;
    Ok (py "
        <div class=`divider`></div>
        <div class=`section`>
            <div class=`section-title`>Languages</div>
            <div style=`display: flex; justify-content: center; flex-wrap: wrap; gap: 20px;`>
        " ++ entries ++ "</div></div>")
  else Ok "".

Definition certificate_entry (cert : pyval) : result string :=
  expiration <- expiration_fragment cert ;;
  name <- get cert "name" (PStr "") ;;
  institution <- get cert "institution" (PStr "") ;;
  dateAcquired <- get cert "dateAcquired" (PStr "") ;;
  achievements <- achievements_fragment cert ;;
  Ok (py "
            <div class=`entry` style=`text-align: center;`>
                <p style=`margin: 0;`><strong>" ++ py_str name ++ py "</strong></p>
                <p style=`margin: 0; font-style: italic;`>" ++ py_str institution ++ py "</p>
                <p style=`margin: 5px 0; font-size: 10pt; color: #666;`>Acquired: "
      ++ py_str dateAcquired ++ expiration ++ "</p>
                "
      ++ achievements ++ "
            </div>
            ").

Definition certificates_section (certificates : pyval) : result string :=
  if truthy certificates then
    xs <- iter certificates ;;
    entries <- for_each xs certificate_entry ;;
    Ok (py "
        <div class=`divider`></div>
        <div class=`section`>
            <div class=`section-title`>Certifications</div>
        " ++ entries ++ "</div>")
  else Ok "".

Definition footer : string := "
    </body>
    </html>
    ".

End Minimal.

Definition generate_minimal_template (cv_data : pyval) : result string :=
  personal <- get cv_data "personal" (PDict []) ;;
  summary <- get cv_data "summary" (PDict []) ;;
  keyCompetencies <- get cv_data "keyCompetencies" (PDict []) ;;
  experiences <- get cv_data "experiences" (PList []) ;;
  educations <- get cv_data "educations" (PList []) ;;
  certificates <- get cv_data "certificates" (PList []) ;;
  languages <- get cv_data "languages" (PList []) ;;
  additional <- get cv_data "additional" (PDict []) ;;
  header <- Minimal.header personal ;;
  s_summary <- Minimal.summary_section summary ;;
  s_experience <- Minimal.experience_section experiences ;;
  s_education <- Minimal.education_section educations ;;
  s_skills <- Minimal.skills_section keyCompetencies additional ;;
  s_languages <- Minimal.languages_section languages ;;
  s_certificates <- Minimal.certificates_section certificates ;;
  Ok (header ++ s_summary ++ s_experience ++ s_education ++ s_skills
      ++ s_languages ++ s_certificates ++ Minimal.footer).

(** The document the three styles of [generate_cv_pdf] hand to the renderer;
    the renderer and the file it writes, [convert_html_to_pdf], and
    [json.loads] are collaborators of the composition and stay abstract.
    [json_loads text] is [Ok (Some v)] when the text is the JSON of [v],
    [Ok None] when [json.loads] raises [JSONDecodeError], the one exception
    that [generate_cv_pdf] catches, and [Raise e] when it raises another
    one: [ValueError] on an integer of more than 4300 digits,
    [RecursionError] on a text nested too deep. *)
Section GenerateCvPdf.

Variable json_loads : string -> result (option pyval).
Variable convert_html_to_pdf : string -> string -> result (bool * pyval).

Definition generate_cv_pdf (json_data template_style : pyval) : result (bool * pyval) :=
  parsed <-
    match json_data with
    | PStr text => json_loads text
    | _ => Ok (Some json_data)
    end ;;
  match parsed with
  | None => Ok (false, PStr "Invalid JSON data")
  | Some json_data =>
      personal <- get json_data "personal" (PDict []) ;;
      summary <- get json_data "summary" (PDict []) ;;
      keyCompetencies <- get json_data "keyCompetencies" (PDict []) ;;
      experiences <- get json_data "experiences" (PList []) ;;
      educations <- get json_data "educations" (PList []) ;;
      certificates <- get json_data "certificates" (PList []) ;;
      languages <- get json_data "languages" (PList []) ;;
      additional <- get json_data "additional" (PDict []) ;;
      templateSettings <- get json_data "templateSettings" (PDict []) ;;
      first_name <- get personal "firstName" (PStr "CV") ;;
      last_name <- get personal "lastName" (PStr "Document") ;;
      let filename := py_str first_name ++ "_" ++ py_str last_name ++ "_CV.pdf" in
      html_content <-
        (if eq_str template_style "professional" then generate_professional_template json_data
         else if eq_str template_style "modern" then generate_modern_template json_data
         else if eq_str template_style "minimal" then generate_minimal_template json_data
         else generate_professional_template json_data) ;;
      convert_html_to_pdf html_content filename
  end.

End GenerateCvPdf.

End PdfGenerator.

(** ** [server/new-pdf-generator.py] *)

Module NewPdfGenerator.

(** [a and b] for a test: [b] is evaluated only when [a] is truthy. *)
Definition py_and (a : pyval) (b : result pyval) : result pyval :=
  if truthy a then b else Ok a.

(** [f'<span ...></span>{personal.get("linkedin", "")}' if personal.get('linkedin') else ''] *)
Definition linkedin_fragment (personal : pyval) : result string :=
  present <- get1 personal "linkedin" ;;
  if truthy present then
    linkedin <- get personal "linkedin" (PStr "") ;;
    Ok (py "<span class=`icon linkedin-icon` style=`margin-left: 10px;`></span>" ++ py_str linkedin)
  else Ok "".

Definition achievements_fragment (entry : pyval) : result string :=
  present <- get1 entry "achievements" ;;
  if truthy present then
    achievements <- get entry "achievements" (PStr "") ;;
    Ok ("<p>" ++ py_str achievements ++ "</p>")
  else Ok "".

(** [f" - Expires: {cert.get('expirationDate', '')}" if cert.get('expirationDate') else ""] *)
Definition expiry_fragment (cert : pyval) : result string :=
  present <- get1 cert "expirationDate" ;;
  if truthy present then
    expirationDate <- get cert "expirationDate" (PStr "") ;;
    Ok (" - Expires: " ++ py_str expirationDate)
  else Ok "".

Definition end_date_of (entry : pyval) : result pyval :=
  current <- get entry "isCurrent" (PBool false) ;;
  if truthy current then Ok (PStr "Present") else get entry "endDate" (PStr "").

Definition head : string := py "
    <html>
    <head>
        <meta charset=`UTF-8`>
        <style>
            @page {
                size: A4;
                margin: 1.5cm;
            }
            body {
                font-family: 'Arial', 'Helvetica', sans-serif;
                font-size: 11pt;
                color: #043e44;
                line-height: 1.5;
                margin: 0;
                padding: 0;
            }
            .header {
                margin-bottom: 20px;
            }
            .name {
                font-size: 24pt;
                font-weight: bold;
                color: #043e44;
                margin: 0;
                padding: 0;
            }
            .contact-info {
                margin: 5px 0;
                font-size: 10pt;
                color: #666;
            }
            .section {
                margin-bottom: 20px;
                page-break-inside: avoid;
            }
            .section-title {
                font-size: 14pt;
                font-weight: bold;
                color: #043e44;
                border-bottom: 2px solid #03d27c;
                padding-bottom: 5px;
                margin-bottom: 15px;
            }
            .company-name {
                font-weight: bold;
                margin-bottom: 2px;
                color: #043e44;
            }
            .job-title {
                font-weight: 600;
                color: #03d27c;
                margin: 2px 0;
            }
            .date-range {
                font-size: 10pt;
                color: #666;
                margin-bottom: 5px;
            }
            .responsibilities {
                margin-top: 8px;
                text-align: justify;
            }
            .school-name {
                font-weight: bold;
                color: #043e44;
                margin-bottom: 2px;
            }
            .degree {
                font-weight: 600;
                color: #03d27c;
            }
            .skills-list {
                display: flex;
                flex-wrap: wrap;
                margin: 0;
                padding: 0;
            }
            .skill-item {
                background-color: rgba(3, 210, 124, 0.1);
                border: 1px solid #03d27c;
                border-radius: 4px;
                padding: 3px 8px;
                margin: 3px;
                font-size: 10pt;
                color: #043e44;
                display: inline-block;
            }
            .skill-category {
                font-weight: bold;
                margin-top: 10px;
                margin-bottom: 5px;
                color: #043e44;
            }
            .language {
                margin-bottom: 5px;
            }
            .language-name {
                font-weight: bold;
            }
            .language-level {
                color: #03d27c;
            }
            ul {
                padding-left: 20px;
                margin: 5px 0;
            }
            li {
                margin-bottom: 3px;
            }
            
            /* Icons */
            .icon {
                display: inline-block;
                width: 16px;
                height: 16px;
                margin-right: 5px;
                vertical-align: middle;
            }
            .email-icon::before {
                content: `✉`;
                color: #03d27c;
            }
            .phone-icon::before {
                content: `☎`;
                color: #03d27c;
            }
            .linkedin-icon::before {
                content: `in`;
                color: #03d27c;
                font-weight: bold;
            }
        </style>
    </head>
    <body>
        <div class=`header`>
            <h1 class=`name`>".

Definition header (personal : pyval) : result string :=
  firstName <- get personal "firstName" (PStr "") ;;
  lastName <- get personal "lastName" (PStr "") ;;
  email <- get personal "email" (PStr "") ;;
  phone <- get personal "phone" (PStr "") ;;
  linkedin <- linkedin_fragment personal ;;
  Ok (head ++ py_str firstName ++ " " ++ py_str lastName ++ py "</h1>
            <div class=`contact-info`>
                <span class=`icon email-icon`></span>"
      ++ py_str email ++ py " 
                <span class=`icon phone-icon` style=`margin-left: 10px;`></span>" ++ py_str phone ++ "
                "
      ++ linkedin ++ "
            </div>
        </div>
    ").

Definition summary_section (professional : pyval) : result string :=
  present <- py_and professional (get1 professional "summary") ;;
  if truthy present then
    text <- get professional "summary" (PStr "") ;;
    Ok (py "
        <div class=`section`>
            <div class=`section-title`>Professional Summary</div>
            <p>" ++ py_str text ++ "</p>
        </div>
        ")
  else Ok "".

Definition skill_item (skill : pyval) : result string :=
  Ok (py "<div class=`skill-item`>" ++ py_str skill ++ "</div>").

Definition technical_skills (keyCompetencies : pyval) : result string :=
  present <- get1 keyCompetencies "technicalSkills" ;;
  if truthy present then
    skills <- get keyCompetencies "technicalSkills" (PList []) ;;
    xs <- iter skills ;;
    items <- for_each xs skill_item ;;
    Ok (py "
            <div class=`skill-category`>Technical Skills:</div>
            <div class=`skills-list`>
            " ++ items ++ "</div>")
  else Ok "".

Definition soft_skills (keyCompetencies : pyval) : result string :=
  present <- get1 keyCompetencies "softSkills" ;;
  if truthy present then
    skills <- get keyCompetencies "softSkills" (PList []) ;;
    xs <- iter skills ;;
    items <- for_each xs skill_item ;;
    Ok (py "
            <div class=`skill-category`>Soft Skills:</div>
            <div class=`skills-list`>
            " ++ items ++ "</div>")
  else Ok "".

Definition competencies_section (keyCompetencies : pyval) : result string :=
  present <- py_and keyCompetencies
               (py_or (get1 keyCompetencies "technicalSkills") (get1 keyCompetencies "softSkills")) ;;
  if truthy present then
    technical <- technical_skills keyCompetencies ;;
    soft <- soft_skills keyCompetencies ;;
    Ok (py "
        <div class=`section`>
            <div class=`section-title`>Key Competencies</div>
        " ++ technical ++ soft ++ "</div>")
  else Ok "".

Definition experience_entry (job : pyval) : result string :=
  end_date <- end_date_of job ;;
  companyName <- get job "companyName" (PStr "") ;;
  jobTitle <- get job "jobTitle" (PStr "") ;;
  startDate <- get job "startDate" (PStr "") ;;
  responsibilities <- get job "responsibilities" (PStr "") ;;
  Ok (py "
            <div style=`margin-bottom: 15px;`>
                <div class=`company-name`>" ++ py_str companyName ++ py "</div>
                <div class=`job-title`>" ++ py_str jobTitle ++ py "</div>
                <div class=`date-range`>"
      ++ py_str startDate ++ " - " ++ py_str end_date ++ py "</div>
                <div class=`responsibilities`>
                    "
      ++ py_str responsibilities ++ "
                </div>
            </div>
            ").

Definition experience_section (experience : pyval) : result string :=
  if truthy experience then
    xs <- iter experience ;;
    entries <- for_each xs experience_entry ;;
    Ok (py "
        <div class=`section`>
            <div class=`section-title`>Professional Experience</div>
        " ++ entries ++ "</div>")
  else Ok "".

Definition education_entry (edu : pyval) : result string :=
  schoolName <- get edu "schoolName" (PStr "") ;;
  major <- get edu "major" (PStr "") ;;
  startDate <- get edu "startDate" (PStr "") ;;
  endDate <- get edu "endDate" (PStr "") ;;
  achievements <- achievements_fragment edu ;;
  Ok (py "
            <div style=`margin-bottom: 15px;`>
                <div class=`school-name`>" ++ py_str schoolName ++ py "</div>
                <div class=`degree`>" ++ py_str major ++ py "</div>
                <div class=`date-range`>"
      ++ py_str startDate ++ " - " ++ py_str endDate ++ "</div>
                "
      ++ achievements ++ "
            </div>
            ").

Definition education_section (education : pyval) : result string :=
  if truthy education then
    xs <- iter education ;;
    entries <- for_each xs education_entry ;;
    Ok (py "
        <div class=`section`>
            <div class=`section-title`>Education</div>
        " ++ entries ++ "</div>")
  else Ok "".

Definition certificate_entry (cert : pyval) : result string :=
  expiry <- expiry_fragment cert ;;
  name <- get cert "name" (PStr "") ;;
  institution <- get cert "institution" (PStr "") ;;
  dateAcquired <- get cert "dateAcquired" (PStr "") ;;
  achievements <- achievements_fragment cert ;;
  Ok (py "
            <div style=`margin-bottom: 10px;`>
                <div class=`school-name`>" ++ py_str name ++ py "</div>
                <div class=`job-title`>" ++ py_str institution ++ py "</div>
                <div class=`date-range`>Acquired: "
      ++ py_str dateAcquired ++ expiry ++ "</div>
                "
      ++ achievements ++ "
            </div>
            ").

Definition certificates_section (certificates : pyval) : result string :=
  if truthy certificates then
    xs <- iter certificates ;;
    entries <- for_each xs certificate_entry ;;
    Ok (py "
        <div class=`section`>
            <div class=`section-title`>Certifications</div>
        " ++ entries ++ "</div>")
  else Ok "".

Definition extracurricular_entry (extra : pyval) : result string :=
  end_date <- end_date_of extra ;;
  organization <- get extra "organization" (PStr "") ;;
  role <- get extra "role" (PStr "") ;;
  startDate <- get extra "startDate" (PStr "") ;;
  description <- get extra "description" (PStr "") ;;
  Ok (py "
            <div style=`margin-bottom: 15px;`>
                <div class=`company-name`>" ++ py_str organization ++ py "</div>
                <div class=`job-title`>" ++ py_str role ++ py "</div>
                <div class=`date-range`>"
      ++ py_str startDate ++ " - " ++ py_str end_date ++ py "</div>
                <div class=`responsibilities`>
                    "
      ++ py_str description ++ "
                </div>
            </div>
            ").

Definition extracurricular_section (extracurricular : pyval) : result string :=
  if truthy extracurricular then
    xs <- iter extracurricular ;;
    entries <- for_each xs extracurricular_entry ;;
    Ok (py "
        <div class=`section`>
            <div class=`section-title`>Extracurricular Activities</div>
        " ++ entries ++ "</div>")
  else Ok "".

Definition language_entry (lang : pyval) : result string :=
  name <- get lang "name" (PStr "") ;;
  proficiency <- get lang "proficiency" (PStr "") ;;
  level <- py_capitalize proficiency ;;
  Ok (py "
            <div class=`language`>
                <span class=`language-name`>" ++ py_str name ++ py "</span> - 
                <span class=`language-level`>" ++ level ++ "</span>
            </div>
            ").

Definition languages_section (languages : pyval) : result string :=
  if truthy languages then
    xs <- iter languages ;;
    entries <- for_each xs language_entry ;;
    Ok (py "
        <div class=`section`>
            <div class=`section-title`>Languages</div>
        " ++ entries ++ "</div>")
  else Ok "".

Definition additional_section (additional : pyval) : result string :=
  present <- py_and additional (get1 additional "skills") ;;
  if truthy present then
    skills <- get additional "skills" (PList []) ;;
    xs <- iter skills ;;
    items <- for_each xs skill_item ;;
    Ok (py "
        <div class=`section`>
            <div class=`section-title`>Additional Skills</div>
            <div class=`skills-list`>
        " ++ items ++ "</div></div>")
  else Ok "".

Definition footer : string := "
    </body>
    </html>
    ".

Definition generate_professional_template (cv_data : pyval) : result string :=
  personal <- get cv_data "personal" (PDict []) ;;
  professional <- get cv_data "professional" (PDict []) ;;
  keyCompetencies <- get cv_data "keyCompetencies" (PDict []) ;;
  experience <- get cv_data "experience" (PList []) ;;
  education <- get cv_data "education" (PList []) ;;
  certificates <- get cv_data "certificates" (PList []) ;;
  languages <- get cv_data "languages" (PList []) ;;
  extracurricular <- get cv_data "extracurricular" (PList []) ;;
  additional <- get cv_data "additional" (PDict []) ;;
  templateSettings <- get cv_data "templateSettings" (PDict []) ;;
  header <- header personal ;;
  s_summary <- summary_section professional ;;
  s_competencies <- competencies_section keyCompetencies ;;
  s_experience <- experience_section experience ;;
  s_education <- education_section education ;;
  s_certificates <- certificates_section certificates ;;
  s_extracurricular <- extracurricular_section extracurricular ;;
  s_languages <- languages_section languages ;;
  s_additional <- additional_section additional ;;
  Ok (header ++ s_summary ++ s_competencies ++ s_experience ++ s_education
      ++ s_certificates ++ s_extracurricular ++ s_languages ++ s_additional ++ footer).

(** "simplified for now": the two other styles return the professional
    document. *)
Definition generate_modern_template (cv_data : pyval) : result string :=
  generate_professional_template cv_data.

Definition generate_minimal_template (cv_data : pyval) : result string :=
  generate_professional_template cv_data.

Section GenerateCvPdf.

Variable json_loads : string -> result (option pyval).
Variable convert_html_to_pdf : string -> string -> result (bool * pyval).

Definition generate_cv_pdf (json_data template_style : pyval) : result (bool * pyval) :=
  parsed <-
    match json_data with
    | PStr text => json_loads text
    | _ => Ok (Some json_data)
    end ;;
  match parsed with
  | None => Ok (false, PStr "Invalid JSON data")
  | Some json_data =>
      personal <- get json_data "personal" (PDict []) ;;
      first_name <- get personal "firstName" (PStr "CV") ;;
      last_name <- get personal "lastName" (PStr "Document") ;;
      let filename := py_str first_name ++ "_" ++ py_str last_name ++ "_CV.pdf" in
      html_content <-
        (if eq_str template_style "professional" then generate_professional_template json_data
         else if eq_str template_style "modern" then generate_modern_template json_data
         else if eq_str template_style "minimal" then generate_minimal_template json_data
         else generate_professional_template json_data) ;;
      convert_html_to_pdf html_content filename
  end.

End GenerateCvPdf.

End NewPdfGenerator.

(** ** [convert_html_to_pdf] of the two string-built generators

    The function hands the document to [pisa.CreatePDF], which fills a
    buffer and returns a status object, and writes the buffer to a file
    under [generated-pdfs].  Its collaborators are arguments of the model:
    [CreatePDF] gives the attribute [err] of the status ([None] when the
    object has no such attribute) and the bytes of the buffer; [makedirs]
    and [write_file] are [os.makedirs(..., exist_ok=True)] and the
    [with open(..., 'wb')] block.  An exception of a collaborator is the
    value of [exn] it returns.  What the function prints is not modelled. *)

(** [p[:p.rfind('/') + 1]] *)
Fixpoint head_of_path (p : string) : string :=
  match p with
  | EmptyString => EmptyString
  | String c r =>
      if contains "/" r || Ascii.eqb c "/"%char then String c (head_of_path r)
      else EmptyString
  end.

(** [s.rstrip('/')] *)
Fixpoint rstrip_sep (s : string) : string :=
  match s with
  | EmptyString => EmptyString
  | String c r =>
      match rstrip_sep r with
      | EmptyString => if Ascii.eqb c "/"%char then EmptyString else String c EmptyString
      | r' => String c r'
      end
  end.

(** [os.path.dirname(p)] on POSIX. *)
Definition dirname (p : string) : string :=
  let head := head_of_path p in
  if negb (String.eqb head "") && negb (String.eqb (rstrip_sep head) "")
  then rstrip_sep head else head.

Module PdfGeneratorFile.

Section ConvertHtmlToPdf.

Variable CreatePDF : string -> result (option pyval * string).
(** [os.path.dirname(__file__)] *)
Variable script_dir : string.
Variable makedirs : string -> result unit.
Variable write_file : string -> string -> result unit.

(** [os.path.join(os.path.dirname(__file__), '..', 'generated-pdfs', output_filename)] *)
Definition output_path (output_filename : string) : string :=
  WeasyPdf.path_join
    (WeasyPdf.path_join (WeasyPdf.path_join script_dir "..") "generated-pdfs")
    output_filename.

Definition convert_html_to_pdf (html_content output_filename : string) : result (bool * pyval) :=
  status <- CreatePDF html_content ;;
  match fst status with
  | None => Raise AttributeError
  | Some err =>
      if truthy err then Ok (false, PNone)
      else
        _ <- makedirs (dirname (output_path output_filename)) ;;
        _ <- write_file (output_path output_filename) (snd status) ;;
        Ok (true, PStr (output_path output_filename))
  end.

End ConvertHtmlToPdf.

End PdfGeneratorFile.

Module NewPdfGeneratorFile.

Section ConvertHtmlToPdf.

Variable CreatePDF : string -> result (option pyval * string).
(** [os.getcwd()] *)
Variable getcwd : result string.
Variable makedirs : string -> result unit.
Variable write_file : string -> string -> result unit.

(** The [try] block reads [err] when the status has it and tests it; on
    the values of [pyval] neither step raises, so its handler has nothing
    to catch. *)
Definition convert_html_to_pdf (html_content output_filename : string) : result (bool * pyval) :=
  status <- CreatePDF html_content ;;
  let conversion_failed :=
    match fst status with
    | Some err => err
    | None => PBool false
    end in
  if truthy conversion_failed then Ok (false, PNone)
  else
    cwd <- getcwd ;;
    let output_path :=
      WeasyPdf.path_join (WeasyPdf.path_join cwd "generated-pdfs") output_filename in
    _ <- makedirs (dirname output_path) ;;
    _ <- write_file output_path (snd status) ;;
    Ok (true, PStr output_path).

End ConvertHtmlToPdf.

End NewPdfGeneratorFile.

(** * Properties *)

(** ** Generic facts *)

Lemma bind_Ok {A B : Type} (m : result A) (k : A -> result B) (b : B) :
  bind m k = Ok b -> exists a, m = Ok a /\ k a = Ok b.
Proof.
  destruct m as [a | e]; cbn; intro H.
  - exists a. split; [reflexivity | exact H].
  - discriminate H.
Qed.

Lemma Ok_inj {A : Type} (a b : A) : Ok a = Ok b -> a = b.
Proof. now intros [= ->]. Qed.

Lemma get_dict (entries : list (string * pyval)) (k : string) (default : pyval) :
  get (PDict entries) k default =
  Ok (match lookup k entries with Some v => v | None => default end).
Proof. unfold get. destruct (lookup k entries); reflexivity. Qed.

(** [str()] of a text is the text: nothing is replaced in it. *)
Lemma py_str_text (s : string) : py_str (PStr s) = s.
Proof. reflexivity. Qed.

Lemma append_assoc (a b c : string) : (a ++ b) ++ c = a ++ b ++ c.
Proof. induction a as [| x a IH]; cbn; [reflexivity | now rewrite IH]. Qed.

Lemma append_nil_r (a : string) : a ++ "" = a.
Proof. induction a as [| x a IH]; cbn; [reflexivity | now rewrite IH]. Qed.

(** [frag] occurs in [s]. *)
Definition infix (frag s : string) : Prop := exists pre post, s = pre ++ frag ++ post.

Lemma infix_refl (s : string) : infix s s.
Proof. exists "", "". cbn. now rewrite append_nil_r. Qed.

Lemma infix_app_l (frag a b : string) : infix frag a -> infix frag (a ++ b).
Proof.
  intros (pre & post & ->). exists pre, (post ++ b).
  now rewrite !append_assoc.
Qed.

Lemma infix_app_r (frag a b : string) : infix frag b -> infix frag (a ++ b).
Proof.
  intros (pre & post & ->). exists (a ++ pre), post.
  now rewrite !append_assoc.
Qed.

Lemma infix_trans (a b c : string) : infix a b -> infix b c -> infix a c.
Proof.
  intros (p1 & q1 & ->) (p2 & q2 & ->). exists (p2 ++ p1), (q1 ++ q2).
  now rewrite !append_assoc.
Qed.

Create HintDb infix.
#[local] Hint Resolve infix_refl infix_app_l infix_app_r : infix.

(** *** Texts that occur nowhere *)

Definition clash (needle s : string) : bool :=
  String.prefix needle s || String.prefix s needle.

(** No place of [s] starts [needle] or a beginning of [needle] that runs to
    the end of [s]. *)
Fixpoint avoids (needle s : string) : bool :=
  match s with
  | EmptyString => true
  | String _ r => negb (clash needle s) && avoids needle r
  end.

Lemma clash_app (needle a b : string) :
  clash needle a = false -> clash needle (a ++ b) = false.
Proof.
  revert a. induction needle as [| d needle IH]; intros a H.
  - destruct a; discriminate H.
  - destruct a as [| c a]; [discriminate H |].
    unfold clash in *. cbn in *.
    destruct (ascii_dec d c) as [-> |].
    + destruct (ascii_dec c c) as [_ | Hn]; [| now destruct Hn]. apply IH, H.
    + destruct (ascii_dec c d) as [-> |]; [contradiction | reflexivity].
Qed.

Lemma avoids_app (needle a b : string) :
  avoids needle a = true -> avoids needle b = true -> avoids needle (a ++ b) = true.
Proof.
  intros Ha Hb. induction a as [| c a IH]; [exact Hb |].
  cbn [avoids] in Ha. apply andb_true_iff in Ha. destruct Ha as [Hc Ha].
  change (String c a ++ b) with (String c (a ++ b)). cbn [avoids].
  apply andb_true_iff. split; [| apply IH, Ha].
  apply negb_true_iff. apply negb_true_iff in Hc.
  apply (clash_app needle (String c a) b Hc).
Qed.

Lemma avoids_contains (needle s : string) :
  needle <> "" -> avoids needle s = true -> contains needle s = false.
Proof.
  intros Hn. induction s as [| c s IH]; intro H.
  - cbn. destruct needle; [contradiction | reflexivity].
  - cbn [avoids] in H. apply andb_true_iff in H. destruct H as [Hc H].
    apply negb_true_iff in Hc. unfold clash in Hc. apply orb_false_iff in Hc.
    cbn [contains]. rewrite (proj1 Hc). apply IH, H.
Qed.

(** ** The date normalizer *)

Section FormatDate.
Import WeasyPdf.

Lemma strptime_raises_only_ValueError (s : string) (e : exn) :
  Datetime.strptime s = Raise e -> e = ValueError.
Proof.
  unfold Datetime.strptime.
  destruct (Datetime.match_year s) as [[y r1] |]; [| now intros [= <-]].
  destruct (Datetime.match_month r1) as [[m r2] |]; [| now intros [= <-]].
  destruct (Datetime.match_day r2) as [[d r3] |]; [| now intros [= <-]].
  destruct (negb (r3 =? ""))%string; [now intros [= <-] |].
  destruct ((1 <=? y) && (d <=? Datetime.days_in_month y m)); [discriminate | now intros [= <-]].
Qed.

(** [format_date] returns a text on every input: no exception leaves it. *)
Lemma format_date_never_raises (date_str is_current : pyval) :
  exists text, format_date date_str is_current = Ok text.
Proof.
  unfold format_date.
  destruct (truthy is_current); [eauto |].
  destruct (negb (truthy date_str)); [eauto |].
  match goal with |- context [String.eqb ?s ""] => generalize s end.
  intro stripped. destruct (String.eqb stripped ""); [eauto |].
  destruct (Datetime.strptime stripped) as [d | e] eqn:E; [eauto |].
  apply strptime_raises_only_ValueError in E. subst e. eauto.
Qed.

(** C4: the four equations of the date normalizer: an ISO date shows as
    abbreviated month and year, the empty text stays empty, a text that is
    not a date is handed back, and with [is_current] true the result is
    "Present" whatever the raw value is. *)
Theorem format_date_spec_examples :
  format_date (PStr "2023-03-15") (PBool false) = Ok "Mar 2023"
  /\ format_date (PStr "") (PBool false) = Ok ""
  /\ format_date (PStr "not-a-date") (PBool false) = Ok "not-a-date"
  /\ forall v : pyval, format_date v (PBool true) = Ok "Present".
Proof.
  repeat split; reflexivity.
Qed.

(** Other raw values: surrounding blanks, a day that is not in the calendar,
    a number, a list. *)
Example format_date_iso : format_date (PStr "2023-03-15") (PBool false) = Ok "Mar 2023".
Proof. reflexivity. Qed.
Example format_date_leap_day : format_date (PStr "  2024-2-29 ") (PBool false) = Ok "Feb 2024".
Proof. reflexivity. Qed.
Example format_date_no_such_day : format_date (PStr "2023-02-29") (PBool false) = Ok "2023-02-29".
Proof. reflexivity. Qed.
Example format_date_number : format_date (PInt 20230315) (PBool false) = Ok "20230315".
Proof. reflexivity. Qed.
Example format_date_list : format_date (PList [PStr "it's"; PInt (-3)]) PNone = Ok (py "[`it's`, -3]").
Proof. reflexivity. Qed.
Example format_date_early_year : format_date (PStr "0999-12-31") PNone = Ok "Dec 999".
Proof. reflexivity. Qed.

(** The label does not depend on how the truthy flag is written. *)
Lemma format_date_current (v is_current : pyval) :
  truthy is_current = true -> format_date v is_current = Ok "Present".
Proof. intro H. unfold format_date. now rewrite H. Qed.

End FormatDate.

(** ** Template selection *)

(** C10: in [new-pdf-generator.py] the modern and the minimal style return,
    for every input, the very document of the professional style. *)
Theorem new_generator_styles_coincide (cv_data : pyval) :
  NewPdfGenerator.generate_modern_template cv_data
    = NewPdfGenerator.generate_professional_template cv_data
  /\ NewPdfGenerator.generate_minimal_template cv_data
    = NewPdfGenerator.generate_professional_template cv_data.
Proof. split; reflexivity. Qed.

Lemma eq_str_false (v : pyval) (s : string) : v <> PStr s -> eq_str v s = false.
Proof.
  destruct v as [| | | | t | |]; cbn; intro H; try reflexivity.
  apply String.eqb_neq. intros ->. now apply H.
Qed.

(** C7: a style identifier that is none of "professional", "modern" and
    "minimal" (the empty text, an unknown name, [None]) gives the result of
    the style "professional", in both generators and whatever the renderer
    does. *)
Theorem unrecognized_style_is_professional
    (json_loads : string -> result (option pyval))
    (convert_html_to_pdf : string -> string -> result (bool * pyval))
    (json_data style : pyval) :
  style <> PStr "professional" -> style <> PStr "modern" -> style <> PStr "minimal" ->
  PdfGenerator.generate_cv_pdf json_loads convert_html_to_pdf json_data style
    = PdfGenerator.generate_cv_pdf json_loads convert_html_to_pdf json_data (PStr "professional")
  /\ NewPdfGenerator.generate_cv_pdf json_loads convert_html_to_pdf json_data style
    = NewPdfGenerator.generate_cv_pdf json_loads convert_html_to_pdf json_data (PStr "professional").
Proof.
  intros Hp Hmo Hmi.
  unfold PdfGenerator.generate_cv_pdf, NewPdfGenerator.generate_cv_pdf.
  rewrite (eq_str_false _ _ Hp), (eq_str_false _ _ Hmo), (eq_str_false _ _ Hmi).
  split; reflexivity.
Qed.

Definition sample_record : pyval :=
  PDict [("personal", PDict [("firstName", PStr "Ada"); ("lastName", PStr "Lovelace")])].

(** A renderer that accepts every document and answers with the file name. *)
Definition accepting_renderer (html filename : string) : result (bool * pyval) :=
  Ok (true, PStr filename).

Lemma unrecognized_style_is_professional_witness :
  PdfGenerator.generate_cv_pdf (fun _ => Ok None) accepting_renderer sample_record (PStr "nonexistent-style")
    = PdfGenerator.generate_cv_pdf (fun _ => Ok None) accepting_renderer sample_record (PStr "professional")
  /\ NewPdfGenerator.generate_cv_pdf (fun _ => Ok None) accepting_renderer sample_record (PStr "nonexistent-style")
    = NewPdfGenerator.generate_cv_pdf (fun _ => Ok None) accepting_renderer sample_record (PStr "professional").
Proof.
  apply (unrecognized_style_is_professional (fun _ => Ok None) accepting_renderer
           sample_record (PStr "nonexistent-style")); discriminate.
Defined.

(** ** Exceptions that leave the composers *)

(** A language entry whose proficiency is [null] in the JSON payload. *)
Definition null_proficiency_record : pyval :=
  PDict [("languages", PList [PDict [("name", PStr "English"); ("proficiency", PNone)]])].

(** C9: on a record with a language entry of proficiency [None] the
    composers raise [AttributeError] ([None] has no [capitalize]), in each
    template of both generators. *)
Theorem null_proficiency_raises :
  PdfGenerator.generate_professional_template null_proficiency_record = Raise AttributeError
  /\ PdfGenerator.generate_modern_template null_proficiency_record = Raise AttributeError
  /\ PdfGenerator.generate_minimal_template null_proficiency_record = Raise AttributeError
  /\ NewPdfGenerator.generate_professional_template null_proficiency_record = Raise AttributeError.
Proof. repeat split; vm_compute; reflexivity. Qed.

(** The guard [professional and ...] of [new-pdf-generator.py] tolerates a
    summary object that is [None]; the older generator has no such guard. *)
Example null_summary_object :
  PdfGenerator.generate_professional_template (PDict [("summary", PNone)]) = Raise AttributeError
  /\ succeeds (NewPdfGenerator.generate_professional_template (PDict [("professional", PNone)])) = true.
Proof. split; vm_compute; reflexivity. Qed.

(** ** Where a piece of text stands in a block *)

(** The value [d.get(k, '')] reads from the dict with entries [entries]. *)
Definition field (entries : list (string * pyval)) (k : string) : pyval :=
  match lookup k entries with Some v => v | None => PStr "" end.

Lemma get_field (entries : list (string * pyval)) (k : string) :
  get (PDict entries) k (PStr "") = Ok (field entries k).
Proof. apply get_dict. Qed.

Lemma get1_dict (entries : list (string * pyval)) (k : string) :
  get1 (PDict entries) k =
  Ok (match lookup k entries with Some v => v | None => PNone end).
Proof. apply get_dict. Qed.

(** The value [d.get(k)] reads from the dict with entries [entries]. *)
Definition read (entries : list (string * pyval)) (k : string) : pyval :=
  match lookup k entries with Some v => v | None => PNone end.

Lemma get1_read (entries : list (string * pyval)) (k : string) :
  get1 (PDict entries) k = Ok (read entries k).
Proof. apply get1_dict. Qed.

(** The value [cert.get('expirationDate')] reads. *)
Definition expiration_of (cert : list (string * pyval)) : pyval := read cert "expirationDate".

(** [r] is a block and [frag] occurs in it. *)
Definition rendered_in (frag : string) (r : result string) : Prop :=
  exists block, r = Ok block /\ infix frag block.

Definition starts (frag s : string) : Prop := exists post, s = frag ++ post.

Lemma starts_nil (s : string) : starts "" s.
Proof. now exists s. Qed.

Lemma starts_char (c : ascii) (frag s : string) :
  starts frag s -> starts (String c frag) (String c s).
Proof. intros (post & ->). now exists post. Qed.

Lemma starts_var (u frag s : string) : starts frag s -> starts (u ++ frag) (u ++ s).
Proof. intros (post & ->). exists post. now rewrite append_assoc. Qed.

Lemma starts_self (u s : string) : starts u (u ++ s).
Proof. now exists s. Qed.

Lemma infix_here (frag s : string) : starts frag s -> infix frag s.
Proof. intros (post & ->). now exists "", post. Qed.

Lemma infix_skip (frag : string) (c : ascii) (s : string) :
  infix frag s -> infix frag (String c s).
Proof. intro H. apply (infix_app_r frag (String c "") s H). Qed.

(** Both texts in normal form (characters and opaque values, nested to the
    right): compare them piece by piece from the current place. *)
Ltac starts_here :=
  repeat match goal with
         | |- starts (String ?c _) (String ?c _) => apply starts_char
         | |- starts (?u ++ _) (?u ++ _) => apply starts_var
         end;
  match goal with
  | |- starts EmptyString _ => apply starts_nil
  | |- starts ?u (?u ++ _) => apply starts_self
  end.

(** Walk through the block until the fragment starts. *)
Ltac find_infix :=
  repeat first
    [ solve [ apply infix_here; starts_here ]
    | match goal with
      | |- infix _ (String _ _) => apply infix_skip
      | |- infix _ (_ ++ _) => apply infix_app_r
      end ].

Ltac inv_bind H :=
  let v := fresh "v" in
  let E := fresh "E" in
  apply bind_Ok in H; destruct H as (v & E & H); cbv beta in H.

Lemma for_each_In (body : pyval -> result string) (xs : list pyval) (s : string) (x : pyval) :
  for_each xs body = Ok s -> In x xs ->
  exists frag, body x = Ok frag /\ infix frag s.
Proof.
  revert s. induction xs as [| y xs IH]; intros s H Hin; [destruct Hin |].
  cbn [for_each] in H. inv_bind H. inv_bind H. injection H as <-.
  destruct Hin as [-> | Hin].
  - exists v. auto with infix.
  - destruct (IH _ E0 Hin) as (frag & Hb & Hi). exists frag. auto with infix.
Qed.

(** A section of the shape
    [if xs: html += opening; for x in xs: html += body(x); html += closing]. *)
Lemma section_entry_in
    (body : pyval -> result string) (opening closing : string)
    (xs : list pyval) (s : string) (x : pyval) :
  (if truthy (PList xs)
   then (items <- iter (PList xs) ;; entries <- for_each items body ;;
         Ok (opening ++ entries ++ closing))
   else Ok "") = Ok s ->
  In x xs ->
  exists frag, body x = Ok frag /\ infix frag s.
Proof.
  intros H Hin. destruct xs as [| y xs]; [destruct Hin |].
  cbn [truthy iter bind] in H. inv_bind H. injection H as <-.
  destruct (for_each_In _ _ _ _ E Hin) as (frag & Hb & Hi).
  exists frag. auto with infix.
Qed.

(** A skills list of the shape
    [if d.get(k): html += ...; for skill in d.get(k, []): html += body(skill); ...],
    where [wrap] puts the opening and closing text around the items. *)
Lemma skills_entry_in
    (body : pyval -> result string) (wrap : string -> string)
    (d : pyval) (k : string) (xs : list pyval) (s : string) (x : pyval) :
  (forall entries, infix entries (wrap entries)) ->
  (present <- get1 d k ;;
   if truthy present
   then (skills <- get d k (PList []) ;; items <- iter skills ;;
         entries <- for_each items body ;; Ok (wrap entries))
   else Ok "") = Ok s ->
  get1 d k = Ok (PList xs) ->
  In x xs ->
  exists frag, body x = Ok frag /\ infix frag s.
Proof.
  intros Hwrap H Hk Hin. rewrite Hk in H. cbn [bind] in H.
  destruct xs as [| y xs]; [destruct Hin |].
  cbn [truthy] in H.
  assert (Hg : get d k (PList []) = Ok (PList (y :: xs))).
  { destruct d; cbn in Hk |- *; try discriminate Hk.
    destruct (lookup k entries); [exact Hk | discriminate Hk]. }
  rewrite Hg in H. cbn [bind iter] in H. inv_bind H. injection H as <-.
  destruct (for_each_In _ _ _ _ E Hin) as (frag & Hb & Hi).
  exists frag. split; [exact Hb |]. eapply infix_trans; [exact Hi | apply Hwrap].
Qed.

(** ** The documents as sequences of blocks *)

(** The value [cv_data.get(k, default)] reads from the record. *)
Definition part (record : list (string * pyval)) (k : string) (default : pyval) : pyval :=
  match lookup k record with Some v => v | None => default end.

(** [generate_professional_template] of [pdf-generator.py] returns a document
    only on a dict, and the document is the header, the seven section blocks
    in their order and the closing text. *)
Lemma professional_blocks (cv_data : pyval) (html : string) :
  PdfGenerator.generate_professional_template cv_data = Ok html ->
  exists record, cv_data = PDict record /\
  exists header s_summary s_competencies s_experience s_education
         s_certificates s_languages s_additional,
    PdfGenerator.Professional.header (part record "personal" (PDict [])) = Ok header
    /\ PdfGenerator.Professional.summary_section (part record "summary" (PDict [])) = Ok s_summary
    /\ PdfGenerator.Professional.competencies_section (part record "keyCompetencies" (PDict []))
       = Ok s_competencies
    /\ PdfGenerator.Professional.experience_section (part record "experiences" (PList []))
       = Ok s_experience
    /\ PdfGenerator.Professional.education_section (part record "educations" (PList []))
       = Ok s_education
    /\ PdfGenerator.Professional.certificates_section (part record "certificates" (PList []))
       = Ok s_certificates
    /\ PdfGenerator.Professional.languages_section (part record "languages" (PList []))
       = Ok s_languages
    /\ PdfGenerator.Professional.additional_section (part record "additional" (PDict []))
       = Ok s_additional
    /\ html = header ++ s_summary ++ s_competencies ++ s_experience ++ s_education
              ++ s_certificates ++ s_languages ++ s_additional
              ++ PdfGenerator.Professional.footer.
Proof.
  intro H. unfold PdfGenerator.generate_professional_template in H.
  destruct cv_data as [| | | | | | record]; try discriminate H.
  exists record. split; [reflexivity |].
  rewrite !get_dict in H. cbn [bind] in H. fold (part record) in H.
  do 8 inv_bind H. injection H as <-.
  repeat eexists; eassumption.
Qed.

(** The same for [generate_professional_template] of [new-pdf-generator.py],
    with its eight section blocks. *)
Lemma new_professional_blocks (cv_data : pyval) (html : string) :
  NewPdfGenerator.generate_professional_template cv_data = Ok html ->
  exists record, cv_data = PDict record /\
  exists header s_summary s_competencies s_experience s_education
         s_certificates s_extracurricular s_languages s_additional,
    NewPdfGenerator.header (part record "personal" (PDict [])) = Ok header
    /\ NewPdfGenerator.summary_section (part record "professional" (PDict [])) = Ok s_summary
    /\ NewPdfGenerator.competencies_section (part record "keyCompetencies" (PDict []))
       = Ok s_competencies
    /\ NewPdfGenerator.experience_section (part record "experience" (PList [])) = Ok s_experience
    /\ NewPdfGenerator.education_section (part record "education" (PList [])) = Ok s_education
    /\ NewPdfGenerator.certificates_section (part record "certificates" (PList []))
       = Ok s_certificates
    /\ NewPdfGenerator.extracurricular_section (part record "extracurricular" (PList []))
       = Ok s_extracurricular
    /\ NewPdfGenerator.languages_section (part record "languages" (PList [])) = Ok s_languages
    /\ NewPdfGenerator.additional_section (part record "additional" (PDict [])) = Ok s_additional
    /\ html = header ++ s_summary ++ s_competencies ++ s_experience ++ s_education
              ++ s_certificates ++ s_extracurricular ++ s_languages ++ s_additional
              ++ NewPdfGenerator.footer.
Proof.
  intro H. unfold NewPdfGenerator.generate_professional_template in H.
  destruct cv_data as [| | | | | | record]; try discriminate H.
  exists record. split; [reflexivity |].
  rewrite !get_dict in H. cbn [bind] in H. fold (part record) in H.
  do 9 inv_bind H. injection H as <-.
  repeat eexists; eassumption.
Qed.

(** ** Current entries *)




Ltac entry_unfold :=
  unfold PdfGenerator.Professional.experience_entry, PdfGenerator.Modern.experience_entry,
    PdfGenerator.Minimal.experience_entry, NewPdfGenerator.experience_entry,
    NewPdfGenerator.extracurricular_entry, PdfGenerator.end_date_of,
    NewPdfGenerator.end_date_of;
  rewrite ?get_field, ?get_dict.





(** ** The end-to-end scenario

    One experience entry and nothing else.  The entry is written with the
    keys the generators read: [companyName] for the organization, [jobTitle]
    for the role, [responsibilities] for the description; the list is
    [experiences] in [pdf-generator.py] and [experience] in
    [new-pdf-generator.py]. *)

Definition scenario_entry : pyval :=
  PDict [("companyName", PStr "Acme"); ("jobTitle", PStr "Engineer");
         ("startDate", PStr "2020-01-01"); ("isCurrent", PBool true);
         ("responsibilities", PStr "<p>Built things</p>")].

Definition scenario_record : pyval := PDict [("experiences", PList [scenario_entry])].
Definition scenario_record_new : pyval := PDict [("experience", PList [scenario_entry])].

(** What is looked for in a document: the number of section blocks, of
    section headings and of header regions, and whether the experience
    heading and a given date range text are there. *)
Definition survey (range : string) (document : result string) : option (nat * nat * nat * bool * bool) :=
  match document with
  | Ok html =>
      Some (occurrences (py "<div class=`section`") html,
            occurrences (py "<div class=`section-title`>") html,
            occurrences (py "<div class=`header`>") html,
            contains "Experience</div>" html,
            contains (">" ++ range ++ "<") html)
  | Raise _ => None
  end.

(** The string-built generators do not normalize dates: the date range of
    the scenario is not [Jan 2020 - Present] in any of their documents. *)
Lemma scenario_date_range_counterexample :
  survey "Jan 2020 - Present" (PdfGenerator.generate_professional_template scenario_record)
    = Some (1, 1, 1, true, false)%nat
  /\ survey "Jan 2020 - Present" (NewPdfGenerator.generate_professional_template scenario_record_new)
    = Some (1, 1, 1, true, false)%nat.
Proof. split; vm_compute; reflexivity. Qed.

(** C5, as the code has it: the document of the scenario has the header and
    exactly one section block, the experience section, and the date range of
    the entry is the start date as given followed by [ - Present]; this in
    the three styles of [pdf-generator.py] and in [new-pdf-generator.py].
    The date normalizer of [weasy_pdf.py], which these generators do not
    call, gives [Jan 2020] and [Present] on the two dates. *)
Theorem scenario_document :
  survey "2020-01-01 - Present" (PdfGenerator.generate_professional_template scenario_record)
    = Some (1, 1, 1, true, true)%nat
  /\ survey "2020-01-01 - Present" (PdfGenerator.generate_modern_template scenario_record)
    = Some (1, 1, 1, true, true)%nat
  /\ survey "2020-01-01 - Present" (PdfGenerator.generate_minimal_template scenario_record)
    = Some (1, 1, 1, true, true)%nat
  /\ survey "2020-01-01 - Present" (NewPdfGenerator.generate_professional_template scenario_record_new)
    = Some (1, 1, 1, true, true)%nat
  /\ WeasyPdf.format_date (PStr "2020-01-01") (PBool false) = Ok "Jan 2020"
  /\ WeasyPdf.format_date (field [] "endDate") (PBool true) = Ok "Present".
Proof. repeat split; vm_compute; reflexivity. Qed.

(** ** Records whose values [str()] formats as [py_str] does *)

(** The fields of a dict. *)
Definition fields_formattable (v : pyval) : bool :=
  match v with
  | PDict entries => forallb (fun kv => formattable (snd kv)) entries
  | _ => true
  end.

(** The items of a skill list; the items of a text or of a dict are texts. *)
Definition items_formattable (v : pyval) : bool :=
  match v with
  | PList items => forallb formattable items
  | _ => true
  end.

(** The skill lists of a dict. *)
Definition skills_formattable (v : pyval) : bool :=
  match v with
  | PDict entries => forallb (fun kv => items_formattable (snd kv)) entries
  | _ => true
  end.

(** The fields of the entries of a section. *)
Definition entries_formattable (v : pyval) : bool :=
  match v with
  | PList items => forallb fields_formattable items
  | _ => true
  end.

(** Every value that a template of the two generators formats. *)
Definition printable (cv_data : pyval) : bool :=
  match cv_data with
  | PDict record =>
      forallb (fun k => fields_formattable (part record k (PDict [])))
        ["personal"; "summary"; "professional"]
      && forallb (fun k => skills_formattable (part record k (PDict [])))
           ["keyCompetencies"; "additional"]
      && forallb (fun k => entries_formattable (part record k (PList [])))
           ["experiences"; "educations"; "certificates"; "languages";
            "experience"; "education"; "extracurricular"]
  | _ => true
  end.

(** ** Field values in the markup *)

(** The escaping the specification asks for, as [html.escape] does it for
    the three characters it names. *)
Fixpoint spec_escape (s : string) : string :=
  match s with
  | EmptyString => EmptyString
  | String c r =>
      (if Ascii.eqb c "&"%char then "&amp;"
       else if Ascii.eqb c "<"%char then "&lt;"
       else if Ascii.eqb c ">"%char then "&gt;"
       else String c EmptyString) ++ spec_escape r
  end.

Definition markup_in_name : list (string * pyval) :=
  [("personal", PDict [("firstName", PStr "<i>R&D</i>"); ("lastName", PStr "Team")])].

(** A first name with markup characters reaches the heading as it is, and
    its escaped form is nowhere in the document. *)
Lemma escaping_counterexample :
  (exists html,
     PdfGenerator.generate_professional_template (PDict markup_in_name) = Ok html
     /\ contains (py "<h1 class=`name`><i>R&D</i> Team</h1>") html = true
     /\ contains (spec_escape "<i>R&D</i>") html = false)
  /\ (exists html,
        NewPdfGenerator.generate_professional_template (PDict markup_in_name) = Ok html
        /\ contains (py "<h1 class=`name`><i>R&D</i> Team</h1>") html = true
        /\ contains (spec_escape "<i>R&D</i>") html = false).
Proof.
  split; (eexists; split; [vm_compute; reflexivity |]); split; vm_compute; reflexivity.
Qed.

(** The text a field of a dict is formatted to. *)
Definition shown (entries : list (string * pyval)) (k : string) : string :=
  py_str (field entries k).

(** The end of the date range of an entry. *)
Definition shown_end (entry : list (string * pyval)) : string :=
  match lookup "isCurrent" entry with
  | Some current => if truthy current then "Present" else shown entry "endDate"
  | None => shown entry "endDate"
  end.

Definition all_in (lines : list string) (html : string) : Prop :=
  Forall (fun line => infix line html) lines.

Lemma all_in_trans (lines : list string) (block html : string) :
  all_in lines block -> infix block html -> all_in lines html.
Proof.
  intros H Hb. unfold all_in in *. rewrite Forall_forall in *.
  intros line Hl. eapply infix_trans; [apply H, Hl | exact Hb].
Qed.

(** *** The lines of [pdf-generator.py], professional style *)

Module PdfLines.

Definition header (personal : list (string * pyval)) : list string :=
  [ py "<h1 class=`name`>" ++ shown personal "firstName" ++ " " ++ shown personal "lastName" ++ "</h1>";
    py "<div class=`title`>" ++ shown personal "professionalTitle" ++ "</div>";
    shown personal "email" ++ " | " ++ shown personal "phone";
    (if truthy (field personal "linkedin")
     then " | LinkedIn: " ++ shown personal "linkedin" else "") ].

Definition skill (x : pyval) : string :=
  py "<div class=`skills-item`>• " ++ py_str x ++ "</div>".

Definition experience (e : list (string * pyval)) : list string :=
  [ py "<p class=`company-title`>" ++ shown e "companyName" ++ "</p>";
    py "<p class=`job-title`>" ++ shown e "jobTitle" ++ "</p>";
    py "<p class=`date-range`>" ++ shown e "startDate" ++ " - " ++ shown_end e ++ "</p>";
    shown e "responsibilities" ].

Definition education (e : list (string * pyval)) : list string :=
  [ py "<p class=`school-name`>" ++ shown e "schoolName" ++ "</p>";
    py "<p class=`degree`>" ++ shown e "major" ++ "</p>";
    py "<p class=`date-range`>" ++ shown e "startDate" ++ " - " ++ shown e "endDate" ++ "</p>";
    (if truthy (field e "achievements") then "<p>" ++ shown e "achievements" ++ "</p>" else "") ].

Definition certificate (e : list (string * pyval)) : list string :=
  [ "<p><strong>" ++ shown e "name" ++ "</strong> - " ++ shown e "institution" ++ "</p>";
    py "<p class=`date-range`>Acquired: " ++ shown e "dateAcquired"
      ++ (if truthy (expiration_of e) then " (Expires: " ++ py_str (expiration_of e) ++ ")" else "")
      ++ "</p>";
    (if truthy (field e "achievements") then "<p>" ++ shown e "achievements" ++ "</p>" else "") ].

Definition language_name (e : list (string * pyval)) : string :=
  py "<span class=`language-name`>" ++ shown e "name" ++ "</span>".

Definition language_level (proficiency : string) : string :=
  py "<span class=`language-level`>" ++ capitalize proficiency ++ "</span>".

Definition language (e : list (string * pyval)) (proficiency : string) : list string :=
  [ language_name e; language_level proficiency ].

End PdfLines.

(** *** The lines of [new-pdf-generator.py] *)

Module NewLines.

Definition header (personal : list (string * pyval)) : list string :=
  [ py "<h1 class=`name`>" ++ shown personal "firstName" ++ " " ++ shown personal "lastName" ++ "</h1>";
    py "<span class=`icon email-icon`></span>" ++ shown personal "email";
    py "<span class=`icon phone-icon` style=`margin-left: 10px;`></span>" ++ shown personal "phone";
    (if truthy (field personal "linkedin")
     then py "<span class=`icon linkedin-icon` style=`margin-left: 10px;`></span>"
          ++ shown personal "linkedin"
     else "") ].

Definition skill (x : pyval) : string :=
  py "<div class=`skill-item`>" ++ py_str x ++ "</div>".

Definition experience (e : list (string * pyval)) : list string :=
  [ py "<div class=`company-name`>" ++ shown e "companyName" ++ "</div>";
    py "<div class=`job-title`>" ++ shown e "jobTitle" ++ "</div>";
    py "<div class=`date-range`>" ++ shown e "startDate" ++ " - " ++ shown_end e ++ "</div>";
    shown e "responsibilities" ].

Definition education (e : list (string * pyval)) : list string :=
  [ py "<div class=`school-name`>" ++ shown e "schoolName" ++ "</div>";
    py "<div class=`degree`>" ++ shown e "major" ++ "</div>";
    py "<div class=`date-range`>" ++ shown e "startDate" ++ " - " ++ shown e "endDate" ++ "</div>";
    (if truthy (field e "achievements") then "<p>" ++ shown e "achievements" ++ "</p>" else "") ].

Definition certificate (e : list (string * pyval)) : list string :=
  [ py "<div class=`school-name`>" ++ shown e "name" ++ "</div>";
    py "<div class=`job-title`>" ++ shown e "institution" ++ "</div>";
    py "<div class=`date-range`>Acquired: " ++ shown e "dateAcquired"
      ++ (if truthy (expiration_of e) then " - Expires: " ++ py_str (expiration_of e) else "")
      ++ "</div>";
    (if truthy (field e "achievements") then "<p>" ++ shown e "achievements" ++ "</p>" else "") ].

Definition extracurricular (e : list (string * pyval)) : list string :=
  [ py "<div class=`company-name`>" ++ shown e "organization" ++ "</div>";
    py "<div class=`job-title`>" ++ shown e "role" ++ "</div>";
    py "<div class=`date-range`>" ++ shown e "startDate" ++ " - " ++ shown_end e ++ "</div>";
    shown e "description" ].

Definition language_name (e : list (string * pyval)) : string :=
  py "<span class=`language-name`>" ++ shown e "name" ++ "</span>".

Definition language_level (proficiency : string) : string :=
  py "<span class=`language-level`>" ++ capitalize proficiency ++ "</span>".

Definition language (e : list (string * pyval)) (proficiency : string) : list string :=
  [ language_name e; language_level proficiency ].

End NewLines.

(** *** Each block holds its lines *)

Ltac each_line :=
  unfold all_in; repeat apply Forall_cons; try apply Forall_nil.

Ltac line_in_block :=
  cbn -[py_str capitalize]; rewrite ?py_str_text, ?append_assoc;
  cbn -[py_str capitalize]; find_infix.

Ltac open_entry H :=
  rewrite ?get_field, ?get1_dict, ?get_dict in H; cbn [bind] in H.

Definition name_tag : string := py "<h1 class=`name`>".

(** The text of [head] before the tag that opens the name. *)
Definition professional_style : string :=
  Eval vm_compute in
    String.substring 0 (String.length PdfGenerator.Professional.head - String.length name_tag)
      PdfGenerator.Professional.head.

Definition new_style : string :=
  Eval vm_compute in
    String.substring 0 (String.length NewPdfGenerator.head - String.length name_tag)
      NewPdfGenerator.head.

Lemma professional_head_split :
  PdfGenerator.Professional.head = professional_style ++ name_tag.
Proof. vm_compute. reflexivity. Qed.

Lemma new_head_split : NewPdfGenerator.head = new_style ++ name_tag.
Proof. vm_compute. reflexivity. Qed.

Section PdfGeneratorLines.
Import PdfGenerator PdfGenerator.Professional.

(** The text after the phone: a [linkedin] that is shown is a text. *)
Lemma linkedin_cases (personal : list (string * pyval)) (text : string) :
  linkedin_fragment (PDict personal) = Ok text ->
  text = if truthy (field personal "linkedin")
         then " | LinkedIn: " ++ shown personal "linkedin" else "".
Proof.
  unfold linkedin_fragment, shown, field. rewrite get1_dict, get_dict.
  destruct (lookup "linkedin" personal) as [a |]; cbn [bind]; [| now intros [= <-]].
  destruct (truthy a); [| now intros [= <-]].
  destruct a; cbn [bind str_add]; try discriminate. now intros [= <-].
Qed.

Lemma header_lines (personal : list (string * pyval)) (block : string) :
  header (PDict personal) = Ok block -> all_in (PdfLines.header personal) block.
Proof.
  intro H. unfold header in H. open_entry H. inv_bind H.
  apply Ok_inj in H. subst block. apply linkedin_cases in E. subst v.
  rewrite professional_head_split. unfold PdfLines.header, shown, name_tag.
  destruct (truthy (field personal "linkedin"));
    each_line; rewrite ?append_assoc; cbn -[py_str professional_style]; find_infix.
Qed.

Lemma experience_lines (e : list (string * pyval)) (block : string) :
  experience_entry (PDict e) = Ok block -> all_in (PdfLines.experience e) block.
Proof.
  intro H. unfold experience_entry, end_date_of in H.
  unfold PdfLines.experience, shown_end, shown. open_entry H.
  destruct (lookup "isCurrent" e) as [current |]; cbn [truthy] in H;
    [destruct (truthy current) |]; open_entry H; injection H as <-;
    each_line; line_in_block.
Qed.

Lemma achievements_cases (e : list (string * pyval)) :
  achievements_fragment (PDict e)
  = Ok (if truthy (field e "achievements") then "<p>" ++ shown e "achievements" ++ "</p>" else "").
Proof.
  unfold achievements_fragment, shown, field. rewrite get1_dict, get_dict.
  destruct (lookup "achievements" e) as [a |]; cbn [bind truthy]; [| reflexivity].
  destruct (truthy a); reflexivity.
Qed.

Lemma expiration_cases (e : list (string * pyval)) :
  expiration_fragment (PDict e)
  = Ok (if truthy (expiration_of e) then " (Expires: " ++ py_str (expiration_of e) ++ ")" else "").
Proof.
  unfold expiration_fragment, expiration_of, read. rewrite get1_dict.
  destruct (lookup "expirationDate" e) as [a |]; cbn [bind truthy]; [| reflexivity].
  destruct (truthy a); reflexivity.
Qed.

Lemma education_lines (e : list (string * pyval)) (block : string) :
  education_entry (PDict e) = Ok block -> all_in (PdfLines.education e) block.
Proof.
  intro H. unfold education_entry in H. rewrite achievements_cases in H.
  unfold PdfLines.education, shown in *. open_entry H. injection H as <-.
  destruct (truthy (field e "achievements")); each_line; line_in_block.
Qed.

Lemma certificate_lines (e : list (string * pyval)) (block : string) :
  certificate_entry (PDict e) = Ok block -> all_in (PdfLines.certificate e) block.
Proof.
  intro H. unfold certificate_entry in H. rewrite achievements_cases, expiration_cases in H.
  unfold PdfLines.certificate, shown in *. open_entry H. injection H as <-.
  destruct (truthy (field e "achievements")); destruct (truthy (expiration_of e));
    each_line; line_in_block.
Qed.

Lemma language_lines (e : list (string * pyval)) (block : string) :
  language_entry (PDict e) = Ok block ->
  exists proficiency, field e "proficiency" = PStr proficiency
                      /\ all_in (PdfLines.language e proficiency) block.
Proof.
  intro H. unfold language_entry in H. open_entry H.
  destruct (field e "proficiency") as [| | | | proficiency | |]; try discriminate H.
  exists proficiency. split; [reflexivity |].
  cbn [py_capitalize bind] in H. injection H as <-.
  unfold PdfLines.language, PdfLines.language_name, PdfLines.language_level, shown.
  each_line; line_in_block.
Qed.

Lemma skill_line (x : pyval) (block : string) :
  skills_item x = Ok block -> infix (PdfLines.skill x) block.
Proof. intros [= <-]. apply infix_refl. Qed.

End PdfGeneratorLines.

Section NewPdfGeneratorLines.
Import NewPdfGenerator.

Lemma new_linkedin_cases (personal : list (string * pyval)) (text : string) :
  linkedin_fragment (PDict personal) = Ok text ->
  text = if truthy (field personal "linkedin")
         then py "<span class=`icon linkedin-icon` style=`margin-left: 10px;`></span>"
              ++ shown personal "linkedin"
         else "".
Proof.
  unfold linkedin_fragment, shown, field. rewrite get1_dict, get_dict.
  destruct (lookup "linkedin" personal) as [a |]; cbn [bind]; [| now intros [= <-]].
  destruct (truthy a); now intros [= <-].
Qed.

Lemma new_header_lines (personal : list (string * pyval)) (block : string) :
  header (PDict personal) = Ok block -> all_in (NewLines.header personal) block.
Proof.
  intro H. unfold header in H. open_entry H. inv_bind H.
  apply Ok_inj in H. subst block. apply new_linkedin_cases in E. subst v.
  rewrite new_head_split. unfold NewLines.header, shown, name_tag.
  destruct (truthy (field personal "linkedin"));
    each_line; rewrite ?append_assoc; cbn -[py_str new_style]; find_infix.
Qed.

Lemma new_experience_lines (e : list (string * pyval)) (block : string) :
  experience_entry (PDict e) = Ok block -> all_in (NewLines.experience e) block.
Proof.
  intro H. unfold experience_entry, end_date_of in H.
  unfold NewLines.experience, shown_end, shown. open_entry H.
  destruct (lookup "isCurrent" e) as [current |]; cbn [truthy] in H;
    [destruct (truthy current) |]; open_entry H; injection H as <-;
    each_line; line_in_block.
Qed.

Lemma new_extracurricular_lines (e : list (string * pyval)) (block : string) :
  extracurricular_entry (PDict e) = Ok block -> all_in (NewLines.extracurricular e) block.
Proof.
  intro H. unfold extracurricular_entry, end_date_of in H.
  unfold NewLines.extracurricular, shown_end, shown. open_entry H.
  destruct (lookup "isCurrent" e) as [current |]; cbn [truthy] in H;
    [destruct (truthy current) |]; open_entry H; injection H as <-;
    each_line; line_in_block.
Qed.

Lemma new_achievements_cases (e : list (string * pyval)) :
  achievements_fragment (PDict e)
  = Ok (if truthy (field e "achievements") then "<p>" ++ shown e "achievements" ++ "</p>" else "").
Proof.
  unfold achievements_fragment, shown, field. rewrite get1_dict, get_dict.
  destruct (lookup "achievements" e) as [a |]; cbn [bind truthy]; [| reflexivity].
  destruct (truthy a); reflexivity.
Qed.

Lemma expiry_cases (e : list (string * pyval)) :
  expiry_fragment (PDict e)
  = Ok (if truthy (expiration_of e) then " - Expires: " ++ py_str (expiration_of e) else "").
Proof.
  unfold expiry_fragment, expiration_of, read. rewrite get1_dict, get_dict.
  destruct (lookup "expirationDate" e) as [a |]; cbn [bind truthy]; [| reflexivity].
  destruct (truthy a); reflexivity.
Qed.

Lemma new_education_lines (e : list (string * pyval)) (block : string) :
  education_entry (PDict e) = Ok block -> all_in (NewLines.education e) block.
Proof.
  intro H. unfold education_entry in H. rewrite new_achievements_cases in H.
  unfold NewLines.education, shown in *. open_entry H. injection H as <-.
  destruct (truthy (field e "achievements")); each_line; line_in_block.
Qed.

Lemma new_certificate_lines (e : list (string * pyval)) (block : string) :
  certificate_entry (PDict e) = Ok block -> all_in (NewLines.certificate e) block.
Proof.
  intro H. unfold certificate_entry in H. rewrite new_achievements_cases, expiry_cases in H.
  unfold NewLines.certificate, shown in *. open_entry H. injection H as <-.
  destruct (truthy (field e "achievements")); destruct (truthy (expiration_of e));
    each_line; line_in_block.
Qed.

Lemma new_language_lines (e : list (string * pyval)) (block : string) :
  language_entry (PDict e) = Ok block ->
  exists proficiency, field e "proficiency" = PStr proficiency
                      /\ all_in (NewLines.language e proficiency) block.
Proof.
  intro H. unfold language_entry in H. open_entry H.
  destruct (field e "proficiency") as [| | | | proficiency | |]; try discriminate H.
  exists proficiency. split; [reflexivity |].
  cbn [py_capitalize bind] in H. injection H as <-.
  unfold NewLines.language, NewLines.language_name, NewLines.language_level, shown.
  each_line; line_in_block.
Qed.

Lemma new_skill_line (x : pyval) (block : string) :
  skill_item x = Ok block -> infix (NewLines.skill x) block.
Proof. intros [= <-]. apply infix_refl. Qed.

End NewPdfGeneratorLines.

(** *** Each document holds the lines of its entries *)

(** The block is one of the pieces the text is appended from. *)
Ltac piece_of :=
  first [ apply infix_refl
        | solve [ apply infix_app_l; piece_of ]
        | solve [ apply infix_app_r; piece_of ] ].

(** From the lines of a fragment to the document, through the blocks given. *)
Ltac in_document Hlines :=
  subst;
  first [ eapply all_in_trans; [exact Hlines |] | eapply infix_trans; [exact Hlines |] ];
  repeat first [ solve [ piece_of ]
               | match goal with
                 | Hi : infix ?frag _ |- infix ?frag _ => eapply infix_trans; [exact Hi |]
                 end ].

Lemma lookup_get1 (entries : list (string * pyval)) (k : string) (v : pyval) :
  lookup k entries = Some v -> get1 (PDict entries) k = Ok v.
Proof. intro H. rewrite get1_dict. now rewrite H. Qed.

(** The lines of the record stand in the document [html] of
    [pdf-generator.py]. *)
Definition pdf_lines_in (record : list (string * pyval)) (html : string) : Prop :=
  (forall personal, part record "personal" (PDict []) = PDict personal ->
     all_in (PdfLines.header personal) html)
  /\ (forall summary, part record "summary" (PDict []) = PDict summary ->
        truthy (field summary "summary") = true ->
        infix ("<p>" ++ shown summary "summary" ++ "</p>") html)
  /\ (forall competencies k xs x,
        part record "keyCompetencies" (PDict []) = PDict competencies ->
        k = "technicalSkills" \/ k = "softSkills" ->
        lookup k competencies = Some (PList xs) -> In x xs ->
        infix (PdfLines.skill x) html)
  /\ (forall xs e, part record "experiences" (PList []) = PList xs -> In (PDict e) xs ->
        all_in (PdfLines.experience e) html)
  /\ (forall xs e, part record "educations" (PList []) = PList xs -> In (PDict e) xs ->
        all_in (PdfLines.education e) html)
  /\ (forall xs e, part record "certificates" (PList []) = PList xs -> In (PDict e) xs ->
        all_in (PdfLines.certificate e) html)
  /\ (forall xs e, part record "languages" (PList []) = PList xs -> In (PDict e) xs ->
        exists proficiency,
          field e "proficiency" = PStr proficiency
          /\ infix (PdfLines.language_name e) html
          /\ (is_ascii proficiency = true -> infix (PdfLines.language_level proficiency) html))
  /\ (forall additional xs x,
        part record "additional" (PDict []) = PDict additional ->
        lookup "skills" additional = Some (PList xs) -> In x xs ->
        infix (PdfLines.skill x) html).

Lemma pdf_values_verbatim (record : list (string * pyval)) (html : string) :
  PdfGenerator.generate_professional_template (PDict record) = Ok html ->
  pdf_lines_in record html.
Proof.
  intro H. apply professional_blocks in H.
  destruct H as (record' & [= <-] & header & s1 & s2 & s3 & s4 & s5 & s6 & s7
                 & Hh & H1 & H2 & H3 & H4 & H5 & H6 & H7 & ->).
  unfold pdf_lines_in. repeat split.
  - intros personal Hp. rewrite Hp in Hh. apply header_lines in Hh. in_document Hh.
  - intros summary Hp Ht. rewrite Hp in H1.
    unfold PdfGenerator.Professional.summary_section in H1.
    rewrite get1_dict, get_field in H1. unfold field in Ht.
    destruct (lookup "summary" summary) as [text |] eqn:El; [| discriminate Ht].
    cbn [bind] in H1. rewrite Ht in H1. cbn [bind] in H1. apply Ok_inj in H1.
    assert (Hi : infix ("<p>" ++ shown summary "summary" ++ "</p>") s1).
    { subst s1. unfold shown. line_in_block. }
    in_document Hi.
  - intros competencies k xs x Hp Hk Hl Hin. rewrite Hp in H2.
    unfold PdfGenerator.Professional.competencies_section in H2.
    assert (Hpresent : exists present,
               py_or (get1 (PDict competencies) "technicalSkills")
                     (get1 (PDict competencies) "softSkills") = Ok present
               /\ truthy present = true).
    { unfold py_or. rewrite !get1_dict. cbn [bind].
      destruct (truthy (match lookup "technicalSkills" competencies with
                        | Some v => v | None => PNone end)) eqn:Et; [eauto |].
      destruct Hk as [-> | ->]; rewrite Hl in *;
        destruct xs; try destruct Hin; try discriminate Et; eauto. }
    destruct Hpresent as (present & Hpresent & Ht).
    rewrite Hpresent in H2. cbn [bind] in H2. rewrite Ht in H2.
    inv_bind H2. inv_bind H2. apply Ok_inj in H2.
    destruct Hk as [-> | ->].
    + destruct (skills_entry_in _ (fun items => "<strong>Technical Skills:</strong><br/>" ++ items)
                  _ _ _ _ _ (fun entries => infix_app_r _ _ _ (infix_refl entries))
                  E (lookup_get1 _ _ _ Hl) Hin) as (frag & Hb & Hi).
      apply skill_line in Hb. in_document Hb.
    + destruct (skills_entry_in _ (fun items => "<br/><strong>Soft Skills:</strong><br/>" ++ items)
                  _ _ _ _ _ (fun entries => infix_app_r _ _ _ (infix_refl entries))
                  E0 (lookup_get1 _ _ _ Hl) Hin) as (frag & Hb & Hi).
      apply skill_line in Hb. in_document Hb.
  - intros xs e Hp Hin. rewrite Hp in H3.
    destruct (section_entry_in _ _ _ _ _ _ H3 Hin) as (frag & Hb & Hi).
    apply experience_lines in Hb. in_document Hb.
  - intros xs e Hp Hin. rewrite Hp in H4.
    destruct (section_entry_in _ _ _ _ _ _ H4 Hin) as (frag & Hb & Hi).
    apply education_lines in Hb. in_document Hb.
  - intros xs e Hp Hin. rewrite Hp in H5.
    destruct (section_entry_in _ _ _ _ _ _ H5 Hin) as (frag & Hb & Hi).
    apply certificate_lines in Hb. in_document Hb.
  - intros xs e Hp Hin. rewrite Hp in H6.
    destruct (section_entry_in _ _ _ _ _ _ H6 Hin) as (frag & Hb & Hi).
    apply language_lines in Hb. destruct Hb as (proficiency & Hf & Hb).
    exists proficiency. split; [exact Hf |].
    assert (Hall : all_in (PdfLines.language e proficiency)
                     (header ++ s1 ++ s2 ++ s3 ++ s4 ++ s5 ++ s6 ++ s7
                      ++ PdfGenerator.Professional.footer)) by in_document Hb.
    split; [exact (Forall_inv Hall) | intros _; exact (Forall_inv (Forall_inv_tail Hall))].
  - intros additional xs x Hp Hl Hin. rewrite Hp in H7.
    destruct (skills_entry_in _ (fun items => _ ++ items ++ "</div></div>")
                _ _ _ _ _ (fun entries => infix_app_r _ _ _ (infix_app_l _ _ _ (infix_refl entries)))
                H7 (lookup_get1 _ _ _ Hl) Hin) as (frag & Hb & Hi).
    apply skill_line in Hb. in_document Hb.
Qed.

Lemma py_and_dict (entries : list (string * pyval)) (k : string) (v : pyval) (b : result pyval) :
  lookup k entries = Some v -> NewPdfGenerator.py_and (PDict entries) b = b.
Proof. destruct entries; [discriminate | reflexivity]. Qed.

(** The lines of the record stand in the document [html] of
    [new-pdf-generator.py]. *)
Definition new_lines_in (record : list (string * pyval)) (html : string) : Prop :=
  (forall personal, part record "personal" (PDict []) = PDict personal ->
     all_in (NewLines.header personal) html)
  /\ (forall professional, part record "professional" (PDict []) = PDict professional ->
        truthy (field professional "summary") = true ->
        infix ("<p>" ++ shown professional "summary" ++ "</p>") html)
  /\ (forall competencies k xs x,
        part record "keyCompetencies" (PDict []) = PDict competencies ->
        k = "technicalSkills" \/ k = "softSkills" ->
        lookup k competencies = Some (PList xs) -> In x xs ->
        infix (NewLines.skill x) html)
  /\ (forall xs e, part record "experience" (PList []) = PList xs -> In (PDict e) xs ->
        all_in (NewLines.experience e) html)
  /\ (forall xs e, part record "education" (PList []) = PList xs -> In (PDict e) xs ->
        all_in (NewLines.education e) html)
  /\ (forall xs e, part record "certificates" (PList []) = PList xs -> In (PDict e) xs ->
        all_in (NewLines.certificate e) html)
  /\ (forall xs e, part record "extracurricular" (PList []) = PList xs -> In (PDict e) xs ->
        all_in (NewLines.extracurricular e) html)
  /\ (forall xs e, part record "languages" (PList []) = PList xs -> In (PDict e) xs ->
        exists proficiency,
          field e "proficiency" = PStr proficiency
          /\ infix (NewLines.language_name e) html
          /\ (is_ascii proficiency = true -> infix (NewLines.language_level proficiency) html))
  /\ (forall additional xs x,
        part record "additional" (PDict []) = PDict additional ->
        lookup "skills" additional = Some (PList xs) -> In x xs ->
        infix (NewLines.skill x) html).

Lemma new_values_verbatim (record : list (string * pyval)) (html : string) :
  NewPdfGenerator.generate_professional_template (PDict record) = Ok html ->
  new_lines_in record html.
Proof.
  intro H. apply new_professional_blocks in H.
  destruct H as (record' & [= <-] & header & s1 & s2 & s3 & s4 & s5 & s6 & s7 & s8
                 & Hh & H1 & H2 & H3 & H4 & H5 & H6 & H7 & H8 & ->).
  unfold new_lines_in. repeat split.
  - intros personal Hp. rewrite Hp in Hh. apply new_header_lines in Hh. in_document Hh.
  - intros professional Hp Ht. rewrite Hp in H1.
    unfold NewPdfGenerator.summary_section in H1. unfold field in Ht.
    destruct (lookup "summary" professional) as [text |] eqn:El; [| discriminate Ht].
    rewrite (py_and_dict _ _ _ _ El), get1_dict, get_field in H1. unfold field in H1.
    rewrite El in H1. cbn [bind] in H1. rewrite Ht in H1. cbn [bind] in H1. apply Ok_inj in H1.
    assert (Hi : infix ("<p>" ++ shown professional "summary" ++ "</p>") s1).
    { subst s1. unfold shown, field. rewrite El. line_in_block. }
    in_document Hi.
  - intros competencies k xs x Hp Hk Hl Hin. rewrite Hp in H2.
    unfold NewPdfGenerator.competencies_section in H2.
    rewrite (py_and_dict _ _ _ _ Hl) in H2.
    assert (Hpresent : exists present,
               py_or (get1 (PDict competencies) "technicalSkills")
                     (get1 (PDict competencies) "softSkills") = Ok present
               /\ truthy present = true).
    { unfold py_or. rewrite !get1_dict. cbn [bind].
      destruct (truthy (match lookup "technicalSkills" competencies with
                        | Some v => v | None => PNone end)) eqn:Et; [eauto |].
      destruct Hk as [-> | ->]; rewrite Hl in *;
        destruct xs; try destruct Hin; try discriminate Et; eauto. }
    destruct Hpresent as (present & Hpresent & Ht).
    rewrite Hpresent in H2. cbn [bind] in H2. rewrite Ht in H2.
    inv_bind H2. inv_bind H2. apply Ok_inj in H2.
    destruct Hk as [-> | ->].
    + destruct (skills_entry_in _ (fun items => _ ++ items ++ "</div>")
                  _ _ _ _ _ (fun entries => infix_app_r _ _ _ (infix_app_l _ _ _ (infix_refl entries)))
                  E (lookup_get1 _ _ _ Hl) Hin) as (frag & Hb & Hi).
      apply new_skill_line in Hb. in_document Hb.
    + destruct (skills_entry_in _ (fun items => _ ++ items ++ "</div>")
                  _ _ _ _ _ (fun entries => infix_app_r _ _ _ (infix_app_l _ _ _ (infix_refl entries)))
                  E0 (lookup_get1 _ _ _ Hl) Hin) as (frag & Hb & Hi).
      apply new_skill_line in Hb. in_document Hb.
  - intros xs e Hp Hin. rewrite Hp in H3.
    destruct (section_entry_in _ _ _ _ _ _ H3 Hin) as (frag & Hb & Hi).
    apply new_experience_lines in Hb. in_document Hb.
  - intros xs e Hp Hin. rewrite Hp in H4.
    destruct (section_entry_in _ _ _ _ _ _ H4 Hin) as (frag & Hb & Hi).
    apply new_education_lines in Hb. in_document Hb.
  - intros xs e Hp Hin. rewrite Hp in H5.
    destruct (section_entry_in _ _ _ _ _ _ H5 Hin) as (frag & Hb & Hi).
    apply new_certificate_lines in Hb. in_document Hb.
  - intros xs e Hp Hin. rewrite Hp in H6.
    destruct (section_entry_in _ _ _ _ _ _ H6 Hin) as (frag & Hb & Hi).
    apply new_extracurricular_lines in Hb. in_document Hb.
  - intros xs e Hp Hin. rewrite Hp in H7.
    destruct (section_entry_in _ _ _ _ _ _ H7 Hin) as (frag & Hb & Hi).
    apply new_language_lines in Hb. destruct Hb as (proficiency & Hf & Hb).
    exists proficiency. split; [exact Hf |].
    assert (Hall : all_in (NewLines.language e proficiency)
                     (header ++ s1 ++ s2 ++ s3 ++ s4 ++ s5 ++ s6 ++ s7 ++ s8
                      ++ NewPdfGenerator.footer)) by in_document Hb.
    split; [exact (Forall_inv Hall) | intros _; exact (Forall_inv (Forall_inv_tail Hall))].
  - intros additional xs x Hp Hl Hin. rewrite Hp in H8.
    unfold NewPdfGenerator.additional_section in H8.
    rewrite (py_and_dict _ _ _ _ Hl) in H8.
    destruct (skills_entry_in _ (fun items => _ ++ items ++ "</div></div>")
                _ _ _ _ _ (fun entries => infix_app_r _ _ _ (infix_app_l _ _ _ (infix_refl entries)))
                H8 (lookup_get1 _ _ _ Hl) Hin) as (frag & Hb & Hi).
    apply new_skill_line in Hb. in_document Hb.
Qed.

(** C1, as the code has it: no field value is escaped.  For a record whose
    values [str()] formats as [py_str] does, in the documents of both
    professional templates every field value, plain text or rich text,
    stands as [str()] of the value between the markup of its line: names,
    title, email, phone, a truthy linkedin, summary, skills, organization
    and institution names, dates, language names, descriptions and
    achievements unchanged, the language proficiency after [capitalize()]
    (for an ASCII proficiency, where [capitalize] is the case mapping of
    Python). *)
Theorem field_values_inserted_verbatim (record : list (string * pyval)) (html html' : string) :
  printable (PDict record) = true ->
  (PdfGenerator.generate_professional_template (PDict record) = Ok html ->
   pdf_lines_in record html)
  /\ (NewPdfGenerator.generate_professional_template (PDict record) = Ok html' ->
      new_lines_in record html').
Proof.
  intros _. split; [apply pdf_values_verbatim | apply new_values_verbatim].
Qed.

Definition document_of (r : result string) : string :=
  match r with Ok html => html | Raise _ => "" end.

Lemma field_values_inserted_verbatim_witness :
  infix (py "<h1 class=`name`><i>R&D</i> Team</h1>")
    (document_of (PdfGenerator.generate_professional_template (PDict markup_in_name)))
  /\ infix (py "<h1 class=`name`><i>R&D</i> Team</h1>")
       (document_of (NewPdfGenerator.generate_professional_template (PDict markup_in_name))).
Proof.
  destruct (field_values_inserted_verbatim markup_in_name
              (document_of (PdfGenerator.generate_professional_template (PDict markup_in_name)))
              (document_of (NewPdfGenerator.generate_professional_template (PDict markup_in_name)))
              ltac:(vm_compute; reflexivity))
    as [Hpdf Hnew].
  split.
  - destruct (Hpdf ltac:(vm_compute; reflexivity)) as [Hheader _].
    specialize (Hheader _ eq_refl). apply Forall_inv in Hheader. exact Hheader.
  - destruct (Hnew ltac:(vm_compute; reflexivity)) as [Hheader _].
    specialize (Hheader _ eq_refl). apply Forall_inv in Hheader. exact Hheader.
Defined.

(** ** Certificates *)

Definition expiring_certificate : list (string * pyval) :=
  [("name", PStr "Solutions Architect"); ("institution", PStr "AWS");
   ("dateAcquired", PStr "2022-05-01"); ("expirationDate", PStr "2025-05-01")].

(** In [pdf-generator.py] a certificate with an expiration date has no
    suffix of the form [ - Expires: <date>]: the date is appended in
    parentheses. *)
Lemma certificate_suffix_counterexample :
  exists block,
    PdfGenerator.Professional.certificate_entry (PDict expiring_certificate) = Ok block
    /\ contains "Acquired:" block = true
    /\ contains " - Expires: " block = false
    /\ contains "Acquired: 2022-05-01 (Expires: 2025-05-01)</p>" block = true.
Proof. eexists. split; [vm_compute; reflexivity |]. repeat split; vm_compute; reflexivity. Qed.

(** *** A text that its neighbours cannot complete *)

Fixpoint mem (c : ascii) (s : string) : bool :=
  match s with
  | EmptyString => false
  | String d r => Ascii.eqb c d || mem c r
  end.

(** [r] is empty or starts with a character that is not in [s]. *)
Definition apart (s r : string) : bool :=
  match r with
  | EmptyString => true
  | String c _ => negb (mem c s)
  end.

Definition rest_of (needle : string) : string :=
  match needle with
  | EmptyString => EmptyString
  | String _ r => r
  end.

Lemma prefix_within (m v r : string) :
  apart m r = true -> String.prefix m (v ++ r) = true -> String.prefix m v = true.
Proof.
  revert m. induction v as [| a v IH]; intros m Hr H.
  - destruct m as [| d m]; [reflexivity |].
    destruct r as [| c r]; [discriminate H |].
    cbn in H. destruct (ascii_dec d c) as [-> |]; [| discriminate H].
    cbn in Hr. now rewrite Ascii.eqb_refl in Hr.
  - destruct m as [| d m]; [reflexivity |].
    cbn in H |- *. destruct (ascii_dec d a) as [-> |]; [| discriminate H].
    apply IH; [| exact H].
    destruct r as [| c r]; [reflexivity |].
    cbn in Hr |- *. apply negb_true_iff in Hr. apply orb_false_iff in Hr.
    apply negb_true_iff, Hr.
Qed.

(** A text without [needle], put before a text without [needle] that starts
    with a character [needle] does not continue with, gives a text without
    [needle]. *)
Lemma free_value_app (needle v r : string) :
  contains needle v = false -> apart (rest_of needle) r = true ->
  contains needle r = false -> contains needle (v ++ r) = false.
Proof.
  intros Hv Hr Hc. induction v as [| a v IH]; [exact Hc |].
  cbn [contains] in Hv.
  destruct (String.prefix needle (String a v)) eqn:Ep; [discriminate Hv |].
  change (String a v ++ r) with (String a (v ++ r)). cbn [contains].
  rewrite (IH Hv).
  destruct (String.prefix needle (String a (v ++ r))) eqn:E; [| reflexivity].
  destruct needle as [| d needle]; [discriminate Ep |].
  cbn in E, Ep. destruct (ascii_dec d a) as [-> |]; [| discriminate E].
  cbn [rest_of] in Hr. now rewrite (prefix_within needle v r Hr E) in Ep.
Qed.

(** A text in which [needle] neither occurs nor begins, put before a text
    without [needle], gives a text without [needle]. *)
Lemma free_literal_app (needle l r : string) :
  avoids needle l = true -> contains needle r = false -> contains needle (l ++ r) = false.
Proof.
  intros Hl Hr. induction l as [| c l IH]; [exact Hr |].
  cbn [avoids] in Hl. apply andb_true_iff in Hl. destruct Hl as [Hc Hl].
  change (String c l ++ r) with (String c (l ++ r)). cbn [contains].
  rewrite (IH Hl).
  apply negb_true_iff in Hc. apply (clash_app needle (String c l) r) in Hc.
  unfold clash in Hc. apply orb_false_iff in Hc.
  change (String c (l ++ r)) with (String c l ++ r). now rewrite (proj1 Hc).
Qed.

Lemma prefix_app (needle a b : string) :
  String.prefix needle a = true -> String.prefix needle (a ++ b) = true.
Proof.
  revert a. induction needle as [| d needle IH]; intros a H; [now destruct (a ++ b) |].
  destruct a as [| c a]; [discriminate H |].
  cbn in H |- *. destruct (ascii_dec d c); [apply IH, H | discriminate H].
Qed.

Lemma contains_app_l (needle a b : string) :
  contains needle a = true -> contains needle (a ++ b) = true.
Proof.
  induction a as [| c a IH]; cbn [contains]; intro H.
  - destruct (String.prefix needle "") eqn:E; [| discriminate H].
    destruct needle; [| discriminate E]. now destruct b.
  - change (String c a ++ b) with (String c (a ++ b)). cbn [contains].
    destruct (String.prefix needle (String c a)) eqn:E.
    + change (String c (a ++ b)) with (String c a ++ b). now rewrite (prefix_app _ _ b E).
    + rewrite (IH H). now destruct (String.prefix needle (String c (a ++ b))).
Qed.

Lemma contains_app_r (needle a b : string) :
  contains needle b = true -> contains needle (a ++ b) = true.
Proof.
  intro H. induction a as [| c a IH]; [exact H |].
  change (String c a ++ b) with (String c (a ++ b)). cbn [contains].
  rewrite IH. now destruct (String.prefix needle (String c (a ++ b))).
Qed.

(** The texts of a certificate entry that every template shows. *)
Definition certificate_texts (cert : list (string * pyval)) : list string :=
  [shown cert "name"; shown cert "institution"; shown cert "dateAcquired"].

(** The achievements of the entry, where a template shows them. *)
Definition achievements_text (cert : list (string * pyval)) : string :=
  if truthy (field cert "achievements") then shown cert "achievements" else "".

(** [r] is a block, and [needle] occurs in it when [b] is true and
    nowhere when [b] is false. *)
Definition occurs (needle : string) (b : bool) (r : result string) : Prop :=
  exists block, r = Ok block /\ contains needle block = b.

Ltac certificate_unfold :=
  unfold PdfGenerator.Professional.certificate_entry, PdfGenerator.Modern.certificate_entry,
    PdfGenerator.Minimal.certificate_entry, NewPdfGenerator.certificate_entry;
  rewrite ?achievements_cases, ?new_achievements_cases, ?expiration_cases, ?expiry_cases,
    ?get_field;
  cbn [bind].

(** The block is texts of the entry between pieces of markup: walk through
    it from the left. *)
Ltac text_nowhere :=
  repeat match goal with
         | |- contains _ (py_str _ ++ _) = false =>
             apply free_value_app; [assumption | reflexivity |]
         | |- contains _ (_ ++ _) = false =>
             apply free_literal_app; [vm_compute; reflexivity |]
         | |- contains _ _ = false => vm_compute; reflexivity
         end.

Ltac text_somewhere :=
  repeat first [ solve [ apply contains_app_l; assumption ]
               | apply contains_app_r ].

Ltac text_in_block :=
  rewrite ?append_assoc; cbn [existsb];
  repeat match goal with
         | |- context [contains "Expires:" (py_str ?v)] =>
             let E := fresh "E" in
             destruct (contains "Expires:" (py_str v)) eqn:E
         end;
  try change (contains "Expires:" "") with false; cbn [orb];
  first [ solve [ text_nowhere ] | solve [ text_somewhere ] ].

(** C8, as the code has it: for a certificate whose values [str()] formats
    as [py_str] does, the acquired-date line is [Acquired: <dateAcquired>]
    followed, when the expiration date is truthy, by [ - Expires: <date>] in
    [new-pdf-generator.py] and by [ (Expires: <date>)] in the three
    templates of [pdf-generator.py], and by nothing when the expiration date
    is absent or falsy; in that case the text [Expires:] is in the block
    exactly when one of the texts of the entry that the template shows
    carries it: name, institution, acquisition date and, except in the
    modern style, truthy achievements. *)
Theorem certificate_acquired_line (cert : list (string * pyval)) :
  fields_formattable (PDict cert) = true ->
  let acquired := shown cert "dateAcquired" in
  let expires := expiration_of cert in
  (rendered_in (">Acquired: " ++ acquired
                ++ (if truthy expires then " - Expires: " ++ py_str expires else "") ++ "</div>")
     (NewPdfGenerator.certificate_entry (PDict cert))
   /\ rendered_in (">Acquired: " ++ acquired
                   ++ (if truthy expires then " (Expires: " ++ py_str expires ++ ")" else "")
                   ++ "</p>")
        (PdfGenerator.Professional.certificate_entry (PDict cert))
   /\ rendered_in (">Acquired: " ++ acquired
                   ++ (if truthy expires then " (Expires: " ++ py_str expires ++ ")" else "")
                   ++ "</p>")
        (PdfGenerator.Modern.certificate_entry (PDict cert))
   /\ rendered_in (">Acquired: " ++ acquired
                   ++ (if truthy expires then " (Expires: " ++ py_str expires ++ ")" else "")
                   ++ "</p>")
        (PdfGenerator.Minimal.certificate_entry (PDict cert)))
  /\ (truthy expires = false ->
      let shown_texts := achievements_text cert :: certificate_texts cert in
      occurs "Expires:" (existsb (contains "Expires:") shown_texts)
        (NewPdfGenerator.certificate_entry (PDict cert))
      /\ occurs "Expires:" (existsb (contains "Expires:") shown_texts)
           (PdfGenerator.Professional.certificate_entry (PDict cert))
      /\ occurs "Expires:" (existsb (contains "Expires:") (certificate_texts cert))
           (PdfGenerator.Modern.certificate_entry (PDict cert))
      /\ occurs "Expires:" (existsb (contains "Expires:") shown_texts)
           (PdfGenerator.Minimal.certificate_entry (PDict cert))).
Proof.
  intros _ acquired expires. subst acquired expires. split.
  - repeat split; certificate_unfold; unfold shown;
      destruct (truthy (expiration_of cert));
      try destruct (truthy (field cert "achievements"));
      (eexists; split; [reflexivity |]); line_in_block.
  - intros Hnone shown_texts. subst shown_texts.
    unfold certificate_texts, achievements_text, shown.
    repeat split; certificate_unfold; unfold shown; rewrite Hnone;
      try destruct (truthy (field cert "achievements"));
      (eexists; split; [reflexivity |]); text_in_block.
Qed.

Definition lasting_certificate : list (string * pyval) :=
  [("name", PStr "RHCE"); ("institution", PStr "IEEE");
   ("dateAcquired", PStr "2021-03-01")].

Lemma certificate_acquired_line_witness :
  occurs "Expires:" false (NewPdfGenerator.certificate_entry (PDict lasting_certificate))
  /\ occurs "Expires:" false
       (PdfGenerator.Professional.certificate_entry (PDict lasting_certificate)).
Proof.
  destruct (certificate_acquired_line lasting_certificate eq_refl) as [_ Hshown].
  destruct (Hshown eq_refl) as (Hnew & Hpdf & _).
  split; [exact Hnew | exact Hpdf].
Defined.

(** ** Sections without data *)

(** The composers of [pdf-generator.py], professional style, on empty data. *)
Lemma professional_composers_omit :
  (forall summary, truthy (read summary "summary") = false ->
     PdfGenerator.Professional.summary_section (PDict summary) = Ok "")
  /\ (forall competencies,
        truthy (read competencies "technicalSkills") = false ->
        truthy (read competencies "softSkills") = false ->
        PdfGenerator.Professional.competencies_section (PDict competencies) = Ok "")
  /\ (forall experiences, truthy experiences = false ->
        PdfGenerator.Professional.experience_section experiences = Ok "")
  /\ (forall educations, truthy educations = false ->
        PdfGenerator.Professional.education_section educations = Ok "")
  /\ (forall certificates, truthy certificates = false ->
        PdfGenerator.Professional.certificates_section certificates = Ok "")
  /\ (forall languages, truthy languages = false ->
        PdfGenerator.Professional.languages_section languages = Ok "")
  /\ (forall additional, truthy (read additional "skills") = false ->
        PdfGenerator.Professional.additional_section (PDict additional) = Ok "").
Proof.
  repeat split.
  - intros summary H. unfold PdfGenerator.Professional.summary_section.
    rewrite get1_read. cbn [bind]. now rewrite H.
  - intros competencies Ht Hs. unfold PdfGenerator.Professional.competencies_section, py_or.
    rewrite !get1_read. cbn [bind]. rewrite Ht. cbn [bind]. now rewrite Hs.
  - intros v H. unfold PdfGenerator.Professional.experience_section. now rewrite H.
  - intros v H. unfold PdfGenerator.Professional.education_section. now rewrite H.
  - intros v H. unfold PdfGenerator.Professional.certificates_section. now rewrite H.
  - intros v H. unfold PdfGenerator.Professional.languages_section. now rewrite H.
  - intros additional H. unfold PdfGenerator.Professional.additional_section.
    rewrite get1_read. cbn [bind]. now rewrite H.
Qed.

(** The composers of [new-pdf-generator.py] on empty data; here the summary,
    competencies and additional objects may themselves be empty or [None]. *)
Lemma new_composers_omit :
  (forall professional, truthy professional = false ->
     NewPdfGenerator.summary_section professional = Ok "")
  /\ (forall professional, truthy (read professional "summary") = false ->
        NewPdfGenerator.summary_section (PDict professional) = Ok "")
  /\ (forall competencies, truthy competencies = false ->
        NewPdfGenerator.competencies_section competencies = Ok "")
  /\ (forall competencies,
        truthy (read competencies "technicalSkills") = false ->
        truthy (read competencies "softSkills") = false ->
        NewPdfGenerator.competencies_section (PDict competencies) = Ok "")
  /\ (forall experience, truthy experience = false ->
        NewPdfGenerator.experience_section experience = Ok "")
  /\ (forall education, truthy education = false ->
        NewPdfGenerator.education_section education = Ok "")
  /\ (forall certificates, truthy certificates = false ->
        NewPdfGenerator.certificates_section certificates = Ok "")
  /\ (forall extracurricular, truthy extracurricular = false ->
        NewPdfGenerator.extracurricular_section extracurricular = Ok "")
  /\ (forall languages, truthy languages = false ->
        NewPdfGenerator.languages_section languages = Ok "")
  /\ (forall additional, truthy additional = false ->
        NewPdfGenerator.additional_section additional = Ok "")
  /\ (forall additional, truthy (read additional "skills") = false ->
        NewPdfGenerator.additional_section (PDict additional) = Ok "").
Proof.
  repeat split.
  - intros v H. unfold NewPdfGenerator.summary_section, NewPdfGenerator.py_and.
    rewrite H. cbn [bind]. now rewrite H.
  - intros professional H. unfold NewPdfGenerator.summary_section, NewPdfGenerator.py_and.
    rewrite get1_read.
    destruct (truthy (PDict professional)) eqn:E; cbn [bind]; [now rewrite H | now rewrite E].
  - intros v H. unfold NewPdfGenerator.competencies_section, NewPdfGenerator.py_and.
    rewrite H. cbn [bind]. now rewrite H.
  - intros competencies Ht Hs.
    unfold NewPdfGenerator.competencies_section, NewPdfGenerator.py_and, py_or.
    rewrite !get1_read.
    destruct (truthy (PDict competencies)) eqn:E; cbn [bind]; [| now rewrite E].
    rewrite Ht. cbn [bind]. now rewrite Hs.
  - intros v H. unfold NewPdfGenerator.experience_section. now rewrite H.
  - intros v H. unfold NewPdfGenerator.education_section. now rewrite H.
  - intros v H. unfold NewPdfGenerator.certificates_section. now rewrite H.
  - intros v H. unfold NewPdfGenerator.extracurricular_section. now rewrite H.
  - intros v H. unfold NewPdfGenerator.languages_section. now rewrite H.
  - intros v H. unfold NewPdfGenerator.additional_section, NewPdfGenerator.py_and.
    rewrite H. cbn [bind]. now rewrite H.
  - intros additional H. unfold NewPdfGenerator.additional_section, NewPdfGenerator.py_and.
    rewrite get1_read.
    destruct (truthy (PDict additional)) eqn:E; cbn [bind]; [now rewrite H | now rewrite E].
Qed.

Lemma prefix_starts (needle s : string) : String.prefix needle s = true -> starts needle s.
Proof.
  revert s. induction needle as [| c needle IH]; intros s H.
  - apply starts_nil.
  - destruct s as [| d s]; [discriminate H |]. cbn in H.
    destruct (ascii_dec c d) as [<- |]; [| discriminate H].
    apply starts_char, IH, H.
Qed.

Lemma contains_infix (needle s : string) : contains needle s = true -> infix needle s.
Proof.
  induction s as [| c s IH]; cbn [contains]; intro H.
  - destruct (String.prefix needle "") eqn:E; [| discriminate H].
    apply infix_here, prefix_starts, E.
  - destruct (String.prefix needle (String c s)) eqn:E.
    + apply infix_here, prefix_starts, E.
    + apply infix_skip, IH, H.
Qed.






(** ** The summary heading, searched in the whole document *)

Definition summary_heading : string :=
  py "<div class=`section-title`>Professional Summary</div>".

Definition ok (s : string) : bool := avoids summary_heading s.

Lemma summary_heading_starts : exists rest, summary_heading = String "<" rest.
Proof. eexists. vm_compute. reflexivity. Qed.

(** A text without [<] carries no beginning of the heading. *)
Lemma plain_text_ok (s : string) : contains "<" s = false -> ok s = true.
Proof.
  destruct summary_heading_starts as (rest & Hh). unfold ok. rewrite Hh.
  induction s as [| c s IH]; intro H; [reflexivity |].
  cbn [contains] in H.
  destruct (String.prefix "<" (String c s)) eqn:E; [discriminate H |].
  cbn [avoids]. apply andb_true_iff. split; [| apply IH, H].
  apply negb_true_iff. unfold clash.
  cbn [String.prefix] in E |- *.
  destruct (ascii_dec "<" c) as [<- | Hn].
  - destruct s; discriminate E.
  - destruct (ascii_dec c "<") as [-> |]; [now destruct Hn | reflexivity].
Qed.

(** The keys whose value the templates loop over to show each item. *)
Definition is_skills_key (k : string) : bool :=
  String.eqb k "technicalSkills" || String.eqb k "softSkills" || String.eqb k "skills".

(** The items a loop shows when the value is not a list: the characters of
    a text, the keys of a dict. *)
Definition items_ok (v : pyval) : bool :=
  match v with
  | PStr s => forallb ok (utf8_chars s)
  | PDict entries => forallb (fun kv => ok (fst kv)) entries
  | _ => true
  end.

(** A value none of whose texts, as the templates can show them, carries the
    summary heading or a beginning of it at its end. *)
Fixpoint clean (v : pyval) : bool :=
  ok (py_str v)
  && match v with
     | PStr s => ok (capitalize s)
     | PList items => forallb clean items
     | PDict entries =>
         forallb (fun kv => clean (snd kv)
                            && (if is_skills_key (fst kv) then items_ok (snd kv) else true))
           entries
     | _ => true
     end.

Lemma ok_app (a b : string) : ok a = true -> ok b = true -> ok (a ++ b) = true.
Proof. apply avoids_app. Qed.

Lemma clean_ok (v : pyval) : clean v = true -> ok (py_str v) = true.
Proof. destruct v; cbn [clean]; intro H; apply andb_true_iff in H; apply H. Qed.

Lemma clean_lookup (entries : list (string * pyval)) (k : string) (v : pyval) :
  clean (PDict entries) = true -> lookup k entries = Some v ->
  clean v = true /\ (is_skills_key k = true -> items_ok v = true).
Proof.
  cbn [clean]. intros H Hl. apply andb_true_iff in H. destruct H as [_ H].
  induction entries as [| [k0 v0] entries IH]; [discriminate Hl |].
  cbn [forallb fst snd] in H. apply andb_true_iff in H. destruct H as [H0 H].
  cbn [lookup] in Hl. destruct (String.eqb_spec k k0) as [-> |].
  - injection Hl as <-. apply andb_true_iff in H0. destruct H0 as [Hv Hk].
    split; [exact Hv |]. intro Hs. now rewrite Hs in Hk.
  - apply IH; assumption.
Qed.

Lemma clean_field (entries : list (string * pyval)) (k : string) :
  clean (PDict entries) = true -> clean (field entries k) = true.
Proof.
  intro H. unfold field. destruct (lookup k entries) as [v |] eqn:E.
  - apply (clean_lookup _ _ _ H E).
  - vm_compute. reflexivity.
Qed.

Lemma clean_read (entries : list (string * pyval)) (k : string) :
  clean (PDict entries) = true -> clean (read entries k) = true.
Proof.
  intro H. unfold read. destruct (lookup k entries) as [v |] eqn:E.
  - apply (clean_lookup _ _ _ H E).
  - vm_compute. reflexivity.
Qed.

Lemma clean_part (record : list (string * pyval)) (k : string) (default : pyval) :
  clean (PDict record) = true -> clean default = true -> clean (part record k default) = true.
Proof.
  intros H Hd. unfold part. destruct (lookup k record) as [v |] eqn:E.
  - apply (clean_lookup _ _ _ H E).
  - exact Hd.
Qed.

Lemma clean_item (items : list pyval) (x : pyval) :
  clean (PList items) = true -> In x items -> clean x = true.
Proof.
  cbn [clean]. intros H Hin. apply andb_true_iff in H. destruct H as [_ H].
  rewrite forallb_forall in H. apply H, Hin.
Qed.

(** What a loop over a clean value shows of its items avoids the heading. *)
Lemma iter_shown_ok (v : pyval) (xs : list pyval) (x : pyval) :
  clean v = true -> items_ok v = true -> iter v = Ok xs -> In x xs -> ok (py_str x) = true.
Proof.
  intros H Hitems Hi Hin.
  destruct v; try discriminate Hi; cbn [iter] in Hi; injection Hi as <-.
  - cbn [items_ok] in Hitems. rewrite forallb_forall in Hitems.
    apply in_map_iff in Hin. destruct Hin as (c & <- & Hc). apply Hitems, Hc.
  - apply clean_ok, (clean_item _ _ H Hin).
  - cbn [items_ok] in Hitems. rewrite forallb_forall in Hitems.
    apply in_map_iff in Hin. destruct Hin as (kv & <- & Hkv). apply (Hitems _ Hkv).
Qed.

Lemma for_each_ok (body : pyval -> result string) (xs : list pyval) (s : string) :
  (forall x frag, In x xs -> body x = Ok frag -> ok frag = true) ->
  for_each xs body = Ok s -> ok s = true.
Proof.
  revert s. induction xs as [| y xs IH]; intros s Hb H.
  - injection H as <-. reflexivity.
  - cbn [for_each] in H. inv_bind H. inv_bind H. injection H as <-.
    apply ok_app.
    + apply (Hb y v); [now left | exact E].
    + apply IH; [| exact E0]. intros x frag Hin. apply Hb. now right.
Qed.

Ltac ok_text :=
  repeat match goal with
         | |- ok (_ ++ _) = true => apply ok_app
         | |- ok (py_str _) = true =>
             solve [ apply clean_ok; first [ apply clean_field | apply clean_read ]; assumption ]
         | |- ok _ = true => first [ assumption | vm_compute; reflexivity ]
         end.

Lemma entries_ok (body : pyval -> result string) (v : pyval) (xs : list pyval) (s : string) :
  (forall x frag, body x = Ok frag ->
     exists e, x = PDict e /\ (clean x = true -> ok frag = true)) ->
  clean v = true -> iter v = Ok xs -> for_each xs body = Ok s -> ok s = true.
Proof.
  intros Hbody Hv Hi. apply for_each_ok. intros x frag Hin Hb.
  destruct (Hbody x frag Hb) as (e & -> & Hok). apply Hok.
  destruct v; try discriminate Hi; cbn [iter] in Hi; injection Hi as <-.
  - apply in_map_iff in Hin. destruct Hin as (c & [=] & _).
  - apply (clean_item _ _ Hv Hin).
  - apply in_map_iff in Hin. destruct Hin as (kv & [=] & _).
Qed.

(** A section of the shape [if xs: opening, one block per entry, closing]. *)
Lemma section_ok (body : pyval -> result string) (opening closing : string)
    (v : pyval) (s : string) :
  (forall x frag, body x = Ok frag ->
     exists e, x = PDict e /\ (clean x = true -> ok frag = true)) ->
  ok opening = true -> ok closing = true -> clean v = true ->
  (if truthy v
   then (items <- iter v ;; entries <- for_each items body ;;
         Ok (opening ++ entries ++ closing))
   else Ok "") = Ok s ->
  ok s = true.
Proof.
  intros Hbody Ho Hc Hv H. destruct (truthy v).
  - inv_bind H. inv_bind H. injection H as <-.
    pose proof (entries_ok body v _ _ Hbody Hv E E0). ok_text.
  - injection H as <-. reflexivity.
Qed.

(** A skills list of the shape [if d.get(k): ..., one item per skill, ...]. *)
Lemma skills_ok (body : pyval -> result string) (wrap : string -> string)
    (d : pyval) (k : string) (s : string) :
  is_skills_key k = true ->
  (forall x frag, body x = Ok frag -> ok (py_str x) = true -> ok frag = true) ->
  (forall items, ok items = true -> ok (wrap items) = true) ->
  clean d = true ->
  (present <- get1 d k ;;
   if truthy present
   then (skills <- get d k (PList []) ;; items <- iter skills ;;
         entries <- for_each items body ;; Ok (wrap entries))
   else Ok "") = Ok s ->
  ok s = true.
Proof.
  intros Hk Hbody Hwrap Hd H.
  destruct d as [| | | | | | e]; try discriminate H.
  rewrite get1_dict, get_dict in H. cbn [bind] in H.
  destruct (truthy _) in H; [| injection H as <-; reflexivity].
  cbn [bind] in H. inv_bind H. inv_bind H. injection H as <-.
  apply Hwrap. apply (for_each_ok body v); [| exact E0].
  intros x frag Hin Hb. apply (Hbody x frag Hb).
  destruct (lookup k e) as [skills |] eqn:El.
  - destruct (clean_lookup _ _ _ Hd El) as [Hc Hi].
    apply (iter_shown_ok _ _ _ Hc (Hi Hk) E Hin).
  - injection E as <-. destruct Hin.
Qed.

Ltac block_is H := apply Ok_inj in H; rewrite <- H; clear H.

Section CleanPdf.
Import PdfGenerator PdfGenerator.Professional.

Lemma linkedin_ok (personal : pyval) (text : string) :
  clean personal = true -> linkedin_fragment personal = Ok text -> ok text = true.
Proof.
  intros Hc H. destruct personal as [| | | | | | e]; try discriminate H.
  unfold linkedin_fragment in H. rewrite get1_dict, get_field in H. cbn [bind] in H.
  destruct (truthy _) in H; [| injection H as <-; reflexivity].
  cbn [bind] in H. pose proof (clean_field e "linkedin" Hc) as Hl.
  destruct (field e "linkedin"); try discriminate H.
  cbn [str_add] in H. injection H as <-. apply clean_ok in Hl. ok_text.
Qed.

Lemma header_ok (personal : pyval) (block : string) :
  clean personal = true -> header personal = Ok block -> ok block = true.
Proof.
  intros Hc H. destruct personal as [| | | | | | e]; try discriminate H.
  unfold header in H. open_entry H. inv_bind H. apply Ok_inj in H. subst block.
  pose proof (linkedin_ok _ _ Hc E). ok_text.
Qed.

Lemma skills_item_ok (x : pyval) (frag : string) :
  skills_item x = Ok frag -> ok (py_str x) = true -> ok frag = true.
Proof. intros Hb H. unfold skills_item in Hb. block_is Hb. ok_text. Qed.

Lemma competencies_ok (competencies : pyval) (block : string) :
  clean competencies = true -> competencies_section competencies = Ok block -> ok block = true.
Proof.
  intros Hc H. unfold competencies_section in H. inv_bind H.
  destruct (truthy v); [| injection H as <-; reflexivity].
  inv_bind H. inv_bind H. block_is H.
  apply (skills_ok skills_item (fun items => "<strong>Technical Skills:</strong><br/>" ++ items))
    in E0; [| reflexivity | exact skills_item_ok | intros; ok_text | exact Hc].
  apply (skills_ok skills_item (fun items => "<br/><strong>Soft Skills:</strong><br/>" ++ items))
    in E1; [| reflexivity | exact skills_item_ok | intros; ok_text | exact Hc].
  ok_text.
Qed.

Lemma additional_ok (additional : pyval) (block : string) :
  clean additional = true -> additional_section additional = Ok block -> ok block = true.
Proof.
  intros Hc H.
  apply (skills_ok skills_item (fun items => _ ++ items ++ "</div></div>")) in H;
    [exact H | reflexivity | exact skills_item_ok | intros; ok_text | exact Hc].
Qed.

Lemma experience_entry_ok (x : pyval) (frag : string) :
  experience_entry x = Ok frag -> exists e, x = PDict e /\ (clean x = true -> ok frag = true).
Proof.
  intro H. destruct x as [| | | | | | e]; try discriminate H.
  exists e. split; [reflexivity |]. intro Hc.
  unfold experience_entry, end_date_of in H. open_entry H.
  destruct (lookup "isCurrent" e) as [current |]; cbn [truthy] in H;
    [destruct (truthy current) |]; open_entry H; block_is H; ok_text.
Qed.

Lemma achievements_ok (e : list (string * pyval)) :
  clean (PDict e) = true ->
  ok (if truthy (field e "achievements") then "<p>" ++ shown e "achievements" ++ "</p>" else "") = true.
Proof. intro Hc. unfold shown. destruct (truthy _); ok_text. Qed.

Lemma education_entry_ok (x : pyval) (frag : string) :
  education_entry x = Ok frag -> exists e, x = PDict e /\ (clean x = true -> ok frag = true).
Proof.
  intro H. destruct x as [| | | | | | e]; try discriminate H.
  exists e. split; [reflexivity |]. intro Hc.
  unfold education_entry in H. rewrite achievements_cases in H. open_entry H.
  block_is H. pose proof (achievements_ok e Hc). ok_text.
Qed.

Lemma certificate_entry_ok (x : pyval) (frag : string) :
  certificate_entry x = Ok frag -> exists e, x = PDict e /\ (clean x = true -> ok frag = true).
Proof.
  intro H. destruct x as [| | | | | | e]; try discriminate H.
  exists e. split; [reflexivity |]. intro Hc.
  unfold certificate_entry in H. rewrite achievements_cases, expiration_cases in H. open_entry H.
  block_is H. pose proof (achievements_ok e Hc).
  assert (ok (if truthy (expiration_of e)
              then " (Expires: " ++ py_str (expiration_of e) ++ ")" else "") = true).
  { change (expiration_of e) with (read e "expirationDate").
    destruct (truthy (read e "expirationDate")); ok_text. }
  ok_text.
Qed.

Lemma language_entry_ok (x : pyval) (frag : string) :
  language_entry x = Ok frag -> exists e, x = PDict e /\ (clean x = true -> ok frag = true).
Proof.
  intro H. destruct x as [| | | | | | e]; try discriminate H.
  exists e. split; [reflexivity |]. intro Hc.
  unfold language_entry in H. open_entry H.
  pose proof (clean_field e "proficiency" Hc) as Hp.
  destruct (field e "proficiency") as [| | | | proficiency | |]; try discriminate H.
  cbn [py_capitalize bind] in H. block_is H.
  assert (ok (capitalize proficiency) = true).
  { cbn [clean] in Hp. apply andb_true_iff in Hp. apply Hp. }
  ok_text.
Qed.

End CleanPdf.

Section CleanNew.
Import NewPdfGenerator.

Lemma new_linkedin_ok (personal : pyval) (text : string) :
  clean personal = true -> linkedin_fragment personal = Ok text -> ok text = true.
Proof.
  intros Hc H. destruct personal as [| | | | | | e]; try discriminate H.
  unfold linkedin_fragment in H. open_entry H.
  destruct (truthy _) in H; [| injection H as <-; reflexivity].
  open_entry H. block_is H. ok_text.
Qed.

Lemma new_header_ok (personal : pyval) (block : string) :
  clean personal = true -> header personal = Ok block -> ok block = true.
Proof.
  intros Hc H. destruct personal as [| | | | | | e]; try discriminate H.
  unfold header in H. open_entry H. inv_bind H. block_is H.
  pose proof (new_linkedin_ok _ _ Hc E). ok_text.
Qed.

Lemma skill_item_ok (x : pyval) (frag : string) :
  skill_item x = Ok frag -> ok (py_str x) = true -> ok frag = true.
Proof. intros Hb H. unfold skill_item in Hb. block_is Hb. ok_text. Qed.

Lemma new_competencies_ok (competencies : pyval) (block : string) :
  clean competencies = true -> competencies_section competencies = Ok block -> ok block = true.
Proof.
  intros Hc H. unfold competencies_section in H. inv_bind H.
  destruct (truthy v); [| injection H as <-; reflexivity].
  inv_bind H. inv_bind H. block_is H.
  apply (skills_ok skill_item (fun items => _ ++ items ++ "</div>"))
    in E0; [| reflexivity | exact skill_item_ok | intros; ok_text | exact Hc].
  apply (skills_ok skill_item (fun items => _ ++ items ++ "</div>"))
    in E1; [| reflexivity | exact skill_item_ok | intros; ok_text | exact Hc].
  ok_text.
Qed.

Lemma new_additional_ok (additional : pyval) (block : string) :
  clean additional = true -> additional_section additional = Ok block -> ok block = true.
Proof.
  intros Hc H. unfold additional_section, py_and in H.
  destruct (truthy additional) eqn:Et.
  - apply (skills_ok skill_item (fun items => _ ++ items ++ "</div></div>")) in H;
      [exact H | reflexivity | exact skill_item_ok | intros; ok_text | exact Hc].
  - cbn [bind] in H. rewrite Et in H. injection H as <-. reflexivity.
Qed.

Lemma new_experience_entry_ok (x : pyval) (frag : string) :
  experience_entry x = Ok frag -> exists e, x = PDict e /\ (clean x = true -> ok frag = true).
Proof.
  intro H. destruct x as [| | | | | | e]; try discriminate H.
  exists e. split; [reflexivity |]. intro Hc.
  unfold experience_entry, end_date_of in H. open_entry H.
  destruct (lookup "isCurrent" e) as [current |]; cbn [truthy] in H;
    [destruct (truthy current) |]; open_entry H; block_is H; ok_text.
Qed.

Lemma new_extracurricular_entry_ok (x : pyval) (frag : string) :
  extracurricular_entry x = Ok frag -> exists e, x = PDict e /\ (clean x = true -> ok frag = true).
Proof.
  intro H. destruct x as [| | | | | | e]; try discriminate H.
  exists e. split; [reflexivity |]. intro Hc.
  unfold extracurricular_entry, end_date_of in H. open_entry H.
  destruct (lookup "isCurrent" e) as [current |]; cbn [truthy] in H;
    [destruct (truthy current) |]; open_entry H; block_is H; ok_text.
Qed.

Lemma new_education_entry_ok (x : pyval) (frag : string) :
  education_entry x = Ok frag -> exists e, x = PDict e /\ (clean x = true -> ok frag = true).
Proof.
  intro H. destruct x as [| | | | | | e]; try discriminate H.
  exists e. split; [reflexivity |]. intro Hc.
  unfold education_entry in H. rewrite new_achievements_cases in H. open_entry H.
  block_is H. pose proof (achievements_ok e Hc). ok_text.
Qed.

Lemma new_certificate_entry_ok (x : pyval) (frag : string) :
  certificate_entry x = Ok frag -> exists e, x = PDict e /\ (clean x = true -> ok frag = true).
Proof.
  intro H. destruct x as [| | | | | | e]; try discriminate H.
  exists e. split; [reflexivity |]. intro Hc.
  unfold certificate_entry in H. rewrite new_achievements_cases, expiry_cases in H. open_entry H.
  block_is H. pose proof (achievements_ok e Hc).
  assert (ok (if truthy (expiration_of e)
              then " - Expires: " ++ py_str (expiration_of e) else "") = true).
  { change (expiration_of e) with (read e "expirationDate").
    destruct (truthy (read e "expirationDate")); ok_text. }
  ok_text.
Qed.

Lemma new_language_entry_ok (x : pyval) (frag : string) :
  language_entry x = Ok frag -> exists e, x = PDict e /\ (clean x = true -> ok frag = true).
Proof.
  intro H. destruct x as [| | | | | | e]; try discriminate H.
  exists e. split; [reflexivity |]. intro Hc.
  unfold language_entry in H. open_entry H.
  pose proof (clean_field e "proficiency" Hc) as Hp.
  destruct (field e "proficiency") as [| | | | proficiency | |]; try discriminate H.
  cbn [py_capitalize bind] in H. block_is H.
  assert (ok (capitalize proficiency) = true).
  { cbn [clean] in Hp. apply andb_true_iff in Hp. apply Hp. }
  ok_text.
Qed.

End CleanNew.

Ltac section_avoids Hsection Hentry Hclean :=
  apply (section_ok _ _ _ _ _ Hentry) in Hsection;
  [ | vm_compute; reflexivity | vm_compute; reflexivity
    | apply clean_part; [exact Hclean | reflexivity] ].

(** With an empty summary and a clean record, the summary heading is nowhere
    in the document of [pdf-generator.py]. *)
Lemma pdf_no_summary_heading (record : list (string * pyval)) (html : string) :
  PdfGenerator.generate_professional_template (PDict record) = Ok html ->
  (forall summary, part record "summary" (PDict []) = PDict summary ->
     truthy (read summary "summary") = false) ->
  clean (PDict record) = true ->
  contains summary_heading html = false.
Proof.
  intros H Hempty Hc. apply avoids_contains; [discriminate |].
  apply professional_blocks in H.
  destruct H as (record' & [= <-] & header & s1 & s2 & s3 & s4 & s5 & s6 & s7
                 & Hh & H1 & H2 & H3 & H4 & H5 & H6 & H7 & ->).
  assert (Hs : s1 = "").
  { destruct (part record "summary" (PDict [])) as [| | | | | | summary] eqn:Ep;
      try discriminate H1.
    destruct professional_composers_omit as (O1 & _).
    rewrite (O1 summary (Hempty summary eq_refl)) in H1. now injection H1. }
  subst s1.
  apply header_ok in Hh; [| apply clean_part; [exact Hc | reflexivity]].
  apply competencies_ok in H2; [| apply clean_part; [exact Hc | reflexivity]].
  section_avoids H3 experience_entry_ok Hc.
  section_avoids H4 education_entry_ok Hc.
  section_avoids H5 certificate_entry_ok Hc.
  section_avoids H6 language_entry_ok Hc.
  apply additional_ok in H7; [| apply clean_part; [exact Hc | reflexivity]].
  change (ok (header ++ "" ++ s2 ++ s3 ++ s4 ++ s5 ++ s6 ++ s7
              ++ PdfGenerator.Professional.footer) = true).
  ok_text.
Qed.

Lemma new_no_summary_heading (record : list (string * pyval)) (html : string) :
  NewPdfGenerator.generate_professional_template (PDict record) = Ok html ->
  (forall professional, part record "professional" (PDict []) = PDict professional ->
     truthy (read professional "summary") = false) ->
  clean (PDict record) = true ->
  contains summary_heading html = false.
Proof.
  intros H Hempty Hc. apply avoids_contains; [discriminate |].
  apply new_professional_blocks in H.
  destruct H as (record' & [= <-] & header & s1 & s2 & s3 & s4 & s5 & s6 & s7 & s8
                 & Hh & H1 & H2 & H3 & H4 & H5 & H6 & H7 & H8 & ->).
  assert (Hs : s1 = "").
  { destruct new_composers_omit as (O0 & O1 & _).
    destruct (truthy (part record "professional" (PDict []))) eqn:Et;
      [| rewrite (O0 _ Et) in H1; now injection H1].
    unfold NewPdfGenerator.summary_section, NewPdfGenerator.py_and in H1. rewrite Et in H1.
    destruct (part record "professional" (PDict [])) as [| | | | | | professional] eqn:Ep;
      try discriminate H1.
    rewrite get1_read in H1. cbn [bind] in H1.
    rewrite (Hempty professional eq_refl) in H1. now injection H1. }
  subst s1.
  apply new_header_ok in Hh; [| apply clean_part; [exact Hc | reflexivity]].
  apply new_competencies_ok in H2; [| apply clean_part; [exact Hc | reflexivity]].
  section_avoids H3 new_experience_entry_ok Hc.
  section_avoids H4 new_education_entry_ok Hc.
  section_avoids H5 new_certificate_entry_ok Hc.
  section_avoids H6 new_extracurricular_entry_ok Hc.
  section_avoids H7 new_language_entry_ok Hc.
  apply new_additional_ok in H8; [| apply clean_part; [exact Hc | reflexivity]].
  change (ok (header ++ "" ++ s2 ++ s3 ++ s4 ++ s5 ++ s6 ++ s7 ++ s8
              ++ NewPdfGenerator.footer) = true).
  ok_text.
Qed.


(** *** A section without data and the record without it *)













Definition empty_summary_record : list (string * pyval) :=
  [("personal", PDict [("firstName", PStr "Ada"); ("lastName", PStr "Lovelace")]);
   ("summary", PDict [("summary", PStr "")]);
   ("professional", PDict [("summary", PStr "")]);
   ("experiences", PList [scenario_entry]);
   ("experience", PList [scenario_entry])].


(** With a summary text of [""] the words "Professional Summary" are
    nowhere in the document; its one section block is the experience
    section. *)
Example empty_summary_no_heading :
  contains "Professional Summary"
    (document_of (PdfGenerator.generate_professional_template (PDict empty_summary_record))) = false
  /\ contains "Professional Summary"
       (document_of (NewPdfGenerator.generate_professional_template (PDict empty_summary_record))) = false
  /\ survey "Professional Summary"
       (PdfGenerator.generate_professional_template (PDict empty_summary_record))
     = Some (1, 1, 1, true, false)%nat.
Proof. repeat split; vm_compute; reflexivity. Qed.

(** ** Two runs on the same input *)

(** [generate_pdf] reads the clock once, for the entry [now] of the
    context.  Two runs on the same record that find the same files build
    contexts that agree on the record and on the photo, and whose entries
    [now] are the dates of the two runs; what a document shows of [now] is
    decided by the template files, which are not among the sources. *)
Lemma build_context_now (read_base64 : string -> option string)
    (clock clock' : Datetime.date) (data : pyval) :
  match WeasyPdf.build_context read_base64 clock data,
        WeasyPdf.build_context read_base64 clock' data with
  | Ok ctx, Ok ctx' =>
      WeasyPdf.cv ctx = WeasyPdf.cv ctx' /\ WeasyPdf.photo_url ctx = WeasyPdf.photo_url ctx'
      /\ WeasyPdf.now ctx = Datetime.strftime_B_d_Y clock
      /\ WeasyPdf.now ctx' = Datetime.strftime_B_d_Y clock'
  | Raise e, Raise e' => e = e'
  | _, _ => False
  end.
Proof.
  unfold WeasyPdf.build_context.
  destruct (get data "personal" (PDict [])) as [personal | e]; cbn [bind]; [| reflexivity].
  destruct (get1 personal "photoUrl") as [photo | e]; cbn [bind]; [| reflexivity].
  destruct (truthy photo); cbn; [| auto].
  destruct (getitem data "personal") as [p | e]; cbn [bind]; [| reflexivity].
  destruct (getitem p "photoUrl") as [u | e]; cbn [bind]; [| reflexivity].
  destruct (WeasyPdf.prepare_image_for_template read_base64 u) as [prepared | e];
    cbn; auto.
Qed.

(** * Further properties of the sources *)

(** ** [str.strip()] *)

(** The text does not begin with whitespace. *)
Definition trimmed_left (s : string) : bool :=
  match s with
  | EmptyString => true
  | String c _ => negb (is_space c)
  end.

Lemma lstrip_trimmed (s : string) : trimmed_left (lstrip s) = true.
Proof.
  induction s as [| c s IH]; [reflexivity |].
  cbn [lstrip]. destruct (is_space c) eqn:E; [exact IH |].
  cbn [trimmed_left]. now rewrite E.
Qed.

Lemma lstrip_fixed (s : string) : trimmed_left s = true -> lstrip s = s.
Proof.
  destruct s as [| c s]; [reflexivity |].
  cbn [trimmed_left lstrip]. intro H. apply negb_true_iff in H. now rewrite H.
Qed.

Lemma rstrip_trimmed_left (s : string) :
  trimmed_left s = true -> trimmed_left (rstrip s) = true.
Proof.
  destruct s as [| c s]; [reflexivity |].
  cbn [trimmed_left rstrip]. intro H. apply negb_true_iff in H. rewrite H.
  destruct (rstrip s); cbn [trimmed_left]; now rewrite H.
Qed.

Lemma rstrip_idem (s : string) : rstrip (rstrip s) = rstrip s.
Proof.
  induction s as [| c s IH]; [reflexivity |].
  cbn [rstrip]. destruct (rstrip s) as [| d r] eqn:E.
  - destruct (is_space c) eqn:Ec; [reflexivity |]. cbn [rstrip]. now rewrite Ec.
  - cbn [rstrip]. cbn [rstrip] in IH. rewrite IH. reflexivity.
Qed.

Lemma strip_idem (s : string) : strip (strip s) = strip s.
Proof.
  unfold strip.
  rewrite (lstrip_fixed (rstrip (lstrip s))).
  - apply rstrip_idem.
  - apply rstrip_trimmed_left, lstrip_trimmed.
Qed.

Lemma rstrip_last (s : string) (c : ascii) :
  is_space c = false -> rstrip (s ++ String c "") = s ++ String c "".
Proof.
  intro Hc. induction s as [| x s IH]; cbn [append rstrip].
  - now rewrite Hc.
  - rewrite IH. destruct s; reflexivity.
Qed.

(** A text of whitespace only strips to the empty text. *)
Lemma strip_blank (s : string) :
  forallb is_space (list_ascii_of_string s) = true -> strip s = "".
Proof.
  unfold strip. induction s as [| c s IH]; [reflexivity |].
  cbn [list_ascii_of_string forallb lstrip]. intro H.
  apply andb_true_iff in H. destruct H as [Hc H]. rewrite Hc. apply IH, H.
Qed.

(** ** The date normalizer on every input *)

Section FormatDateAll.
Import WeasyPdf.
Import Datetime.

(** A date of the calendar, years 1 to 9999. *)
Definition valid (d : date) : Prop :=
  1 <= year d <= 9999 /\ 1 <= month d <= 12 /\ 1 <= day d <= days_in_month (year d) (month d).

Lemma is_digit_bounds (c : ascii) : is_digit c = true -> 0 <= digit c <= 9.
Proof.
  unfold is_digit, digit. intro H. apply andb_true_iff in H.
  destruct H as [H1 H2]. apply Z.leb_le in H1, H2. lia.
Qed.

Lemma in_range_bounds (lo hi : Z) (c : ascii) :
  in_range lo hi c = true -> lo <= digit c <= hi.
Proof.
  unfold in_range, digit. intro H. apply andb_true_iff in H.
  destruct H as [H1 H2]. apply Z.leb_le in H1, H2. lia.
Qed.

Lemma eqb_digit (c d : ascii) : Ascii.eqb c d = true -> digit c = digit d.
Proof. intro H. apply Ascii.eqb_eq in H. now subst. Qed.

Lemma match_year_bounds (s r : string) (y : Z) :
  match_year s = Some (y, r) -> 0 <= y <= 9999.
Proof.
  unfold match_year.
  destruct s as [| a [| b [| c [| d [| sep r']]]]]; try discriminate.
  destruct (is_digit a) eqn:Ha; [| discriminate].
  destruct (is_digit b) eqn:Hb; [| discriminate].
  destruct (is_digit c) eqn:Hc; [| discriminate].
  destruct (is_digit d) eqn:Hd; [| discriminate].
  cbn [andb]. destruct (Ascii.eqb sep "-"); [| discriminate].
  intro H.
  assert (Hy : 1000 * digit a + 100 * digit b + 10 * digit c + digit d = y) by congruence.
  apply is_digit_bounds in Ha, Hb, Hc, Hd. lia.
Qed.

Lemma match_month_bounds (s r : string) (m : Z) :
  match_month s = Some (m, r) -> 1 <= m <= 12.
Proof.
  unfold match_month.
  match goal with |- match ?two with _ => _ end = _ -> _ => destruct two as [[m' r'] |] eqn:E end.
  - intro H. assert (m' = m) by congruence. subst m'. clear H.
    destruct s as [| a [| b [| sep r0]]]; try discriminate E.
    match type of E with (if ?t then _ else _) = _ => destruct t eqn:Ht; [| discriminate E] end.
    assert (Hm : 10 * digit a + digit b = m) by congruence. clear E.
    apply andb_true_iff in Ht. destruct Ht as [Ht _].
    apply orb_true_iff in Ht. destruct Ht as [Ht | Ht];
      apply andb_true_iff in Ht; destruct Ht as [H1 H2];
      apply eqb_digit in H1; apply in_range_bounds in H2;
      change (digit "1") with 1 in H1; change (digit "0") with 0 in H1; lia.
  - destruct s as [| a [| sep r0]]; try discriminate.
    match goal with |- (if ?t then _ else _) = _ -> _ => destruct t eqn:Ht; [| discriminate] end.
    intro H. assert (Hm : digit a = m) by congruence.
    apply andb_true_iff in Ht. destruct Ht as [Ht _].
    apply in_range_bounds in Ht. lia.
Qed.

Lemma match_day_bounds (s r : string) (d : Z) :
  match_day s = Some (d, r) -> 1 <= d.
Proof.
  unfold match_day.
  match goal with |- match ?two with _ => _ end = _ -> _ => destruct two as [[d' r'] |] eqn:E end.
  - intro H. assert (d' = d) by congruence. subst d'. clear H.
    destruct s as [| a [| b r0]]; try discriminate E.
    match type of E with (if ?t then _ else _) = _ => destruct t eqn:Ht; [| discriminate E] end.
    assert (Hd : 10 * digit a + digit b = d) by congruence. clear E.
    apply orb_true_iff in Ht. destruct Ht as [Ht | Ht];
      [apply orb_true_iff in Ht; destruct Ht as [Ht | Ht] |];
      apply andb_true_iff in Ht; destruct Ht as [H1 H2].
    + apply eqb_digit in H1. apply in_range_bounds in H2.
      change (digit "3") with 3 in H1. lia.
    + apply in_range_bounds in H1. apply is_digit_bounds in H2. lia.
    + apply eqb_digit in H1. apply in_range_bounds in H2.
      change (digit "0") with 0 in H1. lia.
  - destruct s as [| a r0]; [discriminate |].
    destruct (in_range 1 9 a) eqn:Ha.
    + intro H. assert (Hd : digit a = d) by congruence.
      apply in_range_bounds in Ha. lia.
    + destruct r0 as [| b r1]; [discriminate |].
      match goal with |- (if ?t then _ else _) = _ -> _ => destruct t eqn:Ht; [| discriminate] end.
      intro H. assert (Hd : digit b = d) by congruence.
      apply andb_true_iff in Ht. destruct Ht as [_ Ht].
      apply in_range_bounds in Ht. lia.
Qed.

(** What [strptime] returns is a date of the calendar. *)
Lemma strptime_valid (s : string) (d : date) : strptime s = Ok d -> valid d.
Proof.
  unfold strptime.
  destruct (match_year s) as [[y r1] |] eqn:Ey; [| discriminate].
  destruct (match_month r1) as [[m r2] |] eqn:Em; [| discriminate].
  destruct (match_day r2) as [[dd r3] |] eqn:Ed; [| discriminate].
  destruct (negb (r3 =? ""))%string; [discriminate |].
  destruct ((1 <=? y) && (dd <=? days_in_month y m)) eqn:E; [| discriminate].
  intros [= <-]. apply andb_true_iff in E. destruct E as [E1 E2].
  apply Z.leb_le in E1, E2.
  apply match_year_bounds in Ey. apply match_month_bounds in Em.
  apply match_day_bounds in Ed. unfold valid. cbn. lia.
Qed.

(** *** Dates written as [YYYY-MM-DD] *)

Definition digit_char (n : Z) : ascii := ascii_of_nat (Z.to_nat (48 + n)).

Definition four_digits (y : Z) : string :=
  String (digit_char (y / 1000)) (String (digit_char (y / 100 mod 10))
    (String (digit_char (y / 10 mod 10)) (String (digit_char (y mod 10)) ""))).

Definition two_digits (n : Z) : string :=
  String (digit_char (n / 10)) (String (digit_char (n mod 10)) "").

(** The text [date.isoformat()] writes for [d]. *)
Definition isoformat (d : date) : string :=
  four_digits (year d) ++ "-" ++ two_digits (month d) ++ "-" ++ two_digits (day d).

Ltac split_range k lo hi :=
  let rec go n fuel :=
    lazymatch fuel with
    | O => exfalso; lia
    | S ?f => destruct (Z.eq_dec k n) as [-> |]; [| go (n + 1) f]
    end in
  go lo hi.

Lemma digit_char_digit (k : Z) :
  0 <= k <= 9 -> is_digit (digit_char k) = true /\ digit (digit_char k) = k
                 /\ is_space (digit_char k) = false.
Proof.
  intro H.
  assert (C : k = 0 \/ k = 1 \/ k = 2 \/ k = 3 \/ k = 4 \/ k = 5 \/ k = 6 \/ k = 7
              \/ k = 8 \/ k = 9) by lia.
  repeat destruct C as [-> | C]; try subst k; repeat split; reflexivity.
Qed.

Lemma match_year_four_digits (y : Z) (rest : string) :
  0 <= y <= 9999 -> match_year (four_digits y ++ "-" ++ rest) = Some (y, rest).
Proof.
  intro H. unfold four_digits, match_year. cbn [append].
  destruct (digit_char_digit (y / 1000)) as (-> & -> & _);
    [Z.div_mod_to_equations; lia |].
  destruct (digit_char_digit (y / 100 mod 10)) as (-> & -> & _);
    [Z.div_mod_to_equations; lia |].
  destruct (digit_char_digit (y / 10 mod 10)) as (-> & -> & _);
    [Z.div_mod_to_equations; lia |].
  destruct (digit_char_digit (y mod 10)) as (-> & -> & _);
    [Z.div_mod_to_equations; lia |].
  cbn [andb Ascii.eqb Bool.eqb]. f_equal. f_equal.
  Z.div_mod_to_equations. lia.
Qed.

Lemma in_list_range (lo n k : Z) :
  lo <= k < lo + n -> In k (map (fun i => lo + Z.of_nat i) (seq 0 (Z.to_nat n))).
Proof.
  intro H. apply in_map_iff. exists (Z.to_nat (k - lo)).
  split; [lia |]. apply in_seq. lia.
Qed.

Lemma match_month_two_digits (m : Z) (rest : string) :
  1 <= m <= 12 -> match_month (two_digits m ++ "-" ++ rest) = Some (m, rest).
Proof.
  intro H.
  assert (C : m = 1 \/ m = 2 \/ m = 3 \/ m = 4 \/ m = 5 \/ m = 6 \/ m = 7 \/ m = 8
              \/ m = 9 \/ m = 10 \/ m = 11 \/ m = 12) by lia.
  repeat destruct C as [-> | C]; try subst m; reflexivity.
Qed.

Lemma days_parsed :
  forallb (fun d => match match_day (two_digits d) with
                    | Some (d', EmptyString) => d' =? d
                    | _ => false
                    end && trimmed_left (two_digits d)
                    && String.eqb (rstrip (two_digits d)) (two_digits d))
    (map (fun i => 1 + Z.of_nat i) (seq 0 (Z.to_nat 31))) = true.
Proof. vm_compute. reflexivity. Qed.

Lemma match_day_two_digits (d : Z) :
  1 <= d <= 31 ->
  match_day (two_digits d) = Some (d, "") /\ rstrip (two_digits d) = two_digits d.
Proof.
  intro H. pose proof days_parsed as Hall. rewrite forallb_forall in Hall.
  specialize (Hall d (in_list_range 1 31 d ltac:(lia))). cbv beta in Hall.
  apply andb_true_iff in Hall. destruct Hall as [Hall Hr].
  apply andb_true_iff in Hall. destruct Hall as [Hall _].
  apply String.eqb_eq in Hr. split; [| exact Hr].
  destruct (match_day (two_digits d)) as [[d' [| c r]] |]; try discriminate Hall.
  apply Z.eqb_eq in Hall. now subst.
Qed.

(** Parsing what [isoformat] writes gives the date back when the day is in
    the month, and is refused otherwise. *)
Lemma strptime_isoformat (y m d : Z) :
  0 <= y <= 9999 -> 1 <= m <= 12 -> 1 <= d <= 31 ->
  strptime (isoformat (mkdate y m d)) =
  if (1 <=? y) && (d <=? days_in_month y m) then Ok (mkdate y m d) else Raise ValueError.
Proof.
  intros Hy Hm Hd. unfold strptime, isoformat. cbn [year month day].
  rewrite (match_year_four_digits y _ Hy).
  rewrite (match_month_two_digits m _ Hm).
  rewrite (proj1 (match_day_two_digits d Hd)). reflexivity.
Qed.

Lemma rstrip_app (a b : string) : rstrip b = b -> b <> "" -> rstrip (a ++ b) = a ++ b.
Proof.
  intros Hb Hn. induction a as [| x a IH]; [exact Hb |].
  cbn [append rstrip]. rewrite IH.
  destruct (a ++ b) eqn:E; [| reflexivity].
  destruct a; [now subst | discriminate E].
Qed.

(** The text of a date has no whitespace at either end. *)
Lemma strip_isoformat (y m d : Z) :
  0 <= y <= 9999 -> 1 <= d <= 31 -> strip (isoformat (mkdate y m d)) = isoformat (mkdate y m d).
Proof.
  intros Hy Hd. unfold strip. rewrite lstrip_fixed.
  - unfold isoformat. cbn [year month day].
    rewrite <- !append_assoc. apply rstrip_app.
    + apply (match_day_two_digits d Hd).
    + discriminate.
  - unfold isoformat, four_digits. cbn [year append trimmed_left].
    destruct (digit_char_digit (y / 1000)) as (_ & _ & ->); [| reflexivity].
    Z.div_mod_to_equations; lia.
Qed.

(** *** The year, written with four digits *)
Definition years : list Z := map Z.of_nat (seq 0 (Z.to_nat 10000)).

Lemma in_years (y : Z) : 0 <= y <= 9999 -> In y years.
Proof.
  intro H. unfold years. apply in_map_iff. exists (Z.to_nat y).
  split; [lia |]. apply in_seq. lia.
Qed.

(** [%Y] of a year from 1000 on is its four digits; of every year that
    [strptime] accepts it is a text that ends in a digit. *)
Definition year_written (y : Z) : bool :=
  ((y <? 1000) || String.eqb (str_of_Z y) (four_digits y))
  && String.eqb (rstrip (str_of_Z y)) (str_of_Z y)
  && negb (String.eqb (str_of_Z y) "").

Lemma years_written : forallb year_written years = true.
Proof. vm_compute. reflexivity. Qed.

Lemma fmt_Y_written (d : date) :
  0 <= year d <= 9999 ->
  (1000 <= year d -> fmt_Y d = four_digits (year d))
  /\ rstrip (fmt_Y d) = fmt_Y d /\ fmt_Y d <> "".
Proof.
  intro H. apply in_years in H.
  pose proof years_written as Hall. rewrite forallb_forall in Hall.
  specialize (Hall _ H). unfold year_written in Hall.
  apply andb_true_iff in Hall. destruct Hall as [Hall Hn].
  apply andb_true_iff in Hall. destruct Hall as [Hf Hr].
  apply String.eqb_eq in Hr. apply negb_true_iff, String.eqb_neq in Hn.
  repeat split; [| exact Hr | exact Hn].
  intro Hy. apply orb_true_iff in Hf. destruct Hf as [Hf | Hf].
  - apply Z.ltb_lt in Hf. lia.
  - apply String.eqb_eq in Hf. exact Hf.
Qed.

(** *** The label of a parsed date *)

Lemma month_abbr_shape (m : Z) :
  exists a b c, month_abbr m = String a (String b (String c ""))
                /\ is_space a = false /\ is_digit a = false.
Proof.
  destruct m as [| p | p]; [do 3 eexists; repeat split; reflexivity | |
                            do 3 eexists; repeat split; reflexivity].
  do 4 (try destruct p as [p | p |]); do 3 eexists; repeat split; reflexivity.
Qed.

Lemma match_year_no_digit (a : ascii) (r : string) :
  is_digit a = false -> match_year (String a r) = None.
Proof.
  intro H. unfold match_year.
  destruct r as [| b [| c [| d [| sep r]]]]; try reflexivity.
  now rewrite H.
Qed.

(** A text without surrounding whitespace that is not a date is returned
    as it is. *)
Lemma format_date_text (t : string) :
  strip t = t -> t <> "" -> strptime t = Raise ValueError ->
  format_date (PStr t) (PBool false) = Ok t.
Proof.
  intros Hs Hn Hp. apply String.eqb_neq in Hn. unfold format_date.
  cbn [truthy negb py_str]. rewrite Hs, Hn. cbn [negb]. rewrite Hp, Hs. reflexivity.
Qed.

Lemma label_stable (d : date) :
  valid d ->
  strip (strftime_b_Y d) = strftime_b_Y d
  /\ format_date (PStr (strftime_b_Y d)) (PBool false) = Ok (strftime_b_Y d).
Proof.
  intros (Hy & _ & _).
  destruct (fmt_Y_written d ltac:(lia)) as (_ & Hr & Hn).
  destruct (month_abbr_shape (month d)) as (a & b & c & Hm & Ha & Hd).
  assert (Hs : strip (strftime_b_Y d) = strftime_b_Y d).
  { unfold strftime_b_Y, strip. rewrite Hm. cbn [append].
    rewrite lstrip_fixed by (cbn [trimmed_left]; now rewrite Ha).
    exact (rstrip_app (String a (String b (String c " "))) (fmt_Y d) Hr Hn). }
  split; [exact Hs |].
  apply format_date_text; [exact Hs | |].
  - unfold strftime_b_Y. rewrite Hm. discriminate.
  - unfold strftime_b_Y, strptime. rewrite Hm. cbn [append].
    now rewrite (match_year_no_digit a _ Hd).
Qed.

(** X1: [format_date] returns a label on every input, whatever the types of
    its two arguments; the label has no whitespace at either end, and
    normalizing the label again gives the same label. *)
Theorem format_date_label_is_stable (date_str is_current : pyval) :
  exists label,
    format_date date_str is_current = Ok label
    /\ strip label = label
    /\ format_date (PStr label) (PBool false) = Ok label.
Proof.
  unfold format_date at 1.
  destruct (truthy is_current); [exists "Present"; repeat split; reflexivity |].
  destruct (negb (truthy date_str)); [exists ""; repeat split; reflexivity |].
  match goal with |- context [String.eqb ?s ""] => set (stripped := s) end.
  assert (Hs : strip stripped = stripped)
    by (subst stripped; destruct date_str; apply strip_idem).
  clearbody stripped.
  destruct (String.eqb_spec stripped "") as [-> | Hn];
    [exists ""; repeat split; reflexivity |].
  destruct (strptime stripped) as [d | e] eqn:E.
  - exists (strftime_b_Y d). split; [reflexivity |].
    apply label_stable, (strptime_valid _ _ E).
  - apply strptime_raises_only_ValueError in E as He. subst e.
    exists stripped. cbn [truthy py_str].
    apply String.eqb_neq in Hn as Hn'. rewrite Hn', Hs. cbn [negb].
    repeat split. now apply format_date_text.
Qed.

(** X2: a date of the calendar with a year from 1000 on, written as
    [YYYY-MM-DD], shows as the abbreviated English month name and the four
    digits of the year; the day is checked and then dropped. *)
Theorem format_date_of_calendar_date (d : date) (is_current : pyval) :
  valid d -> 1000 <= year d -> truthy is_current = false ->
  format_date (PStr (isoformat d)) is_current
  = Ok (month_abbr (month d) ++ " " ++ four_digits (year d)).
Proof.
  intros (Hy & Hm & Hd) Hk Hc. destruct d as [y m dd]. cbn [year month day] in *.
  assert (Hd31 : 1 <= dd <= 31) by (unfold days_in_month in Hd;
    destruct (m =? 2); [destruct (is_leap y) |
    destruct ((m =? 4) || (m =? 6) || (m =? 9) || (m =? 11))]; lia).
  unfold format_date. rewrite Hc.
  rewrite (strip_isoformat y m dd) by lia.
  assert (Hne : isoformat (mkdate y m dd) <> "") by discriminate.
  apply String.eqb_neq in Hne. cbn [truthy]. rewrite Hne. cbn [negb].
  rewrite strptime_isoformat by lia.
  destruct (Z.leb_spec 1 y); [| lia]. destruct (Z.leb_spec dd (days_in_month y m)); [| lia].
  cbn [andb]. unfold strftime_b_Y. cbn [month].
  now rewrite (proj1 (fmt_Y_written (mkdate y m dd) ltac:(cbn; lia)) Hk).
Qed.

Lemma format_date_of_calendar_date_witness :
  format_date (PStr "2024-02-29") PNone = Ok "Feb 2024".
Proof.
  apply (format_date_of_calendar_date (mkdate 2024 2 29) PNone);
    [vm_compute; intuition discriminate | vm_compute; discriminate | reflexivity].
Defined.

(** X3: a text [YYYY-MM-DD] whose day is not in the month (30 February,
    31 April, 29 February of a common year) or whose year is 0000 is not
    corrected and not refused: it is returned as it was written. *)
Theorem format_date_keeps_impossible_date (y m d : Z) :
  0 <= y <= 9999 -> 1 <= m <= 12 -> 1 <= d <= 31 ->
  y = 0 \/ days_in_month y m < d ->
  format_date (PStr (isoformat (mkdate y m d))) (PBool false) = Ok (isoformat (mkdate y m d)).
Proof.
  intros Hy Hm Hd Hbad.
  apply format_date_text.
  - apply strip_isoformat; lia.
  - discriminate.
  - rewrite strptime_isoformat by lia.
    destruct (Z.leb_spec 1 y); [| reflexivity].
    destruct (Z.leb_spec d (days_in_month y m)); [lia | reflexivity].
Qed.

Lemma format_date_keeps_impossible_date_witness :
  format_date (PStr "2023-02-29") (PBool false) = Ok "2023-02-29".
Proof.
  apply (format_date_keeps_impossible_date 2023 2 29); [lia | lia | lia |].
  right. vm_compute. reflexivity.
Defined.

(** X4: whitespace around the text of a date plays no role, and a text of
    whitespace only gives the empty label; for an ASCII text, on which
    [strip] removes what [str.strip()] removes. *)
Theorem format_date_ignores_surrounding_whitespace (s : string) (is_current : pyval) :
  is_ascii s = true ->
  format_date (PStr s) is_current = format_date (PStr (strip s)) is_current
  /\ (forallb is_space (list_ascii_of_string s) = true -> truthy is_current = false ->
      format_date (PStr s) is_current = Ok "").
Proof.
  intros _.
  assert (H : format_date (PStr s) is_current = format_date (PStr (strip s)) is_current).
  { unfold format_date. destruct (truthy is_current); [reflexivity |].
    cbn [truthy]. rewrite strip_idem.
    destruct (String.eqb_spec s "") as [-> | Hs]; [reflexivity |].
    cbn [negb]. destruct (String.eqb (strip s) ""); reflexivity. }
  split; [exact H |].
  intros Hb Hc. rewrite H, (strip_blank s Hb). unfold format_date. now rewrite Hc.
Qed.

Lemma format_date_ignores_surrounding_whitespace_witness :
  format_date (PStr "   ") PNone = Ok "".
Proof.
  apply (format_date_ignores_surrounding_whitespace "   " PNone); reflexivity.
Defined.

End FormatDateAll.

(** ** The records the templates accept *)

Definition is_dict (v : pyval) : bool :=
  match v with PDict _ => true | _ => false end.

Definition is_str (v : pyval) : bool :=
  match v with PStr _ => true | _ => false end.

(** [for x in v] has items to give. *)
Definition iterable (v : pyval) : bool :=
  match v with PList _ | PStr _ | PDict _ => true | _ => false end.

(** A value a skills loop runs on: falsy, or something to iterate over. *)
Definition skills_shape (v : pyval) : bool := negb (truthy v) || iterable v.

(** A value an entry loop runs on: falsy, or a list whose items pass [ok]. *)
Definition entries_shape (ok : pyval -> bool) (v : pyval) : bool :=
  negb (truthy v) || match v with PList xs => forallb ok xs | _ => false end.

(** A language entry: a dict whose proficiency, when present, is a text. *)
Definition language_shape (v : pyval) : bool :=
  match v with PDict lang => is_str (field lang "proficiency") | _ => false end.

(** The personal object of [pdf-generator.py]: a dict whose [linkedin], when
    truthy, is a text. *)
Definition personal_shape (v : pyval) : bool :=
  match v with
  | PDict personal => negb (truthy (read personal "linkedin")) || is_str (read personal "linkedin")
  | _ => false
  end.

Definition competencies_shape (v : pyval) : bool :=
  match v with
  | PDict kc => skills_shape (read kc "technicalSkills") && skills_shape (read kc "softSkills")
  | _ => false
  end.

Definition additional_shape (v : pyval) : bool :=
  match v with PDict additional => skills_shape (read additional "skills") | _ => false end.

(** The records on which the templates of [pdf-generator.py] return a
    document. *)
Definition accepts (cv_data : pyval) : bool :=
  match cv_data with
  | PDict record =>
      personal_shape (part record "personal" (PDict []))
      && is_dict (part record "summary" (PDict []))
      && competencies_shape (part record "keyCompetencies" (PDict []))
      && entries_shape is_dict (part record "experiences" (PList []))
      && entries_shape is_dict (part record "educations" (PList []))
      && entries_shape is_dict (part record "certificates" (PList []))
      && entries_shape language_shape (part record "languages" (PList []))
      && additional_shape (part record "additional" (PDict []))
  | _ => false
  end.

Lemma forallb_eq {A : Type} (f g : A -> bool) (xs : list A) :
  (forall x, f x = g x) -> forallb f xs = forallb g xs.
Proof. intro H. induction xs as [| x xs IH]; cbn; [reflexivity | now rewrite H, IH]. Qed.

Lemma succeeds_bind {A B : Type} (m : result A) (k : A -> result B) :
  succeeds (bind m k) = match m with Ok a => succeeds (k a) | Raise _ => false end.
Proof. now destruct m. Qed.

Lemma succeeds_for_each (xs : list pyval) (body : pyval -> result string) :
  succeeds (for_each xs body) = forallb (fun x => succeeds (body x)) xs.
Proof.
  induction xs as [| x xs IH]; [reflexivity |].
  cbn [for_each forallb]. destruct (body x); [| reflexivity].
  cbn [bind succeeds andb]. rewrite <- IH. now destruct (for_each xs body).
Qed.

Lemma utf8_chars_aux_cons (cur s : string) : exists c r, utf8_chars_aux cur s = c :: r.
Proof.
  revert cur. induction s as [| x s IH]; intro cur; cbn [utf8_chars_aux]; [eauto |].
  destruct (is_continuation x); eauto.
Qed.

(** An entry loop: [if v: ...; for x in v: html += body(x); ...]. *)
Lemma succeeds_entries
    (ok : pyval -> bool) (body : pyval -> result string) (k : string -> result string)
    (v : pyval) :
  (forall x, succeeds (body x) = ok x) -> (forall s, ok (PStr s) = false) ->
  (forall s, succeeds (k s) = true) ->
  succeeds (if truthy v then (xs <- iter v ;; entries <- for_each xs body ;; k entries)
            else Ok "") = entries_shape ok v.
Proof.
  intros Hb Hs Hk. unfold entries_shape.
  destruct (truthy v) eqn:Et; [| reflexivity]. cbn [negb orb].
  destruct v as [| b | n | r nz | s | xs | entries]; try reflexivity.
  - destruct s as [| c s]; [discriminate Et |].
    cbn [iter bind utf8_chars]. destruct (utf8_chars_aux_cons (String c "") s) as (x & r & ->).
    cbn [map for_each]. rewrite succeeds_bind.
    destruct (body (PStr x)) eqn:E; [| reflexivity].
    pose proof (Hb (PStr x)) as Hx. rewrite E, Hs in Hx. discriminate Hx.
  - cbn [iter bind]. rewrite succeeds_bind.
    pose proof (succeeds_for_each xs body) as Hf.
    destruct (for_each xs body); cbn [succeeds] in Hf; [rewrite Hk |]; rewrite Hf;
      apply forallb_eq; intros; apply Hb.
  - destruct entries as [| [key v] entries]; [discriminate Et |].
    cbn [iter bind map for_each fst]. rewrite succeeds_bind.
    destruct (body (PStr key)) eqn:E; [| reflexivity].
    pose proof (Hb (PStr key)) as Hx. rewrite E, Hs in Hx. discriminate Hx.
Qed.

(** A skills loop:
    [if d.get(k): ...; for skill in d.get(k, []): html += body(skill); ...]
    with a body that formats whatever it is given. *)
Lemma succeeds_skills
    (body : pyval -> result string) (k : string -> result string)
    (d : list (string * pyval)) (key : string) :
  (forall x, succeeds (body x) = true) -> (forall s, succeeds (k s) = true) ->
  succeeds (present <- get1 (PDict d) key ;;
            if truthy present
            then (skills <- get (PDict d) key (PList []) ;; xs <- iter skills ;;
                  items <- for_each xs body ;; k items)
            else Ok "") = skills_shape (read d key).
Proof.
  intros Hb Hk. rewrite get1_read, get_dict. unfold skills_shape, read. cbn [bind].
  destruct (lookup key d) as [v |]; [| reflexivity].
  destruct (truthy v) eqn:Et; [| reflexivity]. cbn [negb orb].
  assert (Hf : forall xs, succeeds (items <- for_each xs body ;; k items) = true).
  { intro xs. rewrite succeeds_bind.
    pose proof (succeeds_for_each xs body) as Hf.
    destruct (for_each xs body); [apply Hk |].
    cbn [succeeds] in Hf. rewrite Hf. apply forallb_forall. intros; apply Hb. }
  destruct v; cbn [iter bind iterable succeeds]; try reflexivity; apply Hf.
Qed.

Ltac entry_succeeds :=
  let v := fresh "v" in
  intro v; destruct v; try reflexivity;
  unfold PdfGenerator.end_date_of, PdfGenerator.achievements_fragment,
    PdfGenerator.expiration_fragment,
    NewPdfGenerator.end_date_of, NewPdfGenerator.achievements_fragment,
    NewPdfGenerator.expiry_fragment;
  rewrite ?get_field, ?get1_read, ?get_dict; cbn [bind];
  repeat match goal with
         | |- context [truthy ?x] => destruct (truthy x); cbn [bind]
         end;
  rewrite ?get_field, ?get1_read, ?get_dict; cbn [bind]; reflexivity.

Ltac language_succeeds :=
  let v := fresh "v" in
  intro v; destruct v; try reflexivity;
  rewrite ?get_field; cbn [bind language_shape];
  match goal with |- context [py_capitalize ?p] => destruct p; reflexivity end.

Ltac skills_succeed :=
  intros; apply succeeds_skills; intros; reflexivity.

Ltac entries_succeed lemma :=
  intros; apply succeeds_entries; [apply lemma | reflexivity | reflexivity].

Ltac summary_succeeds :=
  let v := fresh "v" in
  intro v; destruct v; try reflexivity;
  rewrite get1_read; cbn [bind];
  match goal with |- context [truthy ?x] => destruct (truthy x) end;
  rewrite ?get_field; reflexivity.

Ltac header_succeeds :=
  let v := fresh "v" in
  intro v; destruct v; try reflexivity;
  unfold PdfGenerator.linkedin_fragment, personal_shape;
  rewrite !get_field, get1_read; cbn [bind];
  unfold read, field;
  let l := fresh "linkedin" in
  match goal with |- context [lookup ?k ?e] => destruct (lookup k e) as [l |] end;
  [| reflexivity];
  destruct (truthy l); [| reflexivity];
  destruct l; reflexivity.

Ltac additional_succeeds :=
  let v := fresh "v" in
  intro v; destruct v; try reflexivity;
  unfold additional_shape; apply succeeds_skills; intros; reflexivity.

Ltac competencies_succeed technical soft :=
  let v := fresh "v" in
  intro v; destruct v as [| | | | | | kc]; try reflexivity;
  unfold py_or, competencies_shape; rewrite !get1_read; cbn [bind];
  pose proof (technical kc) as Ht; pose proof (soft kc) as Hs;
  unfold skills_shape in *;
  let Et := fresh "Et" in
  let Es := fresh "Es" in
  destruct (truthy (read kc "technicalSkills")) eqn:Et; cbn [bind]; rewrite ?Et;
    [| destruct (truthy (read kc "softSkills")) eqn:Es; rewrite ?Es; [| reflexivity]];
  rewrite !succeeds_bind;
  match type of Ht with succeeds ?m = _ => destruct m end;
  match type of Hs with succeeds ?m = _ => destruct m end;
  cbn [succeeds] in *; rewrite <- ?Ht, <- ?Hs; reflexivity.

Ltac document_succeeds :=
  repeat match goal with
         | |- context [succeeds ?m] =>
             lazymatch m with
             | Ok _ => fail
             | Raise _ => fail
             | bind _ _ => fail
             | _ => destruct m
             end
         end;
  reflexivity.

Section PdfAccepts.
Import PdfGenerator.

(** *** Professional style *)

Lemma professional_header_succeeds :
  forall x, succeeds (Professional.header x) = personal_shape x.
Proof. unfold Professional.header. header_succeeds. Qed.

Lemma professional_summary_succeeds :
  forall x, succeeds (Professional.summary_section x) = is_dict x.
Proof. unfold Professional.summary_section. summary_succeeds. Qed.

Lemma professional_experience_entry_succeeds :
  forall x, succeeds (Professional.experience_entry x) = is_dict x.
Proof. unfold Professional.experience_entry. entry_succeeds. Qed.

Lemma professional_experience_succeeds :
  forall v, succeeds (Professional.experience_section v) = entries_shape is_dict v.
Proof. unfold Professional.experience_section. entries_succeed professional_experience_entry_succeeds. Qed.

Lemma professional_education_entry_succeeds :
  forall x, succeeds (Professional.education_entry x) = is_dict x.
Proof. unfold Professional.education_entry. entry_succeeds. Qed.

Lemma professional_education_succeeds :
  forall v, succeeds (Professional.education_section v) = entries_shape is_dict v.
Proof. unfold Professional.education_section. entries_succeed professional_education_entry_succeeds. Qed.

Lemma professional_certificate_entry_succeeds :
  forall x, succeeds (Professional.certificate_entry x) = is_dict x.
Proof. unfold Professional.certificate_entry. entry_succeeds. Qed.

Lemma professional_language_entry_succeeds :
  forall x, succeeds (Professional.language_entry x) = language_shape x.
Proof. unfold Professional.language_entry. language_succeeds. Qed.

Lemma professional_certificates_succeeds :
  forall v, succeeds (Professional.certificates_section v) = entries_shape is_dict v.
Proof. unfold Professional.certificates_section. entries_succeed professional_certificate_entry_succeeds. Qed.

Lemma professional_languages_succeeds :
  forall v, succeeds (Professional.languages_section v) = entries_shape language_shape v.
Proof. unfold Professional.languages_section. entries_succeed professional_language_entry_succeeds. Qed.

Lemma professional_technical_succeeds :
  forall kc, succeeds (Professional.technical_skills (PDict kc)) = skills_shape (read kc "technicalSkills").
Proof. unfold Professional.technical_skills. skills_succeed. Qed.

Lemma professional_soft_succeeds :
  forall kc, succeeds (Professional.soft_skills (PDict kc)) = skills_shape (read kc "softSkills").
Proof. unfold Professional.soft_skills. skills_succeed. Qed.

Lemma professional_competencies_succeeds :
  forall v, succeeds (Professional.competencies_section v) = competencies_shape v.
Proof.
  unfold Professional.competencies_section.
  competencies_succeed professional_technical_succeeds professional_soft_succeeds.
Qed.

Lemma professional_additional_succeeds :
  forall x, succeeds (Professional.additional_section x) = additional_shape x.
Proof. unfold Professional.additional_section. additional_succeeds. Qed.

(** *** Modern style *)

Lemma modern_header_succeeds :
  forall x, succeeds (Modern.header x) = personal_shape x.
Proof. unfold Modern.header. header_succeeds. Qed.

Lemma modern_summary_succeeds :
  forall x, succeeds (Modern.summary_section x) = is_dict x.
Proof. unfold Modern.summary_section. summary_succeeds. Qed.

Lemma modern_experience_entry_succeeds :
  forall x, succeeds (Modern.experience_entry x) = is_dict x.
Proof. unfold Modern.experience_entry. entry_succeeds. Qed.

Lemma modern_experience_succeeds :
  forall v, succeeds (Modern.experience_section v) = entries_shape is_dict v.
Proof. unfold Modern.experience_section. entries_succeed modern_experience_entry_succeeds. Qed.

Lemma modern_education_entry_succeeds :
  forall x, succeeds (Modern.education_entry x) = is_dict x.
Proof. unfold Modern.education_entry. entry_succeeds. Qed.

Lemma modern_education_succeeds :
  forall v, succeeds (Modern.education_section v) = entries_shape is_dict v.
Proof. unfold Modern.education_section. entries_succeed modern_education_entry_succeeds. Qed.

Lemma modern_certificate_entry_succeeds :
  forall x, succeeds (Modern.certificate_entry x) = is_dict x.
Proof. unfold Modern.certificate_entry. entry_succeeds. Qed.

Lemma modern_language_entry_succeeds :
  forall x, succeeds (Modern.language_entry x) = language_shape x.
Proof. unfold Modern.language_entry. language_succeeds. Qed.

Lemma modern_certificates_succeeds :
  forall v, succeeds (Modern.certificates_column v) = entries_shape is_dict v.
Proof. unfold Modern.certificates_column. entries_succeed modern_certificate_entry_succeeds. Qed.

Lemma modern_languages_succeeds :
  forall v, succeeds (Modern.languages_column v) = entries_shape language_shape v.
Proof. unfold Modern.languages_column. entries_succeed modern_language_entry_succeeds. Qed.

Lemma modern_technical_succeeds :
  forall kc, succeeds (Modern.technical_skills (PDict kc)) = skills_shape (read kc "technicalSkills").
Proof. unfold Modern.technical_skills. skills_succeed. Qed.

Lemma modern_soft_succeeds :
  forall kc, succeeds (Modern.soft_skills (PDict kc)) = skills_shape (read kc "softSkills").
Proof. unfold Modern.soft_skills. skills_succeed. Qed.

Lemma modern_competencies_succeeds :
  forall v, succeeds (Modern.competencies_section v) = competencies_shape v.
Proof.
  unfold Modern.competencies_section.
  competencies_succeed modern_technical_succeeds modern_soft_succeeds.
Qed.

Lemma modern_additional_succeeds :
  forall x, succeeds (Modern.additional_section x) = additional_shape x.
Proof. unfold Modern.additional_section. additional_succeeds. Qed.

(** *** Minimal style *)

Lemma minimal_header_succeeds :
  forall x, succeeds (Minimal.header x) = personal_shape x.
Proof. unfold Minimal.header. header_succeeds. Qed.

Lemma minimal_summary_succeeds :
  forall x, succeeds (Minimal.summary_section x) = is_dict x.
Proof. unfold Minimal.summary_section. summary_succeeds. Qed.

Lemma minimal_experience_entry_succeeds :
  forall x, succeeds (Minimal.experience_entry x) = is_dict x.
Proof. unfold Minimal.experience_entry. entry_succeeds. Qed.

Lemma minimal_experience_succeeds :
  forall v, succeeds (Minimal.experience_section v) = entries_shape is_dict v.
Proof. unfold Minimal.experience_section. entries_succeed minimal_experience_entry_succeeds. Qed.

Lemma minimal_education_entry_succeeds :
  forall x, succeeds (Minimal.education_entry x) = is_dict x.
Proof. unfold Minimal.education_entry. entry_succeeds. Qed.

Lemma minimal_education_succeeds :
  forall v, succeeds (Minimal.education_section v) = entries_shape is_dict v.
Proof. unfold Minimal.education_section. entries_succeed minimal_education_entry_succeeds. Qed.

Lemma minimal_certificate_entry_succeeds :
  forall x, succeeds (Minimal.certificate_entry x) = is_dict x.
Proof. unfold Minimal.certificate_entry. entry_succeeds. Qed.

Lemma minimal_language_entry_succeeds :
  forall x, succeeds (Minimal.language_entry x) = language_shape x.
Proof. unfold Minimal.language_entry. language_succeeds. Qed.

Lemma minimal_certificates_succeeds :
  forall v, succeeds (Minimal.certificates_section v) = entries_shape is_dict v.
Proof. unfold Minimal.certificates_section. entries_succeed minimal_certificate_entry_succeeds. Qed.

Lemma minimal_languages_succeeds :
  forall v, succeeds (Minimal.languages_section v) = entries_shape language_shape v.
Proof. unfold Minimal.languages_section. entries_succeed minimal_language_entry_succeeds. Qed.

Lemma modern_columns_succeed (certificates languages : pyval) :
  succeeds (Modern.certificates_languages_section certificates languages)
  = entries_shape is_dict certificates && entries_shape language_shape languages.
Proof.
  unfold Modern.certificates_languages_section.
  destruct (truthy certificates || truthy languages) eqn:E.
  - rewrite <- modern_certificates_succeeds, <- modern_languages_succeeds.
    rewrite !succeeds_bind.
    destruct (Modern.certificates_column certificates);
      destruct (Modern.languages_column languages); reflexivity.
  - apply orb_false_iff in E. destruct E as [Ec El].
    unfold entries_shape. now rewrite Ec, El.
Qed.

Lemma extend_with_succeeds (all_skills : list pyval) (d : list (string * pyval)) (k : string) :
  succeeds (Minimal.extend_with all_skills (PDict d) k) = skills_shape (read d k).
Proof.
  unfold Minimal.extend_with, skills_shape. rewrite get1_read, get_dict. cbn [bind].
  unfold read. destruct (lookup k d) as [v |]; [| reflexivity].
  destruct (truthy v); [| reflexivity]. destruct v; reflexivity.
Qed.

Lemma for_each_total (xs : list pyval) (body : pyval -> result string) :
  (forall x, succeeds (body x) = true) -> succeeds (for_each xs body) = true.
Proof.
  intro H. rewrite succeeds_for_each. apply forallb_forall. intros; apply H.
Qed.

Lemma minimal_skills_succeed (keyCompetencies additional : pyval) :
  succeeds (Minimal.skills_section keyCompetencies additional)
  = competencies_shape keyCompetencies && additional_shape additional.
Proof.
  unfold Minimal.skills_section.
  destruct keyCompetencies as [| | | | | | kc]; try reflexivity.
  unfold competencies_shape.
  rewrite succeeds_bind, <- (extend_with_succeeds [] kc "technicalSkills").
  destruct (Minimal.extend_with [] (PDict kc) "technicalSkills") as [l1 |]; [| reflexivity].
  rewrite succeeds_bind, <- (extend_with_succeeds l1 kc "softSkills").
  destruct (Minimal.extend_with l1 (PDict kc) "softSkills") as [l2 |]; [| reflexivity].
  cbn [succeeds andb]. rewrite succeeds_bind.
  destruct additional as [| | | | | | add]; try reflexivity.
  unfold additional_shape. rewrite <- (extend_with_succeeds l2 add "skills").
  destruct (Minimal.extend_with l2 (PDict add) "skills") as [l3 |]; [| reflexivity].
  destruct (truthy (PList l3)); [| reflexivity].
  rewrite succeeds_bind.
  pose proof (for_each_total l3 Minimal.skill_pill (fun _ => eq_refl)) as Hf.
  destruct (for_each l3 Minimal.skill_pill); [reflexivity | discriminate Hf].
Qed.

Lemma professional_template_succeeds (cv_data : pyval) :
  succeeds (generate_professional_template cv_data) = accepts cv_data.
Proof.
  unfold generate_professional_template, accepts.
  destruct cv_data as [| | | | | | record]; try reflexivity.
  rewrite !get_dict. cbn [bind].
  rewrite <- professional_header_succeeds, <- professional_summary_succeeds,
    <- professional_competencies_succeeds,
    <- (professional_experience_succeeds (part record "experiences" (PList []))),
    <- (professional_education_succeeds (part record "educations" (PList []))),
    <- (professional_certificates_succeeds (part record "certificates" (PList []))),
    <- professional_languages_succeeds, <- professional_additional_succeeds.
  unfold part. document_succeeds.
Qed.

Lemma modern_template_succeeds (cv_data : pyval) :
  succeeds (generate_modern_template cv_data) = accepts cv_data.
Proof.
  unfold generate_modern_template, accepts.
  destruct cv_data as [| | | | | | record]; try reflexivity.
  rewrite !get_dict. cbn [bind].
  rewrite <- modern_header_succeeds, <- modern_summary_succeeds,
    <- modern_competencies_succeeds,
    <- (modern_experience_succeeds (part record "experiences" (PList []))),
    <- (modern_education_succeeds (part record "educations" (PList []))),
    <- modern_additional_succeeds.
  rewrite <- !andb_assoc,
    (andb_assoc (entries_shape is_dict (part record "certificates" (PList [])))),
    <- modern_columns_succeed.
  unfold part. document_succeeds.
Qed.

Lemma minimal_template_succeeds (cv_data : pyval) :
  succeeds (generate_minimal_template cv_data) = accepts cv_data.
Proof.
  unfold generate_minimal_template, accepts.
  destruct cv_data as [| | | | | | record]; try reflexivity.
  rewrite !get_dict. cbn [bind].
  rewrite <- minimal_header_succeeds, <- minimal_summary_succeeds,
    <- (minimal_experience_succeeds (part record "experiences" (PList []))),
    <- (minimal_education_succeeds (part record "educations" (PList []))),
    <- (minimal_certificates_succeeds (part record "certificates" (PList []))),
    <- minimal_languages_succeeds.
  generalize (minimal_skills_succeed (part record "keyCompetencies" (PDict []))
                (part record "additional" (PDict []))).
  unfold part.
  repeat match goal with
         | |- context [succeeds ?m] =>
             lazymatch m with
             | Ok _ => fail
             | Raise _ => fail
             | bind _ _ => fail
             | _ => destruct m
             end
         end;
    cbn [bind succeeds andb];
    destruct (competencies_shape _), (additional_shape _); cbn [andb];
    intro H; first [reflexivity | discriminate H].
Qed.

(** X5: on a value of bounded size (no integer of more than 4300 digits,
    nothing nested deeper than 100 levels), the three templates of
    [pdf-generator.py] return a document on the same records, and raise on
    every other value.  A record is accepted
    when it is a dict whose [personal], [summary], [keyCompetencies] and
    [additional] are dicts (when present), whose [linkedin] is falsy or a
    text, whose skill lists are falsy or iterable, whose [experiences],
    [educations] and [certificates] are falsy or lists of dicts, and whose
    [languages] is falsy or a list of dicts with a text (or no)
    [proficiency]. *)
Theorem pdf_templates_accept (cv_data : pyval) :
  bounded cv_data = true ->
  succeeds (generate_professional_template cv_data) = accepts cv_data
  /\ succeeds (generate_modern_template cv_data) = accepts cv_data
  /\ succeeds (generate_minimal_template cv_data) = accepts cv_data.
Proof.
  intros _.
  split; [apply professional_template_succeeds |].
  split; [apply modern_template_succeeds | apply minimal_template_succeeds].
Qed.

Lemma pdf_templates_accept_witness :
  succeeds (generate_professional_template null_proficiency_record) = false
  /\ succeeds (generate_modern_template null_proficiency_record) = false
  /\ succeeds (generate_minimal_template null_proficiency_record) = false.
Proof.
  exact (pdf_templates_accept null_proficiency_record eq_refl).
Defined.

End PdfAccepts.

(** *** [new-pdf-generator.py] *)

(** The records on which the template of [new-pdf-generator.py] returns a
    document: the guards [x and ...] let a falsy value ([None], an empty
    text, 0) stand where a dict is expected, and [linkedin] is formatted
    whatever it is. *)
Definition new_accepts (cv_data : pyval) : bool :=
  match cv_data with
  | PDict record =>
      is_dict (part record "personal" (PDict []))
      && (negb (truthy (part record "professional" (PDict [])))
          || is_dict (part record "professional" (PDict [])))
      && (negb (truthy (part record "keyCompetencies" (PDict [])))
          || competencies_shape (part record "keyCompetencies" (PDict [])))
      && entries_shape is_dict (part record "experience" (PList []))
      && entries_shape is_dict (part record "education" (PList []))
      && entries_shape is_dict (part record "certificates" (PList []))
      && entries_shape is_dict (part record "extracurricular" (PList []))
      && entries_shape language_shape (part record "languages" (PList []))
      && (negb (truthy (part record "additional" (PDict [])))
          || additional_shape (part record "additional" (PDict [])))
  | _ => false
  end.

Section NewAccepts.
Import NewPdfGenerator.

Lemma new_header_succeeds : forall x, succeeds (header x) = is_dict x.
Proof.
  unfold header, linkedin_fragment. intro v. destruct v; try reflexivity.
  rewrite !get_field, get1_read. cbn [bind].
  destruct (truthy (read entries "linkedin")); reflexivity.
Qed.

Lemma new_summary_succeeds :
  forall v, succeeds (summary_section v) = negb (truthy v) || is_dict v.
Proof.
  unfold summary_section, py_and. intro v.
  destruct (truthy v) eqn:Et; cbn [bind negb orb]; [| now rewrite Et].
  destruct v; try reflexivity.
  rewrite get1_read. cbn [bind].
  destruct (truthy (read entries "summary")); rewrite ?get_field; reflexivity.
Qed.

Lemma new_experience_entry_succeeds : forall x, succeeds (experience_entry x) = is_dict x.
Proof. unfold experience_entry. entry_succeeds. Qed.

Lemma new_experience_succeeds : forall v, succeeds (experience_section v) = entries_shape is_dict v.
Proof. unfold experience_section. entries_succeed new_experience_entry_succeeds. Qed.

Lemma new_education_entry_succeeds : forall x, succeeds (education_entry x) = is_dict x.
Proof. unfold education_entry. entry_succeeds. Qed.

Lemma new_education_succeeds : forall v, succeeds (education_section v) = entries_shape is_dict v.
Proof. unfold education_section. entries_succeed new_education_entry_succeeds. Qed.

Lemma new_certificate_entry_succeeds : forall x, succeeds (certificate_entry x) = is_dict x.
Proof. unfold certificate_entry. entry_succeeds. Qed.

Lemma new_certificate_succeeds : forall v, succeeds (certificates_section v) = entries_shape is_dict v.
Proof. unfold certificates_section. entries_succeed new_certificate_entry_succeeds. Qed.

Lemma new_extracurricular_entry_succeeds : forall x, succeeds (extracurricular_entry x) = is_dict x.
Proof. unfold extracurricular_entry. entry_succeeds. Qed.

Lemma new_extracurricular_succeeds : forall v, succeeds (extracurricular_section v) = entries_shape is_dict v.
Proof. unfold extracurricular_section. entries_succeed new_extracurricular_entry_succeeds. Qed.

Lemma new_language_entry_succeeds : forall x, succeeds (language_entry x) = language_shape x.
Proof. unfold language_entry. language_succeeds. Qed.

Lemma new_languages_succeeds : forall v, succeeds (languages_section v) = entries_shape language_shape v.
Proof. unfold languages_section. entries_succeed new_language_entry_succeeds. Qed.

Lemma new_technical_succeeds :
  forall kc, succeeds (technical_skills (PDict kc)) = skills_shape (read kc "technicalSkills").
Proof. unfold technical_skills. skills_succeed. Qed.

Lemma new_soft_succeeds :
  forall kc, succeeds (soft_skills (PDict kc)) = skills_shape (read kc "softSkills").
Proof. unfold soft_skills. skills_succeed. Qed.

Lemma new_competencies_succeeds :
  forall v, succeeds (competencies_section v) = negb (truthy v) || competencies_shape v.
Proof.
  unfold competencies_section, py_and. intro v.
  destruct (truthy v) eqn:Et; cbn [bind negb orb]; [| now rewrite Et].
  clear Et. revert v.
  competencies_succeed new_technical_succeeds new_soft_succeeds.
Qed.

Lemma new_additional_succeeds :
  forall v, succeeds (additional_section v) = negb (truthy v) || additional_shape v.
Proof.
  unfold additional_section, py_and. intro v.
  destruct (truthy v) eqn:Et; cbn [negb orb].
  - destruct v; try reflexivity. unfold additional_shape.
    apply succeeds_skills; intros; reflexivity.
  - cbn [bind]. now rewrite Et.
Qed.

Lemma new_template_succeeds (cv_data : pyval) :
  succeeds (generate_professional_template cv_data) = new_accepts cv_data.
Proof.
  unfold generate_professional_template, new_accepts.
  destruct cv_data as [| | | | | | record]; try reflexivity.
  rewrite !get_dict. cbn [bind].
  rewrite <- new_header_succeeds, <- new_summary_succeeds, <- new_competencies_succeeds,
    <- (new_experience_succeeds (part record "experience" (PList []))),
    <- (new_education_succeeds (part record "education" (PList []))),
    <- (new_certificate_succeeds (part record "certificates" (PList []))),
    <- (new_extracurricular_succeeds (part record "extracurricular" (PList []))),
    <- new_languages_succeeds, <- new_additional_succeeds.
  unfold part. document_succeeds.
Qed.

(** X6: on a value of bounded size (no integer of more than 4300 digits,
    nothing nested deeper than 100 levels),
    [generate_professional_template] of [new-pdf-generator.py], and with it
    the modern and the minimal style, returns a document exactly on the
    records of [new_accepts]: a [null] personal object, a section that
    is not a list of dicts or a proficiency that is not a text raises,
    while a [null] summary, competencies or additional object is skipped
    here and makes the templates of [pdf-generator.py] raise. *)
Theorem new_template_accepts (cv_data : pyval) :
  bounded cv_data = true ->
  succeeds (generate_professional_template cv_data) = new_accepts cv_data
  /\ succeeds (generate_modern_template cv_data) = new_accepts cv_data
  /\ succeeds (generate_minimal_template cv_data) = new_accepts cv_data
  /\ (new_accepts (PDict [("professional", PNone); ("keyCompetencies", PNone);
                          ("additional", PNone)]) = true
      /\ accepts (PDict [("summary", PNone)]) = false
      /\ accepts (PDict [("keyCompetencies", PNone)]) = false
      /\ accepts (PDict [("additional", PNone)]) = false).
Proof.
  intros _. unfold generate_modern_template, generate_minimal_template.
  repeat split; apply new_template_succeeds.
Qed.

Lemma new_template_accepts_witness :
  succeeds (generate_professional_template
              (PDict [("professional", PNone); ("keyCompetencies", PNone)])) = true.
Proof.
  exact (proj1 (new_template_accepts
                  (PDict [("professional", PNone); ("keyCompetencies", PNone)]) eq_refl)).
Defined.

End NewAccepts.

(** ** What the templates read *)

Definition pdf_keys : list string :=
  ["personal"; "summary"; "keyCompetencies"; "experiences"; "educations";
   "certificates"; "languages"; "additional"].

Definition new_keys : list string :=
  ["personal"; "professional"; "keyCompetencies"; "experience"; "education";
   "certificates"; "languages"; "extracurricular"; "additional"].

Ltac key_listed := cbn [In pdf_keys new_keys]; repeat first [left; reflexivity | right].

(** X7: a document depends on the record only through the keys its
    template reads.  The three templates of [pdf-generator.py] read the
    eight keys of [pdf_keys]: what a record holds under [extracurricular],
    [templateSettings], [professional], [experience] or any other key
    changes nothing in the document.  The template of [new-pdf-generator.py]
    reads the nine keys of [new_keys]. *)
Theorem templates_read_only_their_keys (record record' : list (string * pyval)) :
  ((forall k, In k pdf_keys -> lookup k record' = lookup k record) ->
   PdfGenerator.generate_professional_template (PDict record')
     = PdfGenerator.generate_professional_template (PDict record)
   /\ PdfGenerator.generate_modern_template (PDict record')
     = PdfGenerator.generate_modern_template (PDict record)
   /\ PdfGenerator.generate_minimal_template (PDict record')
     = PdfGenerator.generate_minimal_template (PDict record))
  /\ ((forall k, In k new_keys -> lookup k record' = lookup k record) ->
      NewPdfGenerator.generate_professional_template (PDict record')
        = NewPdfGenerator.generate_professional_template (PDict record)).
Proof.
  split; intro H.
  - unfold PdfGenerator.generate_professional_template, PdfGenerator.generate_modern_template,
      PdfGenerator.generate_minimal_template.
    rewrite !get_dict.
    rewrite !(H "personal"), !(H "summary"), !(H "keyCompetencies"), !(H "experiences"),
      !(H "educations"), !(H "certificates"), !(H "languages"), !(H "additional")
      by key_listed.
    repeat split; reflexivity.
  - unfold NewPdfGenerator.generate_professional_template.
    rewrite !get_dict.
    rewrite !(H "personal"), !(H "professional"), !(H "keyCompetencies"), !(H "experience"),
      !(H "education"), !(H "certificates"), !(H "languages"), !(H "extracurricular"),
      !(H "additional") by key_listed.
    reflexivity.
Qed.

Definition record_with_activities : list (string * pyval) :=
  [("personal", PDict [("firstName", PStr "Ada")]);
   ("extracurricular", PList [PDict [("organization", PStr "Chess club")]]);
   ("templateSettings", PDict [("template", PStr "modern")])].

Definition record_without_activities : list (string * pyval) :=
  [("personal", PDict [("firstName", PStr "Ada")])].

Lemma templates_read_only_their_keys_witness :
  PdfGenerator.generate_professional_template (PDict record_with_activities)
    = PdfGenerator.generate_professional_template (PDict record_without_activities)
  /\ NewPdfGenerator.generate_professional_template
       (PDict (("summary", PNone) :: record_with_activities))
     = NewPdfGenerator.generate_professional_template (PDict record_with_activities).
Proof.
  split.
  - apply (proj1 (templates_read_only_their_keys record_without_activities
                    record_with_activities)).
    intros k Hk. cbn [In pdf_keys] in Hk.
    repeat (destruct Hk as [<- | Hk]; [reflexivity |]). destruct Hk.
  - apply (proj2 (templates_read_only_their_keys record_with_activities
                    (("summary", PNone) :: record_with_activities))).
    intros k Hk. cbn [In new_keys] in Hk.
    repeat (destruct Hk as [<- | Hk]; [reflexivity |]). destruct Hk.
Defined.

(** ** The order of the entries *)

(** [a] occurs in [s], and [b] occurs after it. *)
Definition in_order (a b s : string) : Prop :=
  exists pre mid post, s = pre ++ a ++ mid ++ b ++ post.

Lemma in_order_app_l (a b s t : string) : in_order a b s -> in_order a b (s ++ t).
Proof.
  intros (pre & mid & post & ->). exists pre, mid, (post ++ t).
  now rewrite !append_assoc.
Qed.

Lemma in_order_app_r (a b s t : string) : in_order a b t -> in_order a b (s ++ t).
Proof.
  intros (pre & mid & post & ->). exists (s ++ pre), mid, post.
  now rewrite !append_assoc.
Qed.

Lemma for_each_app (xs ys : list pyval) (body : pyval -> result string) :
  for_each (xs ++ ys) body
  = (a <- for_each xs body ;; b <- for_each ys body ;; Ok (a ++ b)).
Proof.
  induction xs as [| x xs IH]; cbn [app for_each bind].
  - destruct (for_each ys body); reflexivity.
  - destruct (body x) as [s |]; [| reflexivity]. cbn [bind]. rewrite IH.
    destruct (for_each xs body) as [a |]; [| reflexivity]. cbn [bind].
    destruct (for_each ys body) as [b |]; [| reflexivity]. cbn [bind].
    now rewrite append_assoc.
Qed.

Lemma for_each_in_order
    (body : pyval -> result string) (l1 l2 l3 : list pyval) (x y : pyval) (s : string) :
  for_each (l1 ++ x :: l2 ++ y :: l3) body = Ok s ->
  exists bx by_, body x = Ok bx /\ body y = Ok by_ /\ in_order bx by_ s.
Proof.
  intro H. rewrite for_each_app in H. cbn [for_each] in H. rewrite for_each_app in H.
  cbn [for_each] in H.
  destruct (for_each l1 body) as [a |]; [| discriminate H].
  destruct (body x) as [bx |]; [| discriminate H].
  destruct (for_each l2 body) as [m |]; [| discriminate H].
  destruct (body y) as [by_ |]; [| discriminate H].
  destruct (for_each l3 body) as [c |]; [| discriminate H].
  cbn [bind] in H. apply Ok_inj in H. subst s.
  exists bx, by_. repeat split.
  exists a, m, c. now rewrite ?append_assoc.
Qed.

(** A section of the shape
    [if xs: html += opening; for x in xs: html += body(x); html += closing]. *)
Lemma section_in_order
    (body : pyval -> result string) (opening closing : string)
    (l1 l2 l3 : list pyval) (x y : pyval) (s : string) :
  (if truthy (PList (l1 ++ x :: l2 ++ y :: l3))
   then (items <- iter (PList (l1 ++ x :: l2 ++ y :: l3)) ;;
         entries <- for_each items body ;;
         Ok (opening ++ entries ++ closing))
   else Ok "") = Ok s ->
  exists bx by_, body x = Ok bx /\ body y = Ok by_ /\ in_order bx by_ s.
Proof.
  intro H.
  assert (Ht : truthy (PList (l1 ++ x :: l2 ++ y :: l3)) = true) by (destruct l1; reflexivity).
  rewrite Ht in H. cbn [iter bind] in H. inv_bind H. apply Ok_inj in H. subst s.
  destruct (for_each_in_order _ _ _ _ _ _ _ E) as (bx & by_ & Hx & Hy & Ho).
  exists bx, by_. repeat split; [assumption .. |].
  apply in_order_app_r, in_order_app_l, Ho.
Qed.

Ltac ordered_in_document H :=
  subst;
  repeat first [ exact H
               | solve [ apply in_order_app_l; exact H ]
               | match goal with |- in_order _ _ (_ ++ _) => apply in_order_app_r end ].

(** X8: the entries of a list section stand in the document in the order
    of the list: when the record lists [x] before [y] under [experiences],
    [educations], [certificates] or [languages], the block of [x] comes
    before the block of [y] in the document of the professional style of
    [pdf-generator.py]. *)
Theorem entries_keep_their_order
    (record : list (string * pyval)) (html : string)
    (l1 l2 l3 : list pyval) (x y : pyval) :
  PdfGenerator.generate_professional_template (PDict record) = Ok html ->
  let xs := PList (l1 ++ x :: l2 ++ y :: l3) in
  (lookup "experiences" record = Some xs ->
   exists bx by_, PdfGenerator.Professional.experience_entry x = Ok bx
                  /\ PdfGenerator.Professional.experience_entry y = Ok by_
                  /\ in_order bx by_ html)
  /\ (lookup "educations" record = Some xs ->
      exists bx by_, PdfGenerator.Professional.education_entry x = Ok bx
                     /\ PdfGenerator.Professional.education_entry y = Ok by_
                     /\ in_order bx by_ html)
  /\ (lookup "certificates" record = Some xs ->
      exists bx by_, PdfGenerator.Professional.certificate_entry x = Ok bx
                     /\ PdfGenerator.Professional.certificate_entry y = Ok by_
                     /\ in_order bx by_ html)
  /\ (lookup "languages" record = Some xs ->
      exists bx by_, PdfGenerator.Professional.language_entry x = Ok bx
                     /\ PdfGenerator.Professional.language_entry y = Ok by_
                     /\ in_order bx by_ html).
Proof.
  intros H xs.
  destruct (professional_blocks _ _ H) as (record0 & [= <-] & header & s1 & s2 & s3 & s4 & s5
                                           & s6 & s7 & H0 & H1 & H2 & H3 & H4 & H5 & H6 & H7 & ->).
  unfold part in *.
  repeat split; intro Hl; rewrite Hl in *.
  - destruct (section_in_order _ _ _ _ _ _ _ _ _ H3) as (bx & by_ & Hx & Hy & Ho).
    exists bx, by_. repeat split; [assumption .. |]. ordered_in_document Ho.
  - destruct (section_in_order _ _ _ _ _ _ _ _ _ H4) as (bx & by_ & Hx & Hy & Ho).
    exists bx, by_. repeat split; [assumption .. |]. ordered_in_document Ho.
  - destruct (section_in_order _ _ _ _ _ _ _ _ _ H5) as (bx & by_ & Hx & Hy & Ho).
    exists bx, by_. repeat split; [assumption .. |]. ordered_in_document Ho.
  - destruct (section_in_order _ _ _ _ _ _ _ _ _ H6) as (bx & by_ & Hx & Hy & Ho).
    exists bx, by_. repeat split; [assumption .. |]. ordered_in_document Ho.
Qed.

Definition two_jobs : list (string * pyval) :=
  [("experiences", PList [PDict [("companyName", PStr "Zeta")];
                          PDict [("companyName", PStr "Alpha")]])].

Lemma entries_keep_their_order_witness :
  exists html bx by_,
    PdfGenerator.generate_professional_template (PDict two_jobs) = Ok html
    /\ PdfGenerator.Professional.experience_entry (PDict [("companyName", PStr "Zeta")]) = Ok bx
    /\ PdfGenerator.Professional.experience_entry (PDict [("companyName", PStr "Alpha")]) = Ok by_
    /\ in_order bx by_ html.
Proof.
  destruct (PdfGenerator.generate_professional_template (PDict two_jobs)) as [html | e] eqn:E;
    [| vm_compute in E; discriminate E].
  destruct (entries_keep_their_order two_jobs html [] [] []
              (PDict [("companyName", PStr "Zeta")]) (PDict [("companyName", PStr "Alpha")]) E)
    as [Hx _].
  destruct (Hx eq_refl) as (bx & by_ & H1 & H2 & H3).
  exists html, bx, by_. repeat split; assumption.
Defined.

(** ** The skills of the minimal style *)

(** The items a skills value adds to the list of all skills. *)
Definition items_of (v : pyval) : list pyval :=
  if truthy v then match iter v with Ok xs => xs | Raise _ => [] end else [].

Lemma extend_with_items (all_skills : list pyval) (d : list (string * pyval)) (k : string) :
  skills_shape (read d k) = true ->
  PdfGenerator.Minimal.extend_with all_skills (PDict d) k
  = Ok (all_skills ++ items_of (read d k))%list.
Proof.
  unfold PdfGenerator.Minimal.extend_with, skills_shape, items_of.
  rewrite get1_read, get_dict. cbn [bind]. unfold read.
  destruct (lookup k d) as [v |]; [| now rewrite app_nil_r].
  destruct (truthy v); [| now rewrite app_nil_r].
  destruct v; cbn [negb orb iterable]; try discriminate; reflexivity.
Qed.

Lemma skills_section_of_items (kc additional kc' additional' : list (string * pyval)) :
  skills_shape (read kc "technicalSkills") = true ->
  skills_shape (read kc "softSkills") = true ->
  skills_shape (read additional "skills") = true ->
  skills_shape (read kc' "technicalSkills") = true ->
  skills_shape (read kc' "softSkills") = true ->
  skills_shape (read additional' "skills") = true ->
  (items_of (read kc "technicalSkills") ++ items_of (read kc "softSkills")
   ++ items_of (read additional "skills")
   = items_of (read kc' "technicalSkills") ++ items_of (read kc' "softSkills")
     ++ items_of (read additional' "skills"))%list ->
  PdfGenerator.Minimal.skills_section (PDict kc) (PDict additional)
  = PdfGenerator.Minimal.skills_section (PDict kc') (PDict additional').
Proof.
  intros Ht Hs Ha Ht' Hs' Ha' H. unfold PdfGenerator.Minimal.skills_section.
  rewrite (extend_with_items [] kc _ Ht), (extend_with_items [] kc' _ Ht'). cbn [bind].
  rewrite (extend_with_items _ kc _ Hs), (extend_with_items _ kc' _ Hs'). cbn [bind].
  rewrite (extend_with_items _ additional _ Ha), (extend_with_items _ additional' _ Ha').
  cbn [bind app]. rewrite <- !app_assoc. cbn [app]. rewrite H. reflexivity.
Qed.

(** X9: the minimal style of [pdf-generator.py] shows one skills section:
    the technical skills, then the soft skills, then the additional skills,
    as one list.  The block is the one a record gives whose technical skills
    are that whole list and which has no other skills; with the three
    values falsy there is no block. *)
Theorem minimal_skills_are_merged (keyCompetencies additional : list (string * pyval)) :
  skills_shape (read keyCompetencies "technicalSkills") = true ->
  skills_shape (read keyCompetencies "softSkills") = true ->
  skills_shape (read additional "skills") = true ->
  let all_skills :=
    (items_of (read keyCompetencies "technicalSkills")
     ++ items_of (read keyCompetencies "softSkills")
     ++ items_of (read additional "skills"))%list in
  PdfGenerator.Minimal.skills_section (PDict keyCompetencies) (PDict additional)
  = PdfGenerator.Minimal.skills_section (PDict [("technicalSkills", PList all_skills)]) (PDict [])
  /\ (all_skills = [] ->
      PdfGenerator.Minimal.skills_section (PDict keyCompetencies) (PDict additional) = Ok "").
Proof.
  intros Ht Hs Ha all_skills.
  assert (Hl : PdfGenerator.Minimal.skills_section (PDict keyCompetencies) (PDict additional)
               = PdfGenerator.Minimal.skills_section
                   (PDict [("technicalSkills", PList all_skills)]) (PDict [])).
  { apply skills_section_of_items; try assumption; try reflexivity.
    - subst all_skills. unfold skills_shape, read. cbn [lookup String.eqb Ascii.eqb Bool.eqb].
      now rewrite orb_true_r.
    - cbn [read lookup String.eqb Ascii.eqb Bool.eqb].
      change (items_of PNone) with (@nil pyval). rewrite !app_nil_r.
      unfold items_of at 4. subst all_skills.
      destruct (items_of (read keyCompetencies "technicalSkills") ++
                items_of (read keyCompetencies "softSkills") ++
                items_of (read additional "skills"))%list; reflexivity. }
  split; [exact Hl |].
  intro He. rewrite Hl, He. reflexivity.
Qed.

Lemma minimal_skills_are_merged_witness :
  PdfGenerator.Minimal.skills_section
    (PDict [("technicalSkills", PList [PStr "Rocq"]); ("softSkills", PList [PStr "Writing"])])
    (PDict [("skills", PList [PStr "Sailing"])])
  = PdfGenerator.Minimal.skills_section
      (PDict [("technicalSkills", PList [PStr "Rocq"; PStr "Writing"; PStr "Sailing"])])
      (PDict []).
Proof.
  apply (minimal_skills_are_merged
           [("technicalSkills", PList [PStr "Rocq"]); ("softSkills", PList [PStr "Writing"])]
           [("skills", PList [PStr "Sailing"])]); reflexivity.
Defined.

(** ** Certificates in the modern style *)



(** ** The level of a language *)

Lemma upper_lower (c : ascii) : upper (lower c) = upper c.
Proof. destruct c as [[] [] [] [] [] [] [] []]; reflexivity. Qed.

Lemma lower_lower (c : ascii) : lower (lower c) = lower c.
Proof. destruct c as [[] [] [] [] [] [] [] []]; reflexivity. Qed.

Lemma lower_all_idem (s : string) : lower_all (lower_all s) = lower_all s.
Proof. induction s as [| c s IH]; cbn; [reflexivity | now rewrite lower_lower, IH]. Qed.

Lemma capitalize_lower_all (s : string) : capitalize (lower_all s) = capitalize s.
Proof. destruct s as [| c s]; cbn; [reflexivity | now rewrite upper_lower, lower_all_idem]. Qed.

Lemma capitalize_same_letters (p p' : string) :
  lower_all p = lower_all p' -> capitalize p = capitalize p'.
Proof. intro H. now rewrite <- (capitalize_lower_all p), H, capitalize_lower_all. Qed.

(** X11: the level of a language whose proficiency is an ASCII text is
    shown with its first letter in upper case and the rest in lower case,
    whatever the case of the letters in the record: two entries with the
    same name whose ASCII proficiency texts differ only in the case of
    letters give the same block, in each template. *)
Theorem language_level_ignores_case (lang lang' : list (string * pyval)) (p p' : string) :
  is_ascii p = true -> is_ascii p' = true ->
  formattable (field lang "name") = true ->
  lookup "proficiency" lang = Some (PStr p) ->
  lookup "proficiency" lang' = Some (PStr p') ->
  lower_all p = lower_all p' ->
  lookup "name" lang = lookup "name" lang' ->
  PdfGenerator.Professional.language_entry (PDict lang)
    = PdfGenerator.Professional.language_entry (PDict lang')
  /\ PdfGenerator.Modern.language_entry (PDict lang)
     = PdfGenerator.Modern.language_entry (PDict lang')
  /\ PdfGenerator.Minimal.language_entry (PDict lang)
     = PdfGenerator.Minimal.language_entry (PDict lang')
  /\ NewPdfGenerator.language_entry (PDict lang) = NewPdfGenerator.language_entry (PDict lang')
  /\ rendered_in (py "<span class=`language-level`>" ++ capitalize p ++ "</span>")
       (PdfGenerator.Professional.language_entry (PDict lang)).
Proof.
  intros _ _ _ Hp Hp' Hl Hn.
  unfold PdfGenerator.Professional.language_entry, PdfGenerator.Modern.language_entry,
    PdfGenerator.Minimal.language_entry, NewPdfGenerator.language_entry.
  rewrite !get_field. unfold field. rewrite Hp, Hp', Hn. cbn [bind py_capitalize].
  rewrite (capitalize_same_letters p p' Hl).
  repeat split.
  eexists. split; [reflexivity |].
  generalize (capitalize p'). intro level.
  rewrite ?append_assoc. cbn -[py_str]. find_infix.
Qed.

Lemma language_level_ignores_case_witness :
  PdfGenerator.Professional.language_entry
    (PDict [("name", PStr "English"); ("proficiency", PStr "NATIVE")])
  = PdfGenerator.Professional.language_entry
      (PDict [("name", PStr "English"); ("proficiency", PStr "native")]).
Proof.
  apply (language_level_ignores_case
           [("name", PStr "English"); ("proficiency", PStr "NATIVE")]
           [("name", PStr "English"); ("proficiency", PStr "native")]
           "NATIVE" "native"); reflexivity.
Defined.

(** ** The headings of the sections *)

(** The markup of the heading [t] of a section. *)
Definition title (t : string) : string := py "<div class=`section-title`>" ++ t ++ "</div>".

(** The value under [key] of the object the record holds under [k]. *)
Definition sub (record : list (string * pyval)) (k key : string) : pyval :=
  match part record k (PDict []) with
  | PDict d => read d key
  | _ => PNone
  end.

(** Each heading with the test its section is written under. *)
Definition professional_headings (record : list (string * pyval)) : list (bool * string) :=
  [ (truthy (sub record "summary" "summary"), "Professional Summary");
    (truthy (sub record "keyCompetencies" "technicalSkills")
     || truthy (sub record "keyCompetencies" "softSkills"), "Key Competencies");
    (truthy (part record "experiences" (PList [])), "Professional Experience");
    (truthy (part record "educations" (PList [])), "Education");
    (truthy (part record "certificates" (PList [])), "Certifications");
    (truthy (part record "languages" (PList [])), "Languages");
    (truthy (sub record "additional" "skills"), "Additional Skills") ].

Definition modern_headings (record : list (string * pyval)) : list (bool * string) :=
  [ (truthy (sub record "summary" "summary"), "Professional Summary");
    (truthy (part record "experiences" (PList [])), "Experience");
    (truthy (part record "educations" (PList [])), "Education");
    (truthy (sub record "keyCompetencies" "technicalSkills")
     || truthy (sub record "keyCompetencies" "softSkills"), "Key Competencies");
    (truthy (part record "certificates" (PList [])), "Certifications");
    (truthy (part record "languages" (PList [])), "Languages");
    (truthy (sub record "additional" "skills"), "Additional Skills") ].

Definition minimal_headings (record : list (string * pyval)) : list (bool * string) :=
  [ (truthy (sub record "summary" "summary"), "Profile");
    (truthy (part record "experiences" (PList [])), "Experience");
    (truthy (part record "educations" (PList [])), "Education");
    (truthy (sub record "keyCompetencies" "technicalSkills")
     || truthy (sub record "keyCompetencies" "softSkills")
     || truthy (sub record "additional" "skills"), "Skills");
    (truthy (part record "languages" (PList [])), "Languages");
    (truthy (part record "certificates" (PList [])), "Certifications") ].

(** Every heading whose test holds stands in the document. *)
Definition shows_headings (headings : list (bool * string)) (html : string) : Prop :=
  Forall (fun h => fst h = true -> infix (title (snd h)) html) headings.

Lemma modern_blocks (cv_data : pyval) (html : string) :
  PdfGenerator.generate_modern_template cv_data = Ok html ->
  exists record, cv_data = PDict record /\
  exists header s_summary s_experience s_education s_competencies s_columns s_additional,
    PdfGenerator.Modern.header (part record "personal" (PDict [])) = Ok header
    /\ PdfGenerator.Modern.summary_section (part record "summary" (PDict [])) = Ok s_summary
    /\ PdfGenerator.Modern.experience_section (part record "experiences" (PList []))
       = Ok s_experience
    /\ PdfGenerator.Modern.education_section (part record "educations" (PList []))
       = Ok s_education
    /\ PdfGenerator.Modern.competencies_section (part record "keyCompetencies" (PDict []))
       = Ok s_competencies
    /\ PdfGenerator.Modern.certificates_languages_section
         (part record "certificates" (PList [])) (part record "languages" (PList []))
       = Ok s_columns
    /\ PdfGenerator.Modern.additional_section (part record "additional" (PDict []))
       = Ok s_additional
    /\ html = header ++ s_summary ++ s_experience ++ s_education ++ s_competencies
              ++ s_columns ++ s_additional ++ PdfGenerator.Modern.footer.
Proof.
  intro H. unfold PdfGenerator.generate_modern_template in H.
  destruct cv_data as [| | | | | | record]; try discriminate H.
  exists record. split; [reflexivity |].
  rewrite !get_dict in H. cbn [bind] in H. fold (part record) in H.
  do 7 inv_bind H. injection H as <-.
  repeat eexists; eassumption.
Qed.

Lemma minimal_blocks (cv_data : pyval) (html : string) :
  PdfGenerator.generate_minimal_template cv_data = Ok html ->
  exists record, cv_data = PDict record /\
  exists header s_summary s_experience s_education s_skills s_languages s_certificates,
    PdfGenerator.Minimal.header (part record "personal" (PDict [])) = Ok header
    /\ PdfGenerator.Minimal.summary_section (part record "summary" (PDict [])) = Ok s_summary
    /\ PdfGenerator.Minimal.experience_section (part record "experiences" (PList []))
       = Ok s_experience
    /\ PdfGenerator.Minimal.education_section (part record "educations" (PList []))
       = Ok s_education
    /\ PdfGenerator.Minimal.skills_section (part record "keyCompetencies" (PDict []))
         (part record "additional" (PDict [])) = Ok s_skills
    /\ PdfGenerator.Minimal.languages_section (part record "languages" (PList []))
       = Ok s_languages
    /\ PdfGenerator.Minimal.certificates_section (part record "certificates" (PList []))
       = Ok s_certificates
    /\ html = header ++ s_summary ++ s_experience ++ s_education ++ s_skills
              ++ s_languages ++ s_certificates ++ PdfGenerator.Minimal.footer.
Proof.
  intro H. unfold PdfGenerator.generate_minimal_template in H.
  destruct cv_data as [| | | | | | record]; try discriminate H.
  exists record. split; [reflexivity |].
  rewrite !get_dict in H. cbn [bind] in H. fold (part record) in H.
  do 7 inv_bind H. injection H as <-.
  repeat eexists; eassumption.
Qed.

(** The heading is in the text that opens the block. *)
Ltac heading_here :=
  match goal with
  | |- infix _ (py _ ++ _) => apply infix_app_l, contains_infix; vm_compute; reflexivity
  end.

Lemma heading_of_entries
    (body : pyval -> result string) (opening closing t : string) (v : pyval) (s : string) :
  (if truthy v
   then (xs <- iter v ;; entries <- for_each xs body ;; Ok (opening ++ entries ++ closing))
   else Ok "") = Ok s ->
  truthy v = true -> infix t opening -> infix t s.
Proof.
  intros H Ht Hi. rewrite Ht in H. inv_bind H. inv_bind H. block_is H.
  now apply infix_app_l.
Qed.

Ltac entries_heading H Ht :=
  apply (heading_of_entries _ _ _ _ _ _ H Ht), contains_infix; vm_compute; reflexivity.

(** The summary block: [if summary.get('summary'): ...]. *)
Ltac summary_heading_in H Ht :=
  rewrite get1_read in H; cbn [bind] in H; rewrite Ht in H;
  rewrite get_field in H; cbn [bind] in H; block_is H; heading_here.

(** A skills block: [if d.get(k): ...; for skill in d.get(k, []): ...]. *)
Ltac skills_heading_in H Ht :=
  rewrite get1_read in H; cbn [bind] in H; rewrite Ht in H;
  inv_bind H; inv_bind H; inv_bind H; block_is H; heading_here.

Ltac competencies_heading_in H Ht :=
  unfold py_or in H; rewrite !get1_read in H; cbn [bind] in H;
  apply orb_true_iff in Ht;
  match type of H with
  | context [truthy (read ?kc "technicalSkills")] =>
      destruct (truthy (read kc "technicalSkills")) eqn:Etech; cbn [bind] in H;
      [rewrite Etech in H
      | destruct Ht as [Ht | Ht]; [discriminate Ht |]; rewrite Ht in H]
  end;
  inv_bind H; inv_bind H; block_is H; heading_here.

Lemma items_of_cons (v : pyval) :
  truthy v = true -> skills_shape v = true -> exists x xs, items_of v = x :: xs.
Proof.
  unfold skills_shape, items_of. intros Ht Hs. rewrite Ht in *. cbn [negb orb] in Hs.
  destruct v as [| | | | s | xs | d]; try discriminate Hs; cbn [iter].
  - destruct s as [| c s]; [discriminate Ht |]. cbn [utf8_chars].
    destruct (utf8_chars_aux_cons (String c "") s) as (x & r & ->). cbn [map]. eauto.
  - destruct xs; [discriminate Ht | eauto].
  - destruct d; [discriminate Ht | cbn [map]; eauto].
Qed.

Lemma minimal_skills_heading (kc additional : pyval) (s : string) :
  PdfGenerator.Minimal.skills_section kc additional = Ok s ->
  truthy (match kc with PDict d => read d "technicalSkills" | _ => PNone end)
  || truthy (match kc with PDict d => read d "softSkills" | _ => PNone end)
  || truthy (match additional with PDict d => read d "skills" | _ => PNone end) = true ->
  infix (title "Skills") s.
Proof.
  intros H Ht.
  assert (Hs : succeeds (PdfGenerator.Minimal.skills_section kc additional) = true)
    by now rewrite H.
  rewrite minimal_skills_succeed in Hs. apply andb_true_iff in Hs. destruct Hs as [Hk Ha].
  destruct kc as [| | | | | | kc]; try discriminate Hk.
  destruct additional as [| | | | | | additional]; try discriminate Ha.
  unfold competencies_shape in Hk. apply andb_true_iff in Hk. destruct Hk as [Hk1 Hk2].
  unfold additional_shape in Ha.
  unfold PdfGenerator.Minimal.skills_section in H.
  rewrite (extend_with_items [] kc _ Hk1) in H. cbn [bind] in H.
  rewrite (extend_with_items _ kc _ Hk2) in H. cbn [bind] in H.
  rewrite (extend_with_items _ additional _ Ha) in H. cbn [bind app] in H.
  assert (Hne : truthy (PList ((items_of (read kc "technicalSkills")
                                ++ items_of (read kc "softSkills"))
                               ++ items_of (read additional "skills"))) = true).
  { apply orb_true_iff in Ht. destruct Ht as [Ht | Ht];
      [apply orb_true_iff in Ht; destruct Ht as [Ht | Ht] |].
    - destruct (items_of_cons _ Ht Hk1) as (x & xs & ->). reflexivity.
    - destruct (items_of_cons _ Ht Hk2) as (x & xs & ->).
      destruct (items_of (read kc "technicalSkills")); reflexivity.
    - destruct (items_of_cons _ Ht Ha) as (x & xs & ->).
      destruct (items_of (read kc "technicalSkills") ++ items_of (read kc "softSkills"))%list;
        reflexivity. }
  rewrite Hne in H. inv_bind H. block_is H. heading_here.
Qed.

Ltac dict_part k :=
  match goal with
  | H : _ (match lookup k ?record with Some v => v | None => PDict [] end) = Ok _ |- _ =>
      destruct (match lookup k record with Some v => v | None => PDict [] end);
      try discriminate H
  | H : _ (match lookup k ?record with Some v => v | None => PDict [] end) _ = Ok _ |- _ =>
      destruct (match lookup k record with Some v => v | None => PDict [] end);
      try discriminate H
  end.

(** X12: a section whose data is truthy has its heading in the document,
    and the headings are those of the style: the professional style writes
    "Professional Summary", "Key Competencies", "Professional Experience",
    "Education", "Certifications", "Languages" and "Additional Skills"; the
    modern style writes "Experience" for the experience section; the
    minimal style writes "Profile" for the summary and one heading
    "Skills" for technical, soft and additional skills. *)
Theorem section_headings_by_style (record : list (string * pyval)) (html : string) :
  (PdfGenerator.generate_professional_template (PDict record) = Ok html ->
   shows_headings (professional_headings record) html)
  /\ (PdfGenerator.generate_modern_template (PDict record) = Ok html ->
      shows_headings (modern_headings record) html)
  /\ (PdfGenerator.generate_minimal_template (PDict record) = Ok html ->
      shows_headings (minimal_headings record) html).
Proof.
  repeat split; intro H.
  - destruct (professional_blocks _ _ H) as (record0 & [= <-] & header & s1 & s2 & s3 & s4 & s5
                                             & s6 & s7 & H0 & H1 & H2 & H3 & H4 & H5 & H6 & H7 & ->).
    unfold shows_headings, professional_headings, sub, part in *.
    repeat apply Forall_cons; try apply Forall_nil; cbn [fst snd]; intro Ht.
    + dict_part "summary"; try discriminate Ht.
      unfold PdfGenerator.Professional.summary_section in H1.
      assert (Hi : infix (title "Professional Summary") s1) by summary_heading_in H1 Ht.
      in_document Hi.
    + dict_part "keyCompetencies"; try discriminate Ht.
      unfold PdfGenerator.Professional.competencies_section in H2.
      assert (Hi : infix (title "Key Competencies") s2) by competencies_heading_in H2 Ht.
      in_document Hi.
    + unfold PdfGenerator.Professional.experience_section in H3.
      assert (Hi : infix (title "Professional Experience") s3) by entries_heading H3 Ht.
      in_document Hi.
    + unfold PdfGenerator.Professional.education_section in H4.
      assert (Hi : infix (title "Education") s4) by entries_heading H4 Ht.
      in_document Hi.
    + unfold PdfGenerator.Professional.certificates_section in H5.
      assert (Hi : infix (title "Certifications") s5) by entries_heading H5 Ht.
      in_document Hi.
    + unfold PdfGenerator.Professional.languages_section in H6.
      assert (Hi : infix (title "Languages") s6) by entries_heading H6 Ht.
      in_document Hi.
    + dict_part "additional"; try discriminate Ht.
      unfold PdfGenerator.Professional.additional_section in H7.
      assert (Hi : infix (title "Additional Skills") s7) by skills_heading_in H7 Ht.
      in_document Hi.
  - destruct (modern_blocks _ _ H) as (record0 & [= <-] & header & s1 & s2 & s3 & s4 & s5
                                       & s6 & H0 & H1 & H2 & H3 & H4 & H5 & H6 & ->).
    unfold shows_headings, modern_headings, sub, part in *.
    repeat apply Forall_cons; try apply Forall_nil; cbn [fst snd]; intro Ht.
    + dict_part "summary"; try discriminate Ht.
      unfold PdfGenerator.Modern.summary_section in H1.
      assert (Hi : infix (title "Professional Summary") s1) by summary_heading_in H1 Ht.
      in_document Hi.
    + unfold PdfGenerator.Modern.experience_section in H2.
      assert (Hi : infix (title "Experience") s2) by entries_heading H2 Ht.
      in_document Hi.
    + unfold PdfGenerator.Modern.education_section in H3.
      assert (Hi : infix (title "Education") s3) by entries_heading H3 Ht.
      in_document Hi.
    + dict_part "keyCompetencies"; try discriminate Ht.
      unfold PdfGenerator.Modern.competencies_section in H4.
      assert (Hi : infix (title "Key Competencies") s4) by competencies_heading_in H4 Ht.
      in_document Hi.
    + unfold PdfGenerator.Modern.certificates_languages_section in H5.
      rewrite Ht in H5. cbn [orb] in H5. inv_bind H5. inv_bind H5. block_is H5.
      unfold PdfGenerator.Modern.certificates_column in E.
      assert (Hi : infix (title "Certifications") v) by entries_heading E Ht.
      in_document Hi.
    + unfold PdfGenerator.Modern.certificates_languages_section in H5.
      rewrite Ht, orb_true_r in H5. inv_bind H5. inv_bind H5. block_is H5.
      unfold PdfGenerator.Modern.languages_column in E0.
      assert (Hi : infix (title "Languages") v0) by entries_heading E0 Ht.
      in_document Hi.
    + dict_part "additional"; try discriminate Ht.
      unfold PdfGenerator.Modern.additional_section in H6.
      assert (Hi : infix (title "Additional Skills") s6) by skills_heading_in H6 Ht.
      in_document Hi.
  - destruct (minimal_blocks _ _ H) as (record0 & [= <-] & header & s1 & s2 & s3 & s4 & s5
                                        & s6 & H0 & H1 & H2 & H3 & H4 & H5 & H6 & ->).
    unfold shows_headings, minimal_headings, sub, part in *.
    repeat apply Forall_cons; try apply Forall_nil; cbn [fst snd]; intro Ht.
    + dict_part "summary"; try discriminate Ht.
      unfold PdfGenerator.Minimal.summary_section in H1.
      assert (Hi : infix (title "Profile") s1) by summary_heading_in H1 Ht.
      in_document Hi.
    + unfold PdfGenerator.Minimal.experience_section in H2.
      assert (Hi : infix (title "Experience") s2) by entries_heading H2 Ht.
      in_document Hi.
    + unfold PdfGenerator.Minimal.education_section in H3.
      assert (Hi : infix (title "Education") s3) by entries_heading H3 Ht.
      in_document Hi.
    + pose proof (minimal_skills_heading _ _ _ H4 Ht) as Hi.
      in_document Hi.
    + unfold PdfGenerator.Minimal.languages_section in H5.
      assert (Hi : infix (title "Languages") s5) by entries_heading H5 Ht.
      in_document Hi.
    + unfold PdfGenerator.Minimal.certificates_section in H6.
      assert (Hi : infix (title "Certifications") s6) by entries_heading H6 Ht.
      in_document Hi.
Qed.

Definition profile_record : list (string * pyval) :=
  [("summary", PDict [("summary", PStr "Engineer.")])].

Lemma section_headings_by_style_witness :
  exists html,
    PdfGenerator.generate_minimal_template (PDict profile_record) = Ok html
    /\ infix (title "Profile") html.
Proof.
  destruct (PdfGenerator.generate_minimal_template (PDict profile_record)) as [html | e] eqn:E;
    [| vm_compute in E; discriminate E].
  exists html. split; [reflexivity |].
  pose proof (proj2 (proj2 (section_headings_by_style profile_record html)) E) as Hh.
  apply Forall_inv in Hh. exact (Hh eq_refl).
Defined.

(** ** The photo of [weasy_pdf.py] *)

Section Photo.
Import WeasyPdf.

Lemma contains_after (a b : string) : contains "." (a ++ "." ++ b) = true.
Proof.
  induction a as [| c a IH]; [destruct b; reflexivity |].
  change (String c a ++ "." ++ b) with (String c (a ++ "." ++ b)).
  cbn [contains]. rewrite IH. now destruct (String.prefix "." _).
Qed.

(** [s.split('.')[-1]] is what follows the last dot. *)
Lemma last_segment_extension (stem ext : string) :
  contains "." ext = false -> last_segment (stem ++ "." ++ ext) = ext.
Proof.
  intro H. induction stem as [| c stem IH].
  - cbn [append last_segment]. now rewrite H.
  - change (String c stem ++ "." ++ ext) with (String c (stem ++ "." ++ ext)).
    cbn [last_segment]. now rewrite contains_after.
Qed.

Lemma data_uri_prefix (rest : string) : String.prefix "data:image" ("data:image" ++ rest) = true.
Proof. destruct rest; reflexivity. Qed.

(** X13: what [prepare_image_for_template] returns is [None], the value it
    was given, or a data URI; preparing the result again changes nothing;
    and a text that begins with [data:image] is returned as it is, without
    a look at the files. *)
Theorem prepare_image_is_idempotent
    (read_base64 : string -> option string) (photo_url prepared : pyval) :
  prepare_image_for_template read_base64 photo_url = Ok prepared ->
  (prepared = PNone \/ prepared = photo_url
   \/ exists rest, prepared = PStr ("data:image" ++ rest))
  /\ prepare_image_for_template read_base64 prepared = Ok prepared
  /\ forall (files : string -> option string) (rest : string),
       prepare_image_for_template files (PStr ("data:image" ++ rest))
       = Ok (PStr ("data:image" ++ rest)).
Proof.
  assert (Hd : forall (files : string -> option string) (rest : string),
             prepare_image_for_template files (PStr ("data:image" ++ rest))
             = Ok (PStr ("data:image" ++ rest))).
  { intros files rest. unfold prepare_image_for_template.
    now rewrite data_uri_prefix. }
  unfold prepare_image_for_template at 1.
  destruct (truthy photo_url) eqn:Et; cbn [negb].
  - destruct photo_url as [| | | | url | |]; try discriminate.
    destruct (String.prefix "data:image" url) eqn:Ep.
    + intros [= <-]. split; [auto | split; [| exact Hd]].
      unfold prepare_image_for_template. now rewrite Et, Ep.
    + destruct (read_base64 url) as [encoded |] eqn:Er.
      * intros [= <-]. split; [| split; [reflexivity | exact Hd]].
        right; right.
        exists ("/" ++ (if String.eqb (lower_all (last_segment url)) "jpg"
                        then "jpeg" else lower_all (last_segment url))
                ++ ";base64," ++ encoded). reflexivity.
      * intros [= <-]. split; [auto | split; [| exact Hd]].
        unfold prepare_image_for_template. now rewrite Et, Ep, Er.
  - intros [= <-]. split; [auto | split; [reflexivity | exact Hd]].
Qed.

Lemma prepare_image_is_idempotent_witness :
  prepare_image_for_template (fun _ => Some "QUJD") (PStr "data:image/png;base64,QUJD")
  = Ok (PStr "data:image/png;base64,QUJD").
Proof.
  apply (prepare_image_is_idempotent (fun _ => Some "QUJD") (PStr "me.png")
           (PStr "data:image/png;base64,QUJD") eq_refl).
Defined.

(** X14: for a readable file whose path ends in [.ext], the photo becomes
    a data URI whose image type is [ext] in lower case, with [jpg] written
    as [jpeg], followed by the base64 text of the file. *)
Theorem photo_type_is_the_extension
    (read_base64 : string -> option string) (stem ext encoded : string) :
  contains "." ext = false ->
  String.prefix "data:image" (stem ++ "." ++ ext) = false ->
  read_base64 (stem ++ "." ++ ext) = Some encoded ->
  prepare_image_for_template read_base64 (PStr (stem ++ "." ++ ext))
  = Ok (PStr ("data:image/"
              ++ (if String.eqb (lower_all ext) "jpg" then "jpeg" else lower_all ext)
              ++ ";base64," ++ encoded)).
Proof.
  intros He Hp Hr. unfold prepare_image_for_template.
  assert (Ht : truthy (PStr (stem ++ "." ++ ext)) = true) by (destruct stem; reflexivity).
  rewrite Ht, Hp, Hr, (last_segment_extension stem ext He). reflexivity.
Qed.

Lemma photo_type_is_the_extension_witness :
  prepare_image_for_template (fun _ => Some "QUJD") (PStr "uploads/me.v2.JPG")
  = Ok (PStr "data:image/jpeg;base64,QUJD").
Proof.
  apply (photo_type_is_the_extension (fun _ => Some "QUJD") "uploads/me.v2" "JPG" "QUJD");
    reflexivity.
Defined.

(** The value [data.get('personal', {}).get('photoUrl')] reads, when both
    objects are dicts. *)
Definition photo_of (data : pyval) : option pyval :=
  match data with
  | PDict record =>
      match part record "personal" (PDict []) with
      | PDict personal => Some (read personal "photoUrl")
      | _ => None
      end
  | _ => None
  end.

(** X15: [generate_pdf] builds its context before it asks for the
    template.  When the record or its [personal] is not a dict, or when
    [photoUrl] is truthy and not a text, it raises [AttributeError],
    whatever the templates and files are.  Otherwise the context holds the
    record unchanged and the date of the run, and holds a photo exactly
    when [photoUrl] is truthy. *)
Theorem generate_pdf_context
    (TEMPLATES_DIR : string) (get_template : string -> result template)
    (read_base64 : string -> option string) (path_exists : string -> bool)
    (write_pdf : string -> option string -> result string)
    (clock : Datetime.date) (data template_name : pyval) :
  match photo_of data with
  | Some photo =>
      if negb (truthy photo) || is_str photo
      then exists ctx,
             build_context read_base64 clock data = Ok ctx
             /\ cv ctx = data /\ now ctx = Datetime.strftime_B_d_Y clock
             /\ (photo_url ctx = None <-> truthy photo = false)
      else generate_pdf TEMPLATES_DIR get_template read_base64 path_exists write_pdf
             clock data template_name = Raise AttributeError
  | None =>
      generate_pdf TEMPLATES_DIR get_template read_base64 path_exists write_pdf
        clock data template_name = Raise AttributeError
  end.
Proof.
  unfold photo_of, generate_pdf, html_content, build_context.
  destruct data as [| | | | | | record]; try reflexivity.
  rewrite get_dict. fold (part record "personal" (PDict [])). cbn [bind].
  destruct (part record "personal" (PDict [])) as [| | | | | | personal] eqn:Ep;
    try reflexivity.
  rewrite get1_read. cbn [bind].
  destruct (truthy (read personal "photoUrl")) eqn:Et; cbn [negb orb].
  - assert (Hd : getitem (PDict record) "personal" = Ok (PDict personal)).
    { unfold getitem, part in *. destruct (lookup "personal" record); [now subst |].
      injection Ep as <-. discriminate Et. }
    assert (Hu : getitem (PDict personal) "photoUrl" = Ok (read personal "photoUrl")).
    { unfold getitem, read in *. destruct (lookup "photoUrl" personal); [reflexivity |].
      discriminate Et. }
    rewrite Hd. cbn [bind]. rewrite Hu. cbn [bind].
    unfold prepare_image_for_template. rewrite Et. cbn [negb].
    destruct (read personal "photoUrl") as [| | | | url | |]; try reflexivity.
    cbn [is_str].
    destruct (String.prefix "data:image" url); [| destruct (read_base64 url)];
      cbn [bind]; eexists; (split; [reflexivity |]); cbn;
      repeat split; intro; discriminate.
  - eexists. split; [reflexivity |]. cbn. repeat split.
Qed.

End Photo.

(** ** From the record to the file *)

(** X16: a payload given as text is parsed once.  When [json.loads] raises
    [JSONDecodeError] the answer is [(False, "Invalid JSON data")], whatever
    the style and without a call of the renderer; when it raises another
    exception ([ValueError] on an integer of more than 4300 digits,
    [RecursionError] on a text nested too deep), that exception leaves
    [generate_cv_pdf], which catches [JSONDecodeError] only; when the text
    is JSON for a value that is not a text, the call is the call on that
    value; when it is JSON for a text, [AttributeError] is raised, as a text
    has no [get]. *)
Theorem json_text_is_parsed_once
    (json_loads : string -> result (option pyval))
    (convert_html_to_pdf : string -> string -> result (bool * pyval))
    (text : string) (style : pyval) :
  let old := PdfGenerator.generate_cv_pdf json_loads convert_html_to_pdf in
  let new := NewPdfGenerator.generate_cv_pdf json_loads convert_html_to_pdf in
  match json_loads text with
  | Raise e => old (PStr text) style = Raise e /\ new (PStr text) style = Raise e
  | Ok None =>
      old (PStr text) style = Ok (false, PStr "Invalid JSON data")
      /\ new (PStr text) style = Ok (false, PStr "Invalid JSON data")
  | Ok (Some (PStr s)) =>
      old (PStr text) style = Raise AttributeError
      /\ new (PStr text) style = Raise AttributeError
  | Ok (Some v) => old (PStr text) style = old v style /\ new (PStr text) style = new v style
  end.
Proof.
  cbv zeta. unfold PdfGenerator.generate_cv_pdf, NewPdfGenerator.generate_cv_pdf.
  destruct (json_loads text) as [[[| | | | s | |] |] | e]; split; reflexivity.
Qed.

Lemma ends_with_app (a t : string) :
  ends_with "/" t = false -> t <> "" -> ends_with "/" (a ++ t) = false.
Proof.
  intros Ht Hn. induction a as [| c a IH]; [exact Ht |].
  change (String c a ++ t) with (String c (a ++ t)).
  cbn [ends_with]. rewrite IH.
  destruct (String.eqb_spec "/" (String c (a ++ t))) as [E |]; [| reflexivity].
  injection E as _ E. destruct a; [cbn in E; now subst t | discriminate E].
Qed.

(** [os.path.join(a, t)] for a relative [t] that does not end in a slash
    is [t] put after [a] or after [a] and a slash. *)
Lemma path_join_relative (a t : string) :
  String.prefix "/" t = false ->
  exists a', WeasyPdf.path_join a t = a' ++ t /\ (a' = a \/ a' = a ++ "/").
Proof.
  intro Hp. unfold WeasyPdf.path_join. rewrite Hp.
  destruct (String.eqb a "" || ends_with "/" a); [exists a; auto |].
  exists (a ++ "/"). split; [now rewrite append_assoc | auto].
Qed.

(** Joining a file name to a directory whose name does not end in a
    slash. *)
Lemma path_join_file (dir filename : string) :
  ends_with "/" dir = false -> dir <> "" ->
  WeasyPdf.path_join dir filename
  = if String.prefix "/" filename then filename else dir ++ "/" ++ filename.
Proof.
  intros He Hn. unfold WeasyPdf.path_join. rewrite He.
  apply String.eqb_neq in Hn. now rewrite Hn.
Qed.

Lemma join_generated_pdfs (a filename : string) :
  WeasyPdf.path_join (WeasyPdf.path_join a "generated-pdfs") filename
  = if String.prefix "/" filename then filename
    else WeasyPdf.path_join a "generated-pdfs" ++ "/" ++ filename.
Proof.
  destruct (path_join_relative a "generated-pdfs" eq_refl) as (a' & E & _).
  apply path_join_file; rewrite E.
  - now apply ends_with_app.
  - destruct a'; discriminate.
Qed.

Lemma join_parent_generated_pdfs (script_dir filename : string) :
  PdfGeneratorFile.output_path script_dir filename
  = if String.prefix "/" filename then filename
    else WeasyPdf.path_join script_dir ".." ++ "/generated-pdfs/" ++ filename.
Proof.
  unfold PdfGeneratorFile.output_path. rewrite join_generated_pdfs.
  destruct (String.prefix "/" filename); [reflexivity |].
  destruct (path_join_relative script_dir ".." eq_refl) as (a' & E & _).
  rewrite (path_join_file (WeasyPdf.path_join script_dir "..") "generated-pdfs").
  - change (String.prefix "/" "generated-pdfs") with false. cbv iota.
    now rewrite !append_assoc.
  - rewrite E. now apply ends_with_app.
  - rewrite E. destruct a'; discriminate.
Qed.

Lemma old_convert_answers
    (CreatePDF : string -> result (option pyval * string)) (script_dir : string)
    (makedirs : string -> result unit) (write_file : string -> string -> result unit)
    (html_content output_filename : string) (success : bool) (answer : pyval) :
  PdfGeneratorFile.convert_html_to_pdf CreatePDF script_dir makedirs write_file
    html_content output_filename = Ok (success, answer) ->
  exists err pdf,
    CreatePDF html_content = Ok (Some err, pdf)
    /\ if truthy err then success = false /\ answer = PNone
       else success = true
            /\ answer = PStr (PdfGeneratorFile.output_path script_dir output_filename)
            /\ makedirs (dirname (PdfGeneratorFile.output_path script_dir output_filename)) = Ok tt
            /\ write_file (PdfGeneratorFile.output_path script_dir output_filename) pdf = Ok tt.
Proof.
  unfold PdfGeneratorFile.convert_html_to_pdf. intro H.
  destruct (CreatePDF html_content) as [[[err |] pdf] |]; try discriminate H.
  cbn [bind fst snd] in H. exists err, pdf. split; [reflexivity |].
  destruct (truthy err).
  - injection H as <- <-. now split.
  - destruct (makedirs _) as [[] |]; [| discriminate H].
    destruct (write_file _ _) as [[] |]; [| discriminate H].
    cbn [bind] in H. injection H as <- <-. repeat split.
Qed.

Lemma new_convert_answers
    (CreatePDF : string -> result (option pyval * string)) (getcwd : result string)
    (makedirs : string -> result unit) (write_file : string -> string -> result unit)
    (html_content output_filename : string) (success : bool) (answer : pyval) :
  NewPdfGeneratorFile.convert_html_to_pdf CreatePDF getcwd makedirs write_file
    html_content output_filename = Ok (success, answer) ->
  exists err pdf,
    CreatePDF html_content = Ok (err, pdf)
    /\ if truthy (match err with Some e => e | None => PBool false end)
       then success = false /\ answer = PNone
       else exists cwd,
              getcwd = Ok cwd
              /\ let path := WeasyPdf.path_join (WeasyPdf.path_join cwd "generated-pdfs")
                               output_filename in
                 success = true /\ answer = PStr path
                 /\ makedirs (dirname path) = Ok tt /\ write_file path pdf = Ok tt.
Proof.
  unfold NewPdfGeneratorFile.convert_html_to_pdf. intro H.
  destruct (CreatePDF html_content) as [[err pdf] |]; try discriminate H.
  cbn [bind fst snd] in H. exists err, pdf. split; [reflexivity |].
  destruct (truthy _).
  - injection H as <- <-. now split.
  - destruct getcwd as [cwd |]; [| discriminate H]. cbn [bind] in H.
    destruct (makedirs _) as [[] |] eqn:Em; [| discriminate H].
    destruct (write_file _ _) as [[] |] eqn:Ew; [| discriminate H].
    cbn [bind] in H. injection H as <- <-. exists cwd. cbv zeta.
    repeat split; assumption.
Qed.

(** X17: [convert_html_to_pdf] of [pdf-generator.py].  When the converter
    reports errors the answer is [(False, None)], and no directory is asked
    for and no file is written: the answer is the same whatever these two
    operations would do.  The answer is [(True, path)] only when the
    converter reported no error, the directory of [path] was asked for and
    the bytes of the buffer were written to [path]; and [path] is the file
    name under [<script dir>/../generated-pdfs], or the file name alone when
    it starts with a slash. *)
Theorem convert_html_to_pdf_outcomes
    (CreatePDF : string -> result (option pyval * string)) (script_dir : string)
    (makedirs : string -> result unit) (write_file : string -> string -> result unit)
    (html_content output_filename : string) :
  let path := PdfGeneratorFile.output_path script_dir output_filename in
  (forall err pdf, CreatePDF html_content = Ok (Some err, pdf) -> truthy err = true ->
     forall makedirs' write_file',
       PdfGeneratorFile.convert_html_to_pdf CreatePDF script_dir makedirs' write_file'
         html_content output_filename = Ok (false, PNone))
  /\ (forall answer,
        PdfGeneratorFile.convert_html_to_pdf CreatePDF script_dir makedirs write_file
          html_content output_filename = Ok (true, answer) ->
        answer = PStr path
        /\ makedirs (dirname path) = Ok tt
        /\ exists err pdf, CreatePDF html_content = Ok (Some err, pdf)
                           /\ truthy err = false /\ write_file path pdf = Ok tt)
  /\ path = (if String.prefix "/" output_filename then output_filename
             else WeasyPdf.path_join script_dir ".." ++ "/generated-pdfs/" ++ output_filename).
Proof.
  intro path. split; [| split].
  - intros err pdf Hc Ht makedirs' write_file'.
    unfold PdfGeneratorFile.convert_html_to_pdf. rewrite Hc. cbn [bind fst]. now rewrite Ht.
  - intros answer H. apply old_convert_answers in H. destruct H as (err & pdf & Hc & H).
    destruct (truthy err) eqn:Et; [destruct H; discriminate |].
    destruct H as (_ & Ha & Hm & Hw).
    repeat split; [exact Ha | exact Hm |]. exists err, pdf. now repeat split.
  - subst path. apply join_parent_generated_pdfs.
Qed.

(** A run in which the converter reports no error and the file system
    accepts every request. *)
Definition clean_run (html : string) : result (option pyval * string) :=
  Ok (Some (PInt 0), "%PDF-1.4").

Lemma convert_html_to_pdf_outcomes_witness :
  PdfGeneratorFile.convert_html_to_pdf clean_run "/srv/server" (fun _ => Ok tt)
    (fun _ _ => Ok tt) "<html></html>" "Ada_Lovelace_CV.pdf"
  = Ok (true, PStr "/srv/server/../generated-pdfs/Ada_Lovelace_CV.pdf")
  /\ PdfGeneratorFile.convert_html_to_pdf (fun _ => Ok (Some (PInt 3), ""))
       "/srv/server" (fun _ => Raise KeyError) (fun _ _ => Raise KeyError)
       "<html></html>" "Ada_Lovelace_CV.pdf"
     = Ok (false, PNone).
Proof.
  split; [reflexivity |].
  apply (proj1 (convert_html_to_pdf_outcomes (fun _ => Ok (Some (PInt 3), ""))
                  "/srv/server" (fun _ => Ok tt) (fun _ _ => Ok tt)
                  "<html></html>" "Ada_Lovelace_CV.pdf") (PInt 3) "" eq_refl eq_refl).
Defined.

(** X18: [convert_html_to_pdf] of [new-pdf-generator.py] differs in two
    places: a status object without [err] counts as a conversion without
    errors, and the file is written under [generated-pdfs] of the working
    directory.  Errors of the converter give [(False, None)] before the
    working directory is asked for. *)
Theorem new_convert_html_to_pdf_outcomes
    (CreatePDF : string -> result (option pyval * string)) (getcwd : result string)
    (makedirs : string -> result unit) (write_file : string -> string -> result unit)
    (html_content output_filename : string) :
  (forall err pdf, CreatePDF html_content = Ok (Some err, pdf) -> truthy err = true ->
     forall getcwd' makedirs' write_file',
       NewPdfGeneratorFile.convert_html_to_pdf CreatePDF getcwd' makedirs' write_file'
         html_content output_filename = Ok (false, PNone))
  /\ (forall pdf cwd, CreatePDF html_content = Ok (None, pdf) -> getcwd = Ok cwd ->
        let path := WeasyPdf.path_join (WeasyPdf.path_join cwd "generated-pdfs")
                      output_filename in
        makedirs (dirname path) = Ok tt -> write_file path pdf = Ok tt ->
        NewPdfGeneratorFile.convert_html_to_pdf CreatePDF getcwd makedirs write_file
          html_content output_filename = Ok (true, PStr path)
        /\ PdfGeneratorFile.convert_html_to_pdf CreatePDF cwd makedirs write_file
             html_content output_filename = Raise AttributeError)
  /\ (forall answer,
        NewPdfGeneratorFile.convert_html_to_pdf CreatePDF getcwd makedirs write_file
          html_content output_filename = Ok (true, answer) ->
        exists cwd pdf,
          getcwd = Ok cwd
          /\ let path := WeasyPdf.path_join (WeasyPdf.path_join cwd "generated-pdfs")
                           output_filename in
             answer = PStr path
             /\ path = (if String.prefix "/" output_filename then output_filename
                        else WeasyPdf.path_join cwd "generated-pdfs" ++ "/" ++ output_filename)
             /\ makedirs (dirname path) = Ok tt /\ write_file path pdf = Ok tt).
Proof.
  split; [| split].
  - intros err pdf Hc Ht getcwd' makedirs' write_file'.
    unfold NewPdfGeneratorFile.convert_html_to_pdf. rewrite Hc. cbn [bind fst]. now rewrite Ht.
  - intros pdf cwd Hc Hg path Hm Hw. split.
    + unfold NewPdfGeneratorFile.convert_html_to_pdf. rewrite Hc, Hg.
      cbn [bind fst snd truthy]. fold path. now rewrite Hm, Hw.
    + unfold PdfGeneratorFile.convert_html_to_pdf. now rewrite Hc.
  - intros answer H. apply new_convert_answers in H. destruct H as (err & pdf & Hc & H).
    destruct (truthy _); [destruct H; discriminate |].
    destruct H as (cwd & Hg & H). exists cwd, pdf. cbv zeta in *.
    repeat split; try apply H; [exact Hg | apply join_generated_pdfs].
Qed.

Lemma new_convert_html_to_pdf_outcomes_witness :
  NewPdfGeneratorFile.convert_html_to_pdf (fun _ => Ok (None, "%PDF-1.4")) (Ok "/srv")
    (fun _ => Ok tt) (fun _ _ => Ok tt) "<html></html>" "Ada_Lovelace_CV.pdf"
  = Ok (true, PStr "/srv/generated-pdfs/Ada_Lovelace_CV.pdf").
Proof.
  apply (proj1 (proj2 (new_convert_html_to_pdf_outcomes (fun _ => Ok (None, "%PDF-1.4"))
                         (Ok "/srv") (fun _ => Ok tt) (fun _ _ => Ok tt)
                         "<html></html>" "Ada_Lovelace_CV.pdf"))
           "%PDF-1.4" "/srv" eq_refl eq_refl eq_refl eq_refl).
Defined.

(** The name of the file [generate_cv_pdf] asks for: the two names of the
    personal object, with "CV" and "Document" where a key is missing. *)
Definition file_name (record : list (string * pyval)) : string :=
  match part record "personal" (PDict []) with
  | PDict personal =>
      py_str (part personal "firstName" (PStr "CV")) ++ "_"
      ++ py_str (part personal "lastName" (PStr "Document")) ++ "_CV.pdf"
  | _ => ""
  end.

(** X19: when [generate_cv_pdf] answers [(True, path)] on a record, [path]
    is the output path of the file name made of the first and the last
    name of the record, in both generators: neither the style nor the rest
    of the record is part of it, so two documents for the same two names
    are written to the same path.  A name is put in the file name as it is,
    so a first name that starts with a slash gives a path outside
    [generated-pdfs]. *)
Theorem cv_file_path
    (json_loads : string -> result (option pyval))
    (CreatePDF : string -> result (option pyval * string)) (script_dir : string)
    (getcwd : result string)
    (makedirs : string -> result unit) (write_file : string -> string -> result unit)
    (record : list (string * pyval)) (style answer : pyval) :
  (PdfGenerator.generate_cv_pdf json_loads
     (PdfGeneratorFile.convert_html_to_pdf CreatePDF script_dir makedirs write_file)
     (PDict record) style = Ok (true, answer) ->
   answer = PStr (PdfGeneratorFile.output_path script_dir (file_name record))
   /\ exists pdf, write_file (PdfGeneratorFile.output_path script_dir (file_name record)) pdf
                  = Ok tt)
  /\ (NewPdfGenerator.generate_cv_pdf json_loads
        (NewPdfGeneratorFile.convert_html_to_pdf CreatePDF getcwd makedirs write_file)
        (PDict record) style = Ok (true, answer) ->
      exists cwd pdf,
        getcwd = Ok cwd
        /\ answer = PStr (WeasyPdf.path_join (WeasyPdf.path_join cwd "generated-pdfs")
                            (file_name record))
        /\ write_file (WeasyPdf.path_join (WeasyPdf.path_join cwd "generated-pdfs")
                         (file_name record)) pdf = Ok tt).
Proof.
  split; intro H.
  - unfold PdfGenerator.generate_cv_pdf in H. cbn [bind] in H.
    rewrite !get_dict in H. cbn [bind] in H.
    unfold file_name, part.
    destruct (match lookup "personal" record with Some v => v | None => PDict [] end)
      as [| | | | | | personal]; try discriminate H.
    rewrite !get_dict in H. cbn [bind] in H. inv_bind H.
    apply old_convert_answers in H. destruct H as (err & pdf & _ & H).
    destruct (truthy err); [destruct H; discriminate |].
    destruct H as (_ & -> & _ & Hw). split; [reflexivity | now exists pdf].
  - unfold NewPdfGenerator.generate_cv_pdf in H. cbn [bind] in H.
    rewrite !get_dict in H. cbn [bind] in H.
    unfold file_name, part.
    destruct (match lookup "personal" record with Some v => v | None => PDict [] end)
      as [| | | | | | personal]; try discriminate H.
    rewrite !get_dict in H. cbn [bind] in H. inv_bind H.
    apply new_convert_answers in H. destruct H as (err & pdf & _ & H).
    destruct (truthy _); [destruct H; discriminate |].
    destruct H as (cwd & Hg & _ & -> & _ & Hw). exists cwd, pdf. repeat split; assumption.
Qed.

Definition slash_name_record : list (string * pyval) :=
  [("personal", PDict [("firstName", PStr "/tmp/x")])].

Lemma cv_file_path_witness :
  exists answer,
    PdfGenerator.generate_cv_pdf (fun _ => Ok None)
      (PdfGeneratorFile.convert_html_to_pdf clean_run "/srv/server" (fun _ => Ok tt)
         (fun _ _ => Ok tt))
      (PDict slash_name_record) (PStr "modern") = Ok (true, answer)
    /\ answer = PStr "/tmp/x_Document_CV.pdf".
Proof.
  exists (PStr "/tmp/x_Document_CV.pdf"). split; [vm_compute; reflexivity |].
  apply (proj1 (cv_file_path (fun _ => Ok None) clean_run "/srv/server" (Ok "/srv")
                  (fun _ => Ok tt) (fun _ _ => Ok tt)
                  slash_name_record (PStr "modern") (PStr "/tmp/x_Document_CV.pdf"))).
  vm_compute. reflexivity.
Defined.

(** X20: [generate_cv_pdf] composes and then converts, on a record whose
    values [str()] formats as [py_str] does.  On a record the templates
    accept, its answer is the answer of the converter on the
    document of the chosen style and on the file name made of the two
    names; on a record they do not accept it raises, in every style, and
    the converter is not called.  Nothing is caught on the way: neither an
    exception of a template nor one of the converter. *)
Theorem cv_pdf_composes_then_converts
    (json_loads : string -> result (option pyval))
    (convert_html_to_pdf : string -> string -> result (bool * pyval))
    (record : list (string * pyval)) (style : pyval) :
  printable (PDict record) = true ->
  (let template :=
     if eq_str style "professional" then PdfGenerator.generate_professional_template
     else if eq_str style "modern" then PdfGenerator.generate_modern_template
     else if eq_str style "minimal" then PdfGenerator.generate_minimal_template
     else PdfGenerator.generate_professional_template in
   if accepts (PDict record)
   then exists html,
          template (PDict record) = Ok html
          /\ PdfGenerator.generate_cv_pdf json_loads convert_html_to_pdf (PDict record) style
             = convert_html_to_pdf html (file_name record)
   else succeeds (PdfGenerator.generate_cv_pdf json_loads convert_html_to_pdf
                    (PDict record) style) = false)
  /\ (if new_accepts (PDict record)
      then exists html,
             NewPdfGenerator.generate_professional_template (PDict record) = Ok html
             /\ NewPdfGenerator.generate_cv_pdf json_loads convert_html_to_pdf
                  (PDict record) style
                = convert_html_to_pdf html (file_name record)
      else succeeds (NewPdfGenerator.generate_cv_pdf json_loads convert_html_to_pdf
                       (PDict record) style) = false).
Proof.
  intros _. split.
  - cbv zeta.
    pose proof (professional_template_succeeds (PDict record)) as Hp.
    pose proof (modern_template_succeeds (PDict record)) as Hmo.
    pose proof (minimal_template_succeeds (PDict record)) as Hmi.
    unfold PdfGenerator.generate_cv_pdf, file_name. cbn [bind]. rewrite !get_dict. cbn [bind].
    fold (part record "personal" (PDict [])).
    destruct (accepts (PDict record)) eqn:Ea.
    + assert (Hd : exists personal, part record "personal" (PDict []) = PDict personal).
      { unfold accepts in Ea. repeat (apply andb_true_iff in Ea; destruct Ea as [Ea _]).
        destruct (part record "personal" (PDict [])); try discriminate Ea. eauto. }
      destruct Hd as (personal & ->). rewrite !get_dict. cbn [bind]. fold (part personal).
      destruct (eq_str style "professional");
        [| destruct (eq_str style "modern"); [| destruct (eq_str style "minimal")]];
        match goal with
        | |- exists html, ?t = Ok html /\ _ => destruct t as [html |]; try discriminate
        end; exists html; split; reflexivity.
    + destruct (part record "personal" (PDict [])); try reflexivity.
      rewrite !get_dict. cbn [bind].
      destruct (eq_str style "professional");
        [| destruct (eq_str style "modern"); [| destruct (eq_str style "minimal")]];
        match goal with
        | |- succeeds (bind ?t _) = false => destruct t; [discriminate | reflexivity]
        end.
  - pose proof (new_template_succeeds (PDict record)) as Hp.
    unfold NewPdfGenerator.generate_cv_pdf, file_name. cbn [bind]. rewrite !get_dict. cbn [bind].
    fold (part record "personal" (PDict [])).
    unfold NewPdfGenerator.generate_modern_template, NewPdfGenerator.generate_minimal_template.
    destruct (new_accepts (PDict record)) eqn:Ea.
    + assert (Hd : exists personal, part record "personal" (PDict []) = PDict personal).
      { unfold new_accepts in Ea. repeat (apply andb_true_iff in Ea; destruct Ea as [Ea _]).
        destruct (part record "personal" (PDict [])); try discriminate Ea. eauto. }
      destruct Hd as (personal & ->). rewrite !get_dict. cbn [bind]. fold (part personal).
      destruct (NewPdfGenerator.generate_professional_template (PDict record)) as [html |];
        [| discriminate Hp].
      exists html. split; [reflexivity |].
      destruct (eq_str style "professional");
        [| destruct (eq_str style "modern"); [| destruct (eq_str style "minimal")]];
        reflexivity.
    + destruct (part record "personal" (PDict [])); try reflexivity.
      rewrite !get_dict. cbn [bind].
      destruct (NewPdfGenerator.generate_professional_template (PDict record));
        [discriminate Hp |].
      destruct (eq_str style "professional");
        [| destruct (eq_str style "modern"); [| destruct (eq_str style "minimal")]];
        reflexivity.
Qed.

Lemma cv_pdf_composes_then_converts_witness :
  exists html,
    PdfGenerator.generate_modern_template sample_record = Ok html
    /\ PdfGenerator.generate_cv_pdf (fun _ => Ok None) accepting_renderer
         sample_record (PStr "modern")
       = accepting_renderer html "Ada_Lovelace_CV.pdf".
Proof.
  exact (proj1 (cv_pdf_composes_then_converts (fun _ => Ok None) accepting_renderer
                  [("personal", PDict [("firstName", PStr "Ada"); ("lastName", PStr "Lovelace")])]
                  (PStr "modern") eq_refl)).
Defined.

(** ** The date range of an entry *)

(** X21: every experience entry, and every extracurricular entry of
    [new-pdf-generator.py], whose values [str()] formats as [py_str] does
    shows its dates as [<startDate> - <end>] in one
    element, in each template; [<end>] is "Present" when [isCurrent] is
    truthy (also for a text or a number) and the [endDate] otherwise; both
    dates are the values of the record as [str()] gives them, not
    reformatted, and a missing date is the empty text. *)
Theorem entry_date_range (entry : list (string * pyval)) :
  fields_formattable (PDict entry) = true ->
  let range := shown entry "startDate" ++ " - " ++ shown_end entry in
  rendered_in (py "<p class=`date-range`>" ++ range ++ "</p>")
    (PdfGenerator.Professional.experience_entry (PDict entry))
  /\ rendered_in (py "<p class=`date-range`>" ++ range ++ "</p>")
       (PdfGenerator.Modern.experience_entry (PDict entry))
  /\ rendered_in (py "<p class=`date-range`>" ++ range ++ "</p>")
       (PdfGenerator.Minimal.experience_entry (PDict entry))
  /\ rendered_in (py "<div class=`date-range`>" ++ range ++ "</div>")
       (NewPdfGenerator.experience_entry (PDict entry))
  /\ rendered_in (py "<div class=`date-range`>" ++ range ++ "</div>")
       (NewPdfGenerator.extracurricular_entry (PDict entry)).
Proof.
  intros _. cbv zeta. unfold shown_end, shown.
  repeat split; entry_unfold; unfold field;
    destruct (lookup "isCurrent" entry) as [current |]; cbn [bind truthy];
    try destruct (truthy current); cbn [bind]; rewrite ?get_dict; cbn [bind];
    (eexists; split; [reflexivity |]);
    repeat match goal with
           | |- context [py_str ?v] =>
               lazymatch v with
               | PStr "Present" => fail
               | _ => let t := fresh "text" in generalize (py_str v); intro t
               end
           end;
    rewrite ?py_str_text, ?append_assoc; cbn -[py_str]; find_infix.
Qed.

Lemma entry_date_range_witness :
  rendered_in (py "<p class=`date-range`>2020-01-01 - Present</p>")
    (PdfGenerator.Professional.experience_entry
       (PDict [("startDate", PStr "2020-01-01"); ("isCurrent", PBool true)])).
Proof.
  exact (proj1 (entry_date_range [("startDate", PStr "2020-01-01"); ("isCurrent", PBool true)]
                  eq_refl)).
Defined.

(** ** The exceptions of the templates *)

(** The result is a value, or one of the two exceptions that the reading of
    a record can raise: [AttributeError] (a method of a value that has none)
    and [TypeError] (a loop over a value that cannot be iterated, a text
    joined to a value that is not a text). *)
Definition mild {A : Type} (r : result A) : bool :=
  match r with
  | Ok _ | Raise AttributeError | Raise TypeError => true
  | Raise _ => false
  end.

Lemma mild_bind {A B : Type} (m : result A) (k : A -> result B) :
  mild m = true -> (forall a, mild (k a) = true) -> mild (bind m k) = true.
Proof. destruct m as [a | e]; cbn [bind]; intros Hm Hk; [apply Hk | exact Hm]. Qed.

Lemma mild_get (d : pyval) (k : string) (default : pyval) : mild (get d k default) = true.
Proof. destruct d; try reflexivity. cbn [get]. now destruct (lookup k entries). Qed.

Lemma mild_get1 (d : pyval) (k : string) : mild (get1 d k) = true.
Proof. apply mild_get. Qed.

Lemma mild_iter (v : pyval) : mild (iter v) = true.
Proof. now destruct v. Qed.

Lemma mild_capitalize (v : pyval) : mild (py_capitalize v) = true.
Proof. now destruct v. Qed.

Lemma mild_str_add (s : string) (v : pyval) : mild (str_add s v) = true.
Proof. now destruct v. Qed.

Lemma mild_for_each (xs : list pyval) (body : pyval -> result string) :
  (forall x, mild (body x) = true) -> mild (for_each xs body) = true.
Proof.
  intro H. induction xs as [| x xs IH]; [reflexivity |].
  cbn [for_each]. apply mild_bind; [apply H | intro].
  apply mild_bind; [exact IH | reflexivity].
Qed.

Ltac mild_steps :=
  repeat match goal with
         | |- mild (bind _ _) = true => apply mild_bind; [| intro]
         | |- mild (get _ _ _) = true => apply mild_get
         | |- mild (get1 _ _) = true => apply mild_get1
         | |- mild (iter _) = true => apply mild_iter
         | |- mild (py_capitalize _) = true => apply mild_capitalize
         | |- mild (str_add _ _) = true => apply mild_str_add
         | |- mild (for_each _ _) = true => apply mild_for_each; intro
         | |- mild (Ok _) = true => reflexivity
         | |- mild (if ?b then _ else _) = true => destruct b
         end.

Ltac unfold_composers :=
  unfold PdfGenerator.generate_professional_template, PdfGenerator.generate_modern_template,
    PdfGenerator.generate_minimal_template,
    NewPdfGenerator.generate_professional_template;
  unfold PdfGenerator.Professional.header, PdfGenerator.Professional.summary_section,
    PdfGenerator.Professional.competencies_section, PdfGenerator.Professional.technical_skills,
    PdfGenerator.Professional.soft_skills, PdfGenerator.Professional.skills_item,
    PdfGenerator.Professional.experience_section, PdfGenerator.Professional.experience_entry,
    PdfGenerator.Professional.education_section, PdfGenerator.Professional.education_entry,
    PdfGenerator.Professional.certificates_section, PdfGenerator.Professional.certificate_entry,
    PdfGenerator.Professional.languages_section, PdfGenerator.Professional.language_entry,
    PdfGenerator.Professional.additional_section,
    PdfGenerator.Modern.header, PdfGenerator.Modern.summary_section,
    PdfGenerator.Modern.competencies_section, PdfGenerator.Modern.technical_skills,
    PdfGenerator.Modern.soft_skills, PdfGenerator.Modern.skill_pill,
    PdfGenerator.Modern.experience_section, PdfGenerator.Modern.experience_entry,
    PdfGenerator.Modern.education_section, PdfGenerator.Modern.education_entry,
    PdfGenerator.Modern.certificates_languages_section,
    PdfGenerator.Modern.certificates_column, PdfGenerator.Modern.certificate_entry,
    PdfGenerator.Modern.languages_column, PdfGenerator.Modern.language_entry,
    PdfGenerator.Modern.additional_section,
    PdfGenerator.Minimal.header, PdfGenerator.Minimal.summary_section,
    PdfGenerator.Minimal.skills_section, PdfGenerator.Minimal.extend_with,
    PdfGenerator.Minimal.skill_pill,
    PdfGenerator.Minimal.experience_section, PdfGenerator.Minimal.experience_entry,
    PdfGenerator.Minimal.education_section, PdfGenerator.Minimal.education_entry,
    PdfGenerator.Minimal.certificates_section, PdfGenerator.Minimal.certificate_entry,
    PdfGenerator.Minimal.languages_section, PdfGenerator.Minimal.language_entry,
    PdfGenerator.linkedin_fragment, PdfGenerator.achievements_fragment,
    PdfGenerator.expiration_fragment, PdfGenerator.end_date_of,
    NewPdfGenerator.header, NewPdfGenerator.summary_section,
    NewPdfGenerator.competencies_section, NewPdfGenerator.technical_skills,
    NewPdfGenerator.soft_skills, NewPdfGenerator.skill_item,
    NewPdfGenerator.experience_section, NewPdfGenerator.experience_entry,
    NewPdfGenerator.education_section, NewPdfGenerator.education_entry,
    NewPdfGenerator.certificates_section, NewPdfGenerator.certificate_entry,
    NewPdfGenerator.extracurricular_section, NewPdfGenerator.extracurricular_entry,
    NewPdfGenerator.languages_section, NewPdfGenerator.language_entry,
    NewPdfGenerator.additional_section,
    NewPdfGenerator.linkedin_fragment, NewPdfGenerator.achievements_fragment,
    NewPdfGenerator.expiry_fragment, NewPdfGenerator.end_date_of,
    NewPdfGenerator.py_and, py_or.

Lemma templates_are_mild (cv_data : pyval) :
  mild (PdfGenerator.generate_professional_template cv_data) = true
  /\ mild (PdfGenerator.generate_modern_template cv_data) = true
  /\ mild (PdfGenerator.generate_minimal_template cv_data) = true
  /\ mild (NewPdfGenerator.generate_professional_template cv_data) = true.
Proof.
  repeat split; unfold_composers; mild_steps; reflexivity.
Qed.

(** X22: on a value of bounded size (no integer of more than 4300 digits,
    nothing nested deeper than 100 levels), a template that does not return
    a document raises [AttributeError] or [TypeError]: no [KeyError] (every
    key is read with [get]), no [ValueError], and nothing else. *)
Theorem templates_raise_only (cv_data : pyval) (e : exn) :
  bounded cv_data = true ->
  PdfGenerator.generate_professional_template cv_data = Raise e
  \/ PdfGenerator.generate_modern_template cv_data = Raise e
  \/ PdfGenerator.generate_minimal_template cv_data = Raise e
  \/ NewPdfGenerator.generate_professional_template cv_data = Raise e
  \/ NewPdfGenerator.generate_modern_template cv_data = Raise e
  \/ NewPdfGenerator.generate_minimal_template cv_data = Raise e ->
  e = AttributeError \/ e = TypeError.
Proof.
  destruct (templates_are_mild cv_data) as (H1 & H2 & H3 & H4).
  unfold NewPdfGenerator.generate_modern_template, NewPdfGenerator.generate_minimal_template.
  intros _ [H | [H | [H | [H | [H | H]]]]]; rewrite H in *;
    destruct e; try discriminate; auto.
Qed.

Lemma templates_raise_only_witness :
  TypeError = AttributeError \/ TypeError = TypeError.
Proof.
  apply (templates_raise_only (PDict [("experiences", PInt 3)]) TypeError).
  - vm_compute. reflexivity.
  - left. vm_compute. reflexivity.
Defined.
